(** * Cerebrum tool manager: a shallow embedding of [cerebrum/manager/tool.py]

    The development follows the methods of [ToolManager]: the version
    codec, the cache listing, the newest-version selection, the base64
    content transport, packaging, the requirement check and installer,
    and the local branch of [load_tool] with its [sys.path] and
    [sys.modules] life cycle.

    Conventions.  Python [str] values that name versions, paths and
    packages are [string]s of ASCII text; the text that the requirement
    check decodes from files is a list of code points ([PyText]).
    [bytes] values are [list byte], a Python exception is a value of
    [exn] carried by [result], and process-wide interpreter state is
    threaded explicitly. *)

From Stdlib Require Import ZArith NArith List String Ascii Bool Lia.
From Stdlib Require Import Strings.Byte.
From stdpp Require Import gmap strings.
Import ListNotations.

Set Warnings "-register-all".


Local Open Scope string_scope.
Local Open Scope list_scope.

(** ** Exceptions and results *)

Inductive exn : Type :=
| FileNotFoundError
| NotADirectoryError
| IsADirectoryError
| JSONDecodeError
| KeyError (key : string)
| TypeError
| AttributeError (attr : string)
| ValueError
| IndexError
| BinasciiError
| ImportFault (msg : string)
| CalledProcessError (code : Z)
| OSError (msg : string).

Inductive result (A : Type) : Type :=
| Ok (a : A)
| Raise (e : exn).
Arguments Ok {A} a.
Arguments Raise {A} e.

Definition bind {A B : Type} (r : result A) (k : A -> result B) : result B :=
  match r with
  | Ok a => k a
  | Raise e => Raise e
  end.

Notation "'let*' x := r 'in' k" := (bind r (fun x => k))
  (at level 10, x name, r at level 100, k at level 200).

Definition is_ok {A : Type} (r : result A) : bool :=
  match r with Ok _ => true | Raise _ => false end.

(** [mapM f l] evaluates [f] on the elements from left to right and stops
    at the first exception, like a list comprehension whose element
    expression raises. *)
Fixpoint mapM {A B : Type} (f : A -> result B) (l : list A) : result (list B) :=
  match l with
  | [] => Ok []
  | x :: l' => let* y := f x in let* ys := mapM f l' in Ok (y :: ys)
  end.

(** ** Python string primitives *)

Module PyStr.

Definition char_eqb (a b : ascii) : bool := Ascii.eqb a b.

(** [str.startswith] *)
Fixpoint startswith (s p : string) {struct p} : bool :=
  match p with
  | EmptyString => true
  | String c p' =>
    match s with
    | EmptyString => false
    | String d s' => char_eqb c d && startswith s' p'
    end
  end.

(** [str.endswith], through the reversed strings. *)
Fixpoint rev_onto (s acc : string) : string :=
  match s with
  | EmptyString => acc
  | String c s' => rev_onto s' (String c acc)
  end.

Definition rev (s : string) : string := rev_onto s EmptyString.

Definition endswith (s p : string) : bool := startswith (rev s) (rev p).

(** [str.replace(old, new)]: non-overlapping occurrences of [old], found
    from the left, are replaced by [new]; [skip] counts the characters
    of a just-matched occurrence that are still to be passed over. *)
Fixpoint replace_from (old new : string) (skip : nat) (s : string) : string :=
  match s with
  | EmptyString => EmptyString
  | String c s' =>
    match skip with
    | S k => replace_from old new k s'
    | O =>
      if startswith s old
      then new +:+ replace_from old new (String.length old - 1) s'
      else String c (replace_from old new 0 s')
    end
  end.

(** With an empty [old], Python puts [new] before every character and
    at the end. *)
Fixpoint interleave (new s : string) : string :=
  match s with
  | EmptyString => new
  | String c s' => new +:+ String c (interleave new s')
  end.

Definition replace (s old new : string) : string :=
  match old with
  | EmptyString => interleave new s
  | _ => replace_from old new 0 s
  end.

(** [str.split(sep)] for a non-empty separator: the first piece and the
    remaining pieces. *)
Fixpoint split_from (sep : string) (skip : nat) (s : string) : string * list string :=
  match s with
  | EmptyString => (EmptyString, [])
  | String c s' =>
    match skip with
    | S k => split_from sep k s'
    | O =>
      if startswith s sep
      then (EmptyString,
            let '(p, ps) := split_from sep (String.length sep - 1) s' in p :: ps)
      else let '(p, ps) := split_from sep 0 s' in (String c p, ps)
    end
  end.

Definition split (s sep : string) : list string :=
  let '(p, ps) := split_from sep 0 s in p :: ps.

(** Character-wise image of a string. *)
Fixpoint map (f : ascii -> ascii) (s : string) : string :=
  match s with
  | EmptyString => EmptyString
  | String c s' => String (f c) (map f s')
  end.

Fixpoint forallb (p : ascii -> bool) (s : string) : bool :=
  match s with
  | EmptyString => true
  | String c s' => p c && forallb p s'
  end.

Definition is_digit (c : ascii) : bool :=
  let n := N_of_ascii c in (48 <=? n)%N && (n <=? 57)%N.

Definition is_upper (c : ascii) : bool :=
  let n := N_of_ascii c in (65 <=? n)%N && (n <=? 90)%N.

(** [str.lower] on ASCII text. *)
Definition lower_char (c : ascii) : ascii :=
  if is_upper c then ascii_of_N (N_of_ascii c + 32) else c.

Definition lower (s : string) : string := map lower_char s.

(** [str.isspace] on an ASCII character: tab, line feed, vertical tab,
    form feed, carriage return, the four separators 0x1c-0x1f, space. *)
Definition is_space (c : ascii) : bool :=
  let n := N_of_ascii c in
  ((9 <=? n)%N && (n <=? 13)%N) || ((28 <=? n)%N && (n <=? 32)%N).

Fixpoint lstrip (s : string) : string :=
  match s with
  | EmptyString => EmptyString
  | String c s' => if is_space c then lstrip s' else s
  end.

(** [str.strip()] *)
Definition strip (s : string) : string := rev (lstrip (rev (lstrip s))).

(** Line boundaries of [str.splitlines] among ASCII characters. *)
Definition is_linebreak (c : ascii) : bool :=
  let n := N_of_ascii c in
  ((10 <=? n)%N && (n <=? 13)%N) || ((28 <=? n)%N && (n <=? 30)%N).

(** [str.splitlines()]: a carriage return followed by a line feed is one
    boundary, and a final boundary does not open an empty last line.
    [cur] is the line read so far, reversed. *)
Fixpoint splitlines_from (cur : string) (nonempty : bool) (s : string) : list string :=
  match s with
  | EmptyString => if nonempty then [rev cur] else []
  | String c s' =>
    if is_linebreak c then
      match s' with
      | String d s'' =>
        if (N_of_ascii c =? 13)%N && (N_of_ascii d =? 10)%N
        then rev cur :: splitlines_from EmptyString false s''
        else rev cur :: splitlines_from EmptyString false s'
      | EmptyString => [rev cur]
      end
    else splitlines_from (String c cur) true s'
  end.

Definition splitlines (s : string) : list string :=
  splitlines_from EmptyString false s.

End PyStr.

(** ** VersionCodec: [_version_to_path] and [_path_to_version] *)

(** [version] is a [str] or [None]. *)
Definition _version_to_path (version : option string) : string :=
  match version with
  | None => "latest"
  | Some v => PyStr.replace v "." "-"
  end.

Definition _path_to_version (path_version : string) : string :=
  PyStr.replace path_version "-" ".".

(** ** Version ordering: [_get_newest_version] *)

Module PyInt.

Definition digit_val (c : ascii) : Z := Z.of_N (N_of_ascii c) - 48.

(** Decimal digits, where one underscore may stand between two digits.
    [prev] tells whether the previous character was a digit. *)
Fixpoint digits_from (acc : Z) (prev : bool) (s : string) : option Z :=
  match s with
  | EmptyString => if prev then Some acc else None
  | String c s' =>
    if PyStr.is_digit c then digits_from (10 * acc + digit_val c) true s'
    else if (N_of_ascii c =? 95)%N
         then (if prev then digits_from acc false s' else None)
         else None
  end.

Definition digits (s : string) : option Z := digits_from 0 false s.

(** The white space [int] passes over at both ends.  It is the C
    locale's: tab, line feed, vertical tab, form feed, carriage return
    and space.  The separators 0x1c-0x1f, which [str.strip] removes, are
    not part of it.  Of the characters above 0x7f, read as the code
    points of the same number, the next-line character 0x85 and the
    no-break space 0xa0 become spaces before the number is read; all
    others are rejected like any other character that is no digit. *)
Definition is_space (c : ascii) : bool :=
  let n := N_of_ascii c in
  ((9 <=? n)%N && (n <=? 13)%N) || (n =? 32)%N || (n =? 133)%N || (n =? 160)%N.

Fixpoint lskip (s : string) : string :=
  match s with
  | EmptyString => EmptyString
  | String c s' => if is_space c then lskip s' else s
  end.

Definition trim (s : string) : string :=
  PyStr.rev (lskip (PyStr.rev (lskip s))).

(** The number of digit characters, underscores left out. *)
Fixpoint count_digits (s : string) : N :=
  match s with
  | EmptyString => 0
  | String c s' => (if PyStr.is_digit c then 1 else 0) + count_digits s'
  end.

(** The interpreter's limit on the digits of a decimal literal
    ([sys.get_int_max_str_digits()]), at its default. *)
Definition max_str_digits : N := 4300.

(** The digits after the sign: their value, unless there are more of
    them than the limit allows. *)
Definition magnitude (s : string) : option Z :=
  match digits s with
  | Some n => if (count_digits s <=? max_str_digits)%N then Some n else None
  | None => None
  end.

(** [int(x)] for a [str] argument in base ten: surrounding white space
    is dropped, one sign is accepted, and anything else than digits, or
    more digits than the limit, raises [ValueError]. *)
Definition int (x : string) : result Z :=
  let t := trim x in
  let parsed :=
    match t with
    | String c r =>
      if (N_of_ascii c =? 43)%N then magnitude r
      else if (N_of_ascii c =? 45)%N then option_map Z.opp (magnitude r)
      else magnitude t
    | EmptyString => None
    end in
  match parsed with
  | Some n => Ok n
  | None => Raise ValueError
  end.

End PyInt.

(** The sort key [lambda v: [int(x) for x in v.split(".")]]. *)
Definition version_key (v : string) : result (list Z) :=
  mapM PyInt.int (PyStr.split v ".").

(** [a < b] on lists of integers: the first differing position decides,
    and a proper prefix is smaller. *)
Fixpoint list_lt (a b : list Z) : bool :=
  match a, b with
  | _, [] => false
  | [], _ :: _ => true
  | x :: a', y :: b' =>
    if (x =? y)%Z then list_lt a' b' else (x <? y)%Z
  end.

(** [sorted(xs, key=...)] on the decorated list: a stable sort that only
    uses [<] on keys.  An element goes in front of the first element whose
    key is not smaller than its own, so equal keys keep their input
    order. *)
Fixpoint insert_by_key {A : Type} (x : list Z * A) (l : list (list Z * A)) :
  list (list Z * A) :=
  match l with
  | [] => [x]
  | y :: l' => if list_lt (fst y) (fst x) then y :: insert_by_key x l' else x :: l
  end.

Fixpoint sorted_by_key {A : Type} (l : list (list Z * A)) : list (list Z * A) :=
  match l with
  | [] => []
  | x :: l' => insert_by_key x (sorted_by_key l')
  end.

(** The decoration step: keys are computed for every element, in order,
    before any comparison. *)
Definition keyed (v : string) : result (list Z * string) :=
  let* k := version_key v in Ok (k, v).

Definition decorate (versions : list string) : result (list (list Z * string)) :=
  mapM keyed versions.

Definition _get_newest_version (versions : list string) : result (option string) :=
  match versions with
  | [] => Ok None
  | _ :: _ =>
    let* keyed := decorate versions in
    match last (sorted_by_key keyed) with
    | Some kv => Ok (Some (snd kv))
    | None => Raise IndexError
    end
  end.

(** ** Content transport: [base64.b64encode] and [base64.b64decode] *)

Module Base64.

Definition byte_of_N (n : N) : byte :=
  match Byte.of_N (n mod 256) with
  | Some b => b
  | None => x00
  end.

Definition alphabet : string :=
  "ABCDEFGHIJKLMNOPQRSTUVWXYZabcdefghijklmnopqrstuvwxyz0123456789+/".

(** [table_b2a_base64] *)
Definition b2a (n : N) : ascii :=
  match String.get (N.to_nat n) alphabet with
  | Some c => c
  | None => "="%char
  end.

(** [table_a2b_base64]: the value of an alphabet character, [None] for
    every other character. *)
Definition a2b (c : ascii) : option N :=
  let n := N_of_ascii c in
  if (65 <=? n)%N && (n <=? 90)%N then Some (n - 65)%N
  else if (97 <=? n)%N && (n <=? 122)%N then Some (n - 71)%N
  else if (48 <=? n)%N && (n <=? 57)%N then Some (n + 4)%N
  else if (n =? 43)%N then Some 62%N
  else if (n =? 47)%N then Some 63%N
  else None.

Definition is_pad (c : ascii) : bool := (N_of_ascii c =? 61)%N.

(** The four sextets of three bytes [a], [b], [c], and the last sextet
    of a group cut short after [a] or after [b]. *)
Definition sextet1 (a : N) : N := N.shiftr a 2.
Definition sextet2 (a b : N) : N := N.lor (N.shiftl (N.land a 3) 4) (N.shiftr b 4).
Definition sextet3 (b c : N) : N := N.lor (N.shiftl (N.land b 15) 2) (N.shiftr c 6).
Definition sextet4 (c : N) : N := N.land c 63.
Definition sextet2_last (a : N) : N := N.shiftl (N.land a 3) 4.
Definition sextet3_last (b : N) : N := N.shiftl (N.land b 15) 2.

(** [binascii.b2a_base64(data, newline=False)]: three bytes give four
    characters; one or two remaining bytes are padded with [=]. *)
Fixpoint b2a_base64 (data : list byte) : string :=
  match data with
  | [] => EmptyString
  | [x] =>
    let a := Byte.to_N x in
    String (b2a (sextet1 a)) (String (b2a (sextet2_last a)) "==")
  | [x; y] =>
    let a := Byte.to_N x in
    let b := Byte.to_N y in
    String (b2a (sextet1 a))
      (String (b2a (sextet2 a b)) (String (b2a (sextet3_last b)) "="))
  | x :: y :: z :: rest =>
    let a := Byte.to_N x in
    let b := Byte.to_N y in
    let c := Byte.to_N z in
    String (b2a (sextet1 a))
      (String (b2a (sextet2 a b))
        (String (b2a (sextet3 b c))
          (String (b2a (sextet4 c)) (b2a_base64 rest))))
  end.

Definition emit (b : byte) (r : result (list byte)) : result (list byte) :=
  let* bs := r in Ok (b :: bs).

(** [binascii.a2b_base64(data, strict_mode=False)].  [quad_pos] is the
    position inside the current group of four characters, [leftchar]
    the bits not yet written, [pads] the padding characters seen since
    the last alphabet character.  Characters outside the alphabet are
    skipped; a padding sequence that completes a group ends the
    decoding; input that ends inside a group is an error. *)
Fixpoint a2b_from (quad_pos : nat) (leftchar : N) (pads : nat) (s : string) :
  result (list byte) :=
  match s with
  | EmptyString =>
    match quad_pos with
    | O => Ok []
    | _ => Raise BinasciiError
    end
  | String c s' =>
    if is_pad c then
      if (2 <=? quad_pos)%nat then
        if (4 <=? quad_pos + S pads)%nat then Ok []
        else a2b_from quad_pos leftchar (S pads) s'
      else a2b_from quad_pos leftchar pads s'
    else
      match a2b c with
      | None => a2b_from quad_pos leftchar pads s'
      | Some v =>
        match quad_pos with
        | 0%nat => a2b_from 1 v 0 s'
        | 1%nat =>
          emit (byte_of_N (N.lor (N.shiftl leftchar 2) (N.shiftr v 4)))
               (a2b_from 2 (N.land v 15) 0 s')
        | 2%nat =>
          emit (byte_of_N (N.lor (N.shiftl leftchar 4) (N.shiftr v 2)))
               (a2b_from 3 (N.land v 3) 0 s')
        | _ =>
          emit (byte_of_N (N.lor (N.shiftl leftchar 6) v))
               (a2b_from 0 0 0 s')
        end
      end
  end.

Definition is_ascii (s : string) : bool :=
  PyStr.forallb (fun c => (N_of_ascii c <? 128)%N) s.

(** [base64.b64encode(data)] *)
Definition b64encode (data : list byte) : list byte :=
  list_byte_of_string (b2a_base64 data).

(** [base64.b64decode(s)] with a [str] argument, which must be ASCII. *)
Definition b64decode (s : string) : result (list byte) :=
  if is_ascii s then a2b_from 0 0 0 s else Raise ValueError.

End Base64.

Definition bytes_is_ascii (data : list byte) : bool :=
  List.forallb (fun b => (Byte.to_N b <? 128)%N) data.

(** [data.decode("utf-8")] where the text is kept as a [string]: this is
    the decoding of base64 text, which is ASCII, so that the decoded
    text has the same characters as the bytes.  The decoder of arbitrary
    data is [UTF8.decode] below. *)
Definition decode_utf8 (data : list byte) : result string :=
  if bytes_is_ascii data then Ok (string_of_list_byte data)
  else Raise ValueError.

(** ** Unicode text *)

(** The text that [bytes.decode] returns is a list of code points.  The
    functions below are the [str] methods the requirement check calls,
    with the white space and the line boundaries of the whole character
    set. *)
Module PyText.

(** The code points of a [string], each character read as the code point
    of its number. *)
Definition of_string (s : string) : list N :=
  List.map N_of_ascii (list_ascii_of_string s).

(** Equality of two texts, as [==] and [in] test it. *)
Fixpoint eqb (s t : list N) : bool :=
  match s, t with
  | [], [] => true
  | c :: s', d :: t' => (c =? d)%N && eqb s' t'
  | _, _ => false
  end.

(** [str.startswith] *)
Fixpoint startswith (s p : list N) {struct p} : bool :=
  match p with
  | [] => true
  | c :: p' =>
    match s with
    | [] => false
    | d :: s' => (c =? d)%N && startswith s' p'
    end
  end.

(** [str.split(sep)] for a non-empty separator: the first piece and the
    remaining pieces; [skip] counts the characters of a just-matched
    separator that are still to be passed over. *)
Fixpoint split_from (sep : list N) (skip : nat) (s : list N) : list N * list (list N) :=
  match s with
  | [] => ([], [])
  | c :: s' =>
    match skip with
    | S k => split_from sep k s'
    | O =>
      if startswith s sep
      then ([], let '(p, ps) := split_from sep (List.length sep - 1) s' in p :: ps)
      else let '(p, ps) := split_from sep 0 s' in (c :: p, ps)
    end
  end.

Definition split (s sep : list N) : list (list N) :=
  let '(p, ps) := split_from sep 0 s in p :: ps.

(** [str.isspace] on one character: the characters of bidirectional type
    WS, B or S and those of category Zs. *)
Definition is_space (c : N) : bool :=
  (((9 <=? c) && (c <=? 13)) || ((28 <=? c) && (c <=? 32))
   || (c =? 133) || (c =? 160) || (c =? 5760)
   || ((8192 <=? c) && (c <=? 8202))
   || (c =? 8232) || (c =? 8233) || (c =? 8239) || (c =? 8287) || (c =? 12288))%N.

Fixpoint lstrip (s : list N) : list N :=
  match s with
  | [] => []
  | c :: s' => if is_space c then lstrip s' else s
  end.

(** [str.strip()] *)
Definition strip (s : list N) : list N :=
  List.rev (lstrip (List.rev (lstrip s))).

(** The line boundaries of [str.splitlines]: line feed, vertical tab,
    form feed, carriage return, the file, group and record separators,
    next line, line separator and paragraph separator. *)
Definition is_linebreak (c : N) : bool :=
  (((10 <=? c) && (c <=? 13)) || ((28 <=? c) && (c <=? 30))
   || (c =? 133) || (c =? 8232) || (c =? 8233))%N.

(** [str.splitlines()]: a carriage return followed by a line feed is one
    boundary, and a final boundary does not open an empty last line.
    [cur] is the line read so far, reversed. *)
Fixpoint splitlines_from (cur : list N) (nonempty : bool) (s : list N) : list (list N) :=
  match s with
  | [] => if nonempty then [List.rev cur] else []
  | c :: s' =>
    if is_linebreak c then
      match s' with
      | d :: s'' =>
        if (c =? 13)%N && (d =? 10)%N
        then List.rev cur :: splitlines_from [] false s''
        else List.rev cur :: splitlines_from [] false s'
      | [] => [List.rev cur]
      end
    else splitlines_from (c :: cur) true s'
  end.

Definition splitlines (s : list N) : list (list N) :=
  splitlines_from [] false s.

Definition is_ascii (s : list N) : bool :=
  List.forallb (fun c => (c <? 128)%N) s.

Definition lower_ascii (c : N) : N :=
  if ((65 <=? c) && (c <=? 90))%N then (c + 32)%N else c.

(** [str.lower]: on ASCII text the letters A-Z are mapped to a-z.  On
    other text the result follows the case mappings of the Unicode
    character database, given here as [unicode_lower]. *)
Definition lower (unicode_lower : list N -> list N) (s : list N) : list N :=
  if is_ascii s then List.map lower_ascii s else unicode_lower s.

End PyText.

(** [data.decode("utf-8")], strict: one to four bytes per code point in
    the shortest form, no surrogate and nothing above 0x10ffff; anything
    else raises [UnicodeDecodeError], a [ValueError]. *)
Module UTF8.

(** A continuation byte, 0x80-0xbf. *)
Definition is_cont (b : N) : bool := ((128 <=? b) && (b <=? 191))%N.

(** The second byte after the lead [b0] of a three-byte form: 0xe0 must
    not open an over-long form, 0xed must not open a surrogate. *)
Definition second_of_three (b0 b1 : N) : bool :=
  if (b0 =? 224)%N then ((160 <=? b1) && (b1 <=? 191))%N
  else if (b0 =? 237)%N then ((128 <=? b1) && (b1 <=? 159))%N
  else is_cont b1.

(** The second byte after the lead [b0] of a four-byte form: 0xf0 must
    not open an over-long form, 0xf4 must stay below 0x110000. *)
Definition second_of_four (b0 b1 : N) : bool :=
  if (b0 =? 240)%N then ((144 <=? b1) && (b1 <=? 191))%N
  else if (b0 =? 244)%N then ((128 <=? b1) && (b1 <=? 143))%N
  else is_cont b1.

Fixpoint code_points (data : list N) : option (list N) :=
  match data with
  | [] => Some []
  | b0 :: r0 =>
    if (b0 <? 128)%N then option_map (cons b0) (code_points r0)
    else if ((194 <=? b0) && (b0 <=? 223))%N then
      match r0 with
      | b1 :: r1 =>
        if is_cont b1
        then option_map (cons ((b0 - 192) * 64 + (b1 - 128))%N) (code_points r1)
        else None
      | _ => None
      end
    else if ((224 <=? b0) && (b0 <=? 239))%N then
      match r0 with
      | b1 :: b2 :: r2 =>
        if second_of_three b0 b1 && is_cont b2
        then option_map (cons ((b0 - 224) * 4096 + (b1 - 128) * 64 + (b2 - 128))%N)
                        (code_points r2)
        else None
      | _ => None
      end
    else if ((240 <=? b0) && (b0 <=? 244))%N then
      match r0 with
      | b1 :: b2 :: b3 :: r3 =>
        if second_of_four b0 b1 && is_cont b2 && is_cont b3
        then option_map
               (cons ((b0 - 240) * 262144 + (b1 - 128) * 4096 + (b2 - 128) * 64 + (b3 - 128))%N)
               (code_points r3)
        else None
      | _ => None
      end
    else None
  end.

Definition decode (data : list byte) : result (list N) :=
  match code_points (List.map Byte.to_N data) with
  | Some text => Ok text
  | None => Raise ValueError
  end.

End UTF8.

(** ** JSON values and dictionary access *)

(** The result of [json.load]; numbers are the integers. *)
Inductive json : Type :=
| JNull
| JBool (b : bool)
| JNum (n : Z)
| JStr (s : string)
| JArr (items : list json)
| JObj (fields : list (string * json)).

(** A dictionary is kept as the list of its items; a key is looked up at
    its first binding. *)
Fixpoint assoc {V : Type} (key : string) (d : list (string * V)) : option V :=
  match d with
  | [] => None
  | (k, v) :: d' => if String.eqb key k then Some v else assoc key d'
  end.

(** [obj.get(key, default)]: only a dictionary has the method. *)
Definition dict_get (obj : json) (key : string) (default : json) : result json :=
  match obj with
  | JObj d =>
    match assoc key d with
    | Some v => Ok v
    | None => Ok default
    end
  | _ => Raise (AttributeError "get")
  end.

(** [obj[key]] with a [str] key. *)
Definition subscript (obj : json) (key : string) : result json :=
  match obj with
  | JObj d =>
    match assoc key d with
    | Some v => Ok v
    | None => Raise (KeyError key)
    end
  | _ => Raise TypeError
  end.

(** ** File system *)

Inductive node : Type :=
| File (data : list byte)
| Dir (entries : list (string * node)).

Definition dir_lookup (name : string) (entries : list (string * node)) : option node :=
  assoc name entries.

Fixpoint dir_remove (name : string) (entries : list (string * node)) :
  list (string * node) :=
  match entries with
  | [] => []
  | (k, n) :: r =>
    if String.eqb name k then dir_remove name r else (k, n) :: dir_remove name r
  end.

(** Creating or truncating the entry [name]. *)
Definition dir_write (name : string) (data : list byte) (entries : list (string * node)) :
  list (string * node) :=
  (name, File data) :: dir_remove name entries.

(** [a / b] and [os.path.join(a, b)] for a relative, single-component
    [b]; an absolute [b] replaces [a]. *)
Definition path_join (a b : string) : string :=
  if PyStr.startswith b "/" then b
  else match a with
       | EmptyString => b
       | _ => a +:+ "/" +:+ b
       end.

(** ** CacheStore: [_get_cached_versions] *)

(** Position of the last ["."] of a name, as [str.rfind] finds it. *)
Fixpoint rfind_dot (i : nat) (s : string) : option nat :=
  match s with
  | EmptyString => None
  | String c s' =>
    match rfind_dot (S i) s' with
    | Some j => Some j
    | None => if (N_of_ascii c =? 46)%N then Some i else None
    end
  end.

Fixpoint take (n : nat) (s : string) : string :=
  match n, s with
  | S k, String c s' => String c (take k s')
  | _, _ => EmptyString
  end.

(** [PurePath.stem]: the name without its last suffix; a name whose only
    dot is the first or the last character has no suffix. *)
Definition stem (name : string) : string :=
  match rfind_dot 0 name with
  | Some i =>
    if (0 <? i)%nat && (i <? String.length name - 1)%nat then take i name else name
  | None => name
  end.

(** The entries of a directory that [glob("*.tool")] yields. *)
Definition glob_tool (entries : list (string * node)) : list (string * node) :=
  List.filter (fun e => PyStr.endswith (fst e) ".tool") entries.

Definition is_file (n : node) : bool :=
  match n with
  | File _ => true
  | Dir _ => false
  end.

(** [cache_dir] holds the entries of the cache directory; [author] and
    [name] are single path components.  [tool_dir.exists()] holds when
    both components resolve; a regular file has no entries to match. *)
Definition resolve_tool_dir (cache_dir : list (string * node)) (author name : string) :
  option node :=
  match dir_lookup author cache_dir with
  | Some (Dir authors) => dir_lookup name authors
  | _ => None
  end.

Definition _get_cached_versions (cache_dir : list (string * node)) (author name : string) :
  list string :=
  match resolve_tool_dir cache_dir author name with
  | Some (Dir entries) =>
    List.map (fun e => _path_to_version (stem (fst e)))
             (List.filter (fun e => is_file (snd e)) (glob_tool entries))
  | Some (File _) => []
  | None => []
  end.

(** ** PackageBuilder: [_get_tool_files], [_get_tool_metadata], [package_tool] *)

Record FileEntry : Type := { path : string; content : string }.

Record Payload : Type := {
  p_author : json;
  p_name : json;
  p_version : json;
  p_license : json;
  p_files : list FileEntry;
  p_entry : json;
  p_module : json
}.

Definition rel_path (prefix name : string) : string :=
  match prefix with
  | EmptyString => name
  | _ => prefix +:+ "/" +:+ name
  end.

(** [os.walk]: the regular files of a directory in listing order, then
    its sub-directories in listing order; something that is not a
    directory yields nothing.  The pair is the path relative to the
    walked folder and the bytes read from the file. *)
Fixpoint walk (prefix : string) (n : node) : list (string * list byte) :=
  match n with
  | File _ => []
  | Dir entries =>
    (fix here (es : list (string * node)) : list (string * list byte) :=
       match es with
       | [] => []
       | (name, File data) :: r => (rel_path prefix name, data) :: here r
       | (_, Dir _) :: r => here r
       end) entries
    ++
    (fix below (es : list (string * node)) : list (string * list byte) :=
       match es with
       | [] => []
       | (name, sub) :: r =>
         match sub with
         | Dir _ => walk (rel_path prefix name) sub ++ below r
         | File _ => below r
         end
       end) entries
  end.

(** The [content] field: [base64.b64encode(f.read()).decode("utf-8")]. *)
Definition encode_content (data : list byte) : result string :=
  decode_utf8 (Base64.b64encode data).

Definition _get_tool_files (folder : option node) : result (list FileEntry) :=
  match folder with
  | None => Ok []
  | Some n =>
    mapM (fun f => let* c := encode_content (snd f) in
                   Ok {| path := fst f; content := c |})
         (walk EmptyString n)
  end.

Section WithJSONParser.

(** [json.load] on the bytes of a file. *)
Variable json_load : list byte -> result json.

Definition _get_tool_metadata (folder : option node) : result json :=
  match folder with
  | Some (Dir entries) =>
    match dir_lookup "config.json" entries with
    | Some (File data) => json_load data
    | Some (Dir _) => Raise IsADirectoryError
    | None => Ok (JObj [])
    end
  | _ => Ok (JObj [])
  end.

Definition package_tool (folder : option node) : result Payload :=
  let* tool_files := _get_tool_files folder in
  let* metadata := _get_tool_metadata folder in
  let* meta := dict_get metadata "meta" (JObj []) in
  let* author := dict_get meta "author" JNull in
  let* name := dict_get metadata "name" JNull in
  let* meta' := dict_get metadata "meta" (JObj []) in
  let* version := dict_get meta' "version" JNull in
  let* license := dict_get metadata "license" (JStr "Unknown") in
  let* build := dict_get metadata "build" (JObj []) in
  let* entry := dict_get build "entry" (JStr "tool.py") in
  let* build' := dict_get metadata "build" (JObj []) in
  let* module := dict_get build' "module" (JStr "Tool") in
  Ok {| p_author := author; p_name := name; p_version := version;
        p_license := license; p_files := tool_files;
        p_entry := entry; p_module := module |}.

End WithJSONParser.

(** ** PackageCodec: [ToolPackage] and [_save_tool_to_cache] *)

(** Modelled from the spec: the class [ToolPackage] of
    [cerebrum/manager/package.py] is not part of the sources at hand.  A
    package is its metadata and a mapping from path to bytes, and [save]
    writes both to a single persisted entry at the package's path,
    overwriting an existing entry. *)
Record ToolPackage : Type := {
  metadata : list (string * json);
  files : gmap string (list byte)
}.

Definition ToolPackage_save (cache_path : string) (pkg : ToolPackage)
  (store : gmap string ToolPackage) : gmap string ToolPackage :=
  <[cache_path := pkg]> store.

(** The dictionary comprehension
    [{file["path"]: base64.b64decode(file["content"]) for file in ...}]:
    entries are taken from left to right and each one is assigned to its
    key, [acc] being the dictionary built so far. *)
Fixpoint files_dict (acc : gmap string (list byte)) (entries : list FileEntry) :
  result (gmap string (list byte)) :=
  match entries with
  | [] => Ok acc
  | f :: r =>
    let* data := Base64.b64decode (content f) in
    files_dict (<[path f := data]> acc) r
  end.

Definition _save_tool_to_cache (tool_data : Payload) (cache_path : string)
  (store : gmap string ToolPackage) : result (gmap string ToolPackage) :=
  let meta := [("author", p_author tool_data); ("name", p_name tool_data);
               ("version", p_version tool_data); ("license", p_license tool_data);
               ("entry", p_entry tool_data); ("module", p_module tool_data)] in
  let* fs := files_dict ∅ (p_files tool_data) in
  Ok (ToolPackage_save cache_path {| metadata := meta; files := fs |} store).

(** ** DependencyInstaller: [check_reqs_installed] and [install_tool_reqs] *)

(** [not reqs_content]: the key is missing or the bytes are empty. *)
Definition reqs_missing (reqs_content : option (list byte)) : bool :=
  match reqs_content with
  | None => true
  | Some [] => true
  | Some (_ :: _) => false
  end.

Section WithUnicodeLower.

(** [str.lower] on text that is not ASCII. *)
Variable unicode_lower : list N -> list N.

(** [line.split("==")[0]] *)
Definition before_eqeq (line : list N) : list N :=
  match PyText.split line (PyText.of_string "==") with
  | p :: _ => p
  | [] => []
  end.

Definition installed_packages (stdout : list N) : list (list N) :=
  List.map (fun line => PyText.lower unicode_lower (before_eqeq line))
           (PyText.splitlines stdout).

(** [line.strip() and not line.startswith("#")] *)
Definition is_requirement_line (line : list N) : bool :=
  negb (PyText.eqb (PyText.strip line) []) && negb (PyText.startswith line (PyText.of_string "#")).

Definition required_packages (reqs : list N) : list (list N) :=
  List.map (fun line => PyText.lower unicode_lower (before_eqeq (PyText.strip line)))
           (List.filter is_requirement_line (PyText.splitlines reqs)).

(** [x in l] for a list of texts. *)
Definition text_in (x : list N) (l : list (list N)) : bool :=
  List.existsb (PyText.eqb x) l.

(** [pip_list] is what [subprocess.run(["pip", "list", "--format=freeze"])]
    gives: the bytes of the standard output, or the exception raised when
    the process cannot be started.  [pkg] is the package as loaded from
    [tool_path]. *)
Definition check_reqs_installed (pkg : ToolPackage) (pip_list : result (list byte)) : bool :=
  let reqs_content := files pkg !! "requirements.txt" in
  if reqs_missing reqs_content then true
  else
    let attempt :=
      let* stdout := pip_list in
      let* out_text := UTF8.decode stdout in
      let installed := installed_packages out_text in
      let* reqs_text := UTF8.decode (default [] reqs_content) in
      let required := required_packages reqs_text in
      Ok (List.forallb (fun req => text_in req installed) required) in
    match attempt with
    | Ok b => b
    | Raise _ => false
    end.

End WithUnicodeLower.

(** What [subprocess.check_call] of the installer does: it may change the
    cache directory, and it ends with an exit status or cannot be run. *)
Inductive proc_outcome : Type :=
| Exit (code : Z)
| Fault (e : exn).

Definition installer : Type :=
  list (string * node) -> list (string * node) * proc_outcome.

Definition temp_reqs_name : string := "temp_requirements.txt".

(** [Path.unlink(missing_ok=True)] *)
Definition unlink_missing_ok (name : string) (entries : list (string * node)) :
  list (string * node) * result unit :=
  match dir_lookup name entries with
  | None => (entries, Ok tt)
  | Some (File _) => (dir_remove name entries, Ok tt)
  | Some (Dir _) => (entries, Raise IsADirectoryError)
  end.

(** [cache_dir] holds the entries of the cache directory before the call;
    the result is the entries after it and how the call ends. *)
Definition install_tool_reqs (pkg : ToolPackage) (pip_install : installer)
  (cache_dir : list (string * node)) : list (string * node) * result unit :=
  let reqs_content := files pkg !! "requirements.txt" in
  if reqs_missing reqs_content then (cache_dir, Ok tt)
  else
    match dir_lookup temp_reqs_name cache_dir with
    | Some (Dir _) => (cache_dir, Raise IsADirectoryError)
    | _ =>
      let written := dir_write temp_reqs_name (default [] reqs_content) cache_dir in
      let '(after, outcome) := pip_install written in
      let called : result unit :=
        match outcome with
        | Exit code => if (code =? 0)%Z then Ok tt else Raise (CalledProcessError code)
        | Fault e => Raise e
        end in
      let body : result unit :=
        match called with
        | Raise (CalledProcessError _) => Ok tt
        | r => r
        end in
      let '(final, unlinked) := unlink_missing_ok temp_reqs_name after in
      match unlinked with
      | Raise e => (final, Raise e)
      | Ok _ => (final, body)
      end
    end.

(** ** Loader: the local branch of [load_tool] *)

(** An object of the tool's module, known by an identifier. *)
Definition pyobj : Type := string.

Record pymodule : Type := {
  mod_name : string;
  mod_origin : string;
  mod_dict : gmap string pyobj
}.

(** The process-wide state the loader touches. *)
Record interp : Type := {
  sys_path : list string;
  sys_modules : gmap string pymodule
}.

Definition set_sys_path (p : list string) (st : interp) : interp :=
  {| sys_path := p; sys_modules := sys_modules st |}.

Definition set_sys_modules (m : gmap string pymodule) (st : interp) : interp :=
  {| sys_path := sys_path st; sys_modules := m |}.

(** [spec.loader.exec_module(module)]: running the entry file may change
    the interpreter state, and either fills the module or raises. *)
Definition loader : Type := pymodule -> interp -> interp * result pymodule.

(** What the loader's surroundings provide: the entries of the local tools
    directory and its path, the working directory, and for a file
    location the loader [spec_from_file_location] selects ([None] when it
    returns no spec). *)
Record world : Type := {
  local_tools_dir : list (string * node);
  local_tools_path : string;
  cwd : string;
  find_loader : string -> option loader
}.

(** The two insertions in front of [sys.path]. *)
Definition push_paths (current_path tool_path : string) (st : interp) : interp :=
  let p := if decide (current_path ∈ sys_path st)
           then sys_path st
           else current_path :: sys_path st in
  set_sys_path (tool_path :: p) st.

(** [sys.modules[module_name] = module] *)
Definition register_module (module_name : string) (m : pymodule) (st : interp) : interp :=
  set_sys_modules (<[module_name := m]> (sys_modules st)) st.

(** The body of the [try] statement. *)
Definition import_entry (w : world) (tool_path : string) (tool_config entry_point module_name : json)
  (st : interp) : interp * result (pyobj * json) :=
  match entry_point with
  | JStr entry =>
    let location := path_join tool_path entry in
    match find_loader w location with
    | None => (st, Raise (AttributeError "loader"))
    | Some exec_module =>
      match module_name with
      | JStr mname =>
        let module := {| mod_name := mname; mod_origin := location; mod_dict := ∅ |} in
        let st1 := register_module mname module st in
        let '(st2, executed) := exec_module module st1 in
        match executed with
        | Raise e => (st2, Raise e)
        | Ok module' =>
          match mod_dict module' !! mname with
          | Some tool_class => (st2, Ok (tool_class, tool_config))
          | None => (st2, Raise (AttributeError mname))
          end
        end
      | _ => (st, Raise TypeError)
      end
    end
  | _ => (st, Raise TypeError)
  end.

(** The [finally] clause. *)
Definition cleanup (current_path : string) (module_name : json) (st : interp) :
  interp * result unit :=
  match sys_path st with
  | [] => (st, Raise IndexError)
  | _ :: popped =>
    match popped with
    | [] => (set_sys_path popped st, Raise IndexError)
    | head :: rest =>
      let p := if String.eqb current_path head then rest else popped in
      let st1 := set_sys_path p st in
      match module_name with
      | JStr mname => (set_sys_modules (delete mname (sys_modules st1)) st1, Ok tt)
      | JArr _ | JObj _ => (st1, Raise TypeError)
      | _ => (st1, Ok tt)
      end
    end
  end.

(** [try: body finally: cleanup]: an exception of the clean-up replaces
    the outcome of the body. *)
Definition try_finally {A : Type} (body : interp -> interp * result A)
  (final : interp -> interp * result unit) (st : interp) : interp * result A :=
  let '(st1, r) := body st in
  let '(st2, c) := final st1 in
  match c with
  | Raise e => (st2, Raise e)
  | Ok _ => (st2, r)
  end.

Section WithJSONLoader.

Variable json_load : list byte -> result json.

(** [open(config_path)] followed by [json.load]. *)
Definition read_config (tool : node) : result json :=
  match tool with
  | File _ => Raise NotADirectoryError
  | Dir entries =>
    match dir_lookup "config.json" entries with
    | None => Raise FileNotFoundError
    | Some (Dir _) => Raise IsADirectoryError
    | Some (File data) => json_load data
    end
  end.

(** The configuration and the two keys of its [build] member that the
    loader reads before it touches the interpreter state. *)
Definition read_build (tool : node) : result (json * json * json) :=
  let* tool_config := read_config tool in
  let* build := subscript tool_config "build" in
  let* entry_point := subscript build "entry" in
  let* build' := subscript tool_config "build" in
  let* module_name := subscript build' "module" in
  Ok (tool_config, entry_point, module_name).

(** [load_tool(name=name, local=True)]; [name] is a single path
    component. *)
Definition load_tool_local (w : world) (name : string) (st : interp) :
  interp * result (pyobj * json) :=
  match dir_lookup name (local_tools_dir w) with
  | None => (st, Raise FileNotFoundError)
  | Some tool =>
    let tool_path := path_join (local_tools_path w) name in
    match read_build tool with
    | Raise e => (st, Raise e)
    | Ok (tool_config, entry_point, module_name) =>
      let current_path := cwd w in
      try_finally (import_entry w tool_path tool_config entry_point module_name)
                  (cleanup current_path module_name)
                  (push_paths current_path tool_path st)
    end
  end.

End WithJSONLoader.

(** ** Predicates of the specification *)

(** A version string made of dot-separated non-negative integers: every
    piece between dots is a non-empty run of decimal digits. *)
Definition is_number (comp : string) : bool :=
  negb (String.eqb comp EmptyString) && PyStr.forallb PyStr.is_digit comp.

Definition is_dotted_version (v : string) : bool :=
  List.forallb is_number (PyStr.split v ".").

Definition is_dash (c : ascii) : bool := (N_of_ascii c =? 45)%N.
Definition is_dot (c : ascii) : bool := (N_of_ascii c =? 46)%N.

Definition has_no_dash (v : string) : bool :=
  PyStr.forallb (fun c => negb (is_dash c)) v.

(** Component-wise numeric comparison of two versions: the first
    component that differs decides, and a version that is a prefix of
    another one comes first. *)
Inductive version_le : list Z -> list Z -> Prop :=
| version_le_nil b : version_le [] b
| version_le_lt x y a b : (x < y)%Z -> version_le (x :: a) (y :: b)
| version_le_eq x a b : version_le a b -> version_le (x :: a) (x :: b).

(** A decorated list in which every element is below all the elements
    after it. *)
Fixpoint ascending {A : Type} (l : list (list Z * A)) : Prop :=
  match l with
  | [] => True
  | y :: l' => (forall z, In z l' -> version_le (fst y) (fst z)) /\ ascending l'
  end.

(** Every component of a version has no more digits than [int] reads. *)
Definition within_digit_limit (v : string) : bool :=
  List.forallb (fun comp => (PyInt.count_digits comp <=? PyInt.max_str_digits)%N)
               (PyStr.split v ".").

(** The text of [n] copies of one character. *)
Definition repeated (n : N) (c : ascii) : string := N.iter n (String c) EmptyString.

(** A component is numeric when [int] accepts it. *)
Definition numeric (comp : string) : bool := is_ok (PyInt.int comp).

Definition all_numeric (v : string) : bool :=
  List.forallb numeric (PyStr.split v ".").

(** ** Cache directories used in the statements *)

(** [_get_cache_path]: below the tool's directory, the entry of a version
    is named by its encoded form and the package extension. *)
Definition cache_file_name (version : string) : string :=
  _version_to_path (Some version) +:+ ".tool".

(** A tool directory that holds exactly the package files of the given
    versions. *)
Definition populated (versions : list string) (data : string -> list byte) :
  list (string * node) :=
  List.map (fun v => (cache_file_name v, File (data v))) versions.

(** A cache directory with one tool of author alice: two package files, a
    file of another kind and a sub-directory. *)
Definition sample_cache : list (string * node) :=
  [("alice",
    Dir [("calc",
          Dir [("1-0-0.tool", File []);
               ("notes.txt", File []);
               ("2-1-0.tool", File []);
               ("old.tool", Dir [])])])].

(** ** Requirement manifests in the statements *)

(** On ASCII text, kept as a [string]: the text before the first ["=="]
    of a line, and the lines that are not blank and do not start a
    comment. *)
Definition name_part (line : string) : string :=
  match PyStr.split line "==" with
  | p :: _ => p
  | [] => EmptyString
  end.

Definition declares_name (line : string) : bool :=
  negb (String.eqb (PyStr.strip line) EmptyString) && negb (PyStr.startswith line "#").

(** The dependency names a manifest declares: for every line that is not
    blank and does not start a comment, the text before the version
    constraint. *)
Definition declared_names (manifest : string) : list string :=
  List.map (fun line => name_part (PyStr.strip line))
           (List.filter declares_name (PyStr.splitlines manifest)).

(** A loaded package with the given files. *)
Definition package_with (fs : list (string * string)) : ToolPackage :=
  {| metadata := [];
     files := list_to_map (List.map (fun f => (fst f, list_byte_of_string (snd f))) fs) |}.

Definition sample_manifest : string :=
  "# runtime
Requests==2.31.0

numpy
".

Definition sample_pip_list : string :=
  "NumPy==1.26.4
pip==24.0
requests==2.32.3
".

(** ** Installers in the statements *)

(** The scratch path is not a directory in [entries]. *)
Definition scratch_unlinkable (entries : list (string * node)) : Prop :=
  forall sub, dir_lookup temp_reqs_name entries <> Some (Dir sub).

(** An installer that fails with status 1 and touches nothing, one that
    succeeds after leaving a log file, and one that cannot be started. *)
Definition failing_pip : installer := fun entries => (entries, Exit 1).
Definition working_pip : installer :=
  fun entries => (dir_write "pip.log" [] entries, Exit 0).
Definition absent_pip : installer :=
  fun entries => (entries, Fault (OSError "no interpreter")).

(** ** Payloads in the statements *)

(** Every content field of the payload is accepted by the decoder. *)
Definition contents_decodable (entries : list FileEntry) : bool :=
  List.forallb (fun f => is_ok (Base64.b64decode (content f))) entries.

(** A downloaded payload in which the path [tool.py] occurs twice. *)
Definition duplicate_payload : Payload :=
  {| p_author := JStr "alice"; p_name := JStr "calc"; p_version := JStr "1.0.0";
     p_license := JStr "MIT";
     p_files := [ {| path := "tool.py"; content := "Zmlyc3Q=" |};
                  {| path := "README"; content := "aGk=" |};
                  {| path := "tool.py"; content := "bGFzdA==" |} ];
     p_entry := JStr "tool.py"; p_module := JStr "Tool" |}.

(** ** Configurations in the statements *)

(** The member [key] of a JSON object. *)
Definition member (obj : json) (key : string) : option json :=
  match obj with
  | JObj d => assoc key d
  | _ => None
  end.

Definition is_object (v : json) : bool :=
  match v with
  | JObj _ => true
  | _ => false
  end.

(** A configuration that is an object whose members [meta] and [build],
    when present, are objects. *)
Definition well_shaped (config : json) : bool :=
  is_object config
  && match member config "meta" with Some v => is_object v | None => true end
  && match member config "build" with Some v => is_object v | None => true end.

(** A top-level key, and a key of a nested object, with the value that
    stands for an absent key. *)
Definition top_or (config : json) (key : string) (absent : json) : json :=
  match member config key with
  | Some v => v
  | None => absent
  end.

Definition nested_or (config : json) (group key : string) (absent : json) : json :=
  match member config group with
  | Some g => top_or g key absent
  | None => absent
  end.

(** The file list of a folder: every regular file below it with its
    relative path and the base64 text of its bytes. *)
Definition packaged_files (folder : option node) : list FileEntry :=
  match folder with
  | None => []
  | Some n =>
    List.map (fun f => {| path := fst f; content := Base64.b2a_base64 (snd f) |})
             (walk EmptyString n)
  end.

(** JSON documents are written below with apostrophes where the file has
    double quotes. *)
Definition quoted (s : string) : string :=
  PyStr.map (fun c => if (N_of_ascii c =? 39)%N then ascii_of_N 34 else c) s.

Definition good_config_text : string :=
  quoted "{'name': 'calc', 'meta': {'author': 'alice', 'version': '1.0.0'}, 'build': {'entry': 'main.py', 'module': 'Tool'}}".

Definition good_config : json :=
  JObj [("name", JStr "calc");
        ("meta", JObj [("author", JStr "alice"); ("version", JStr "1.0.0")]);
        ("build", JObj [("entry", JStr "main.py"); ("module", JStr "Tool")])].

Definition draft_config_text : string := quoted "{'name': 'draft', 'meta': null}".

Definition draft_config : json := JObj [("name", JStr "draft"); ("meta", JNull)].

(** A parser for the two documents above, which yields what [json.load]
    yields on them; any other input is rejected. *)
Definition sample_json_load (data : list byte) : result json :=
  let text := string_of_list_byte data in
  if String.eqb text good_config_text then Ok good_config
  else if String.eqb text draft_config_text then Ok draft_config
  else Raise JSONDecodeError.

Definition good_folder : node :=
  Dir [("config.json", File (list_byte_of_string good_config_text));
       ("main.py", File (list_byte_of_string "class Tool: pass"));
       ("requirements.txt", File (list_byte_of_string "requests"))].

Definition draft_folder : node :=
  Dir [("config.json", File (list_byte_of_string draft_config_text));
       ("tool.py", File (list_byte_of_string "class Tool: pass"))].

Definition bare_entries : list (string * node) :=
  [("tool.py", File (list_byte_of_string "class Tool: pass"));
   ("docs", Dir [("usage.md", File (list_byte_of_string "hi"))])].

Definition bare_folder : node := Dir bare_entries.

(** ** Interpreter states in the statements *)

(** No loader changes [sys.path]. *)
Definition path_stable (w : world) : Prop :=
  forall location exec_module module st,
    find_loader w location = Some exec_module ->
    sys_path (fst (exec_module module st)) = sys_path st.

(** A loader that defines the class [Tool] and touches nothing else. *)
Definition defines_Tool : loader :=
  fun module st =>
    (st, Ok {| mod_name := mod_name module; mod_origin := mod_origin module;
               mod_dict := <["Tool" := "class Tool"]> (mod_dict module) |}).

(** A process started in [/work], with one local tool named [calc]. *)
Definition sample_world : world :=
  {| local_tools_dir := [("calc", good_folder)];
     local_tools_path := "/opt/cerebrum/example/tools";
     cwd := "/work";
     find_loader := fun location =>
       if PyStr.endswith location ".py" then Some defines_Tool else None |}.

(** The same surroundings with an entry file that does not define the
    class. *)
Definition defines_nothing : loader := fun module st => (st, Ok module).

Definition symbol_less_world : world :=
  {| local_tools_dir := [("calc", good_folder)];
     local_tools_path := "/opt/cerebrum/example/tools";
     cwd := "/work";
     find_loader := fun _ => Some defines_nothing |}.

(** The state of an interpreter whose first search path is the working
    directory, as when a script of that directory is run, and in which a
    module named [Tool] is already imported. *)
Definition script_state : interp :=
  {| sys_path := ["/work"; "/usr/lib/python3"];
     sys_modules := {[ "Tool" := {| mod_name := "Tool"; mod_origin := "/work/Tool.py";
                                    mod_dict := ∅ |} ]} |}.

(** ** Finite checks used in the proofs *)

(** The numbers below [k], to decide a property of bytes or sextets by
    evaluation. *)
Definition below (k : nat) : list N := List.map N.of_nat (seq 0 k).

Definition sextet_ok (v : N) : bool :=
  negb (Base64.is_pad (Base64.b2a v))
  && match Base64.a2b (Base64.b2a v) with
     | Some w => (w =? v)%N
     | None => false
     end
  && (N_of_ascii (Base64.b2a v) <? 128)%N.

(** What decoding needs of two neighbouring bytes [a] and [b], in each of
    the positions they can have inside a group. *)
Definition pair_ok (a b : N) : bool :=
  let out (n : N) := (n mod 256)%N in
  (Base64.sextet1 a <? 64)%N && (Base64.sextet2 a b <? 64)%N
  && (Base64.sextet2_last a <? 64)%N && (Base64.sextet3 a b <? 64)%N
  && (Base64.sextet3_last a <? 64)%N && (Base64.sextet4 a <? 64)%N
  && (out (N.lor (N.shiftl (Base64.sextet1 a) 2) (N.shiftr (Base64.sextet2 a b) 4)) =? a)%N
  && (out (N.lor (N.shiftl (Base64.sextet1 a) 2) (N.shiftr (Base64.sextet2_last a) 4)) =? a)%N
  && (N.land (Base64.sextet2 a b) 15 =? N.shiftr b 4)%N
  && (out (N.lor (N.shiftl (N.shiftr a 4) 4) (N.shiftr (Base64.sextet3 a b) 2)) =? a)%N
  && (out (N.lor (N.shiftl (N.shiftr a 4) 4) (N.shiftr (Base64.sextet3_last a) 2)) =? a)%N
  && (N.land (Base64.sextet3 a b) 3 =? N.shiftr b 6)%N
  && (out (N.lor (N.shiftl (N.shiftr a 6) 6) (Base64.sextet4 a)) =? a)%N.

(** ** Version resolution and the cache lookup of [download_tool] *)

(** The statement shared by [download_tool] and the remote branch of
    [load_tool]: an absent version becomes the newest cached one. *)
Definition resolve_version (cache_dir : list (string * node)) (author name : string)
  (version : option string) : result (option string) :=
  match version with
  | None => _get_newest_version (_get_cached_versions cache_dir author name)
  | Some v => Ok (Some v)
  end.

(** The last component of a cache path. *)
Definition package_file_name (version : option string) : string :=
  _version_to_path version +:+ ".tool".

(** [_get_cache_path]: the path of a package below the cache directory,
    as its components; [author] and [name] are single components. *)
Definition _get_cache_path (author name : string) (version : option string) : list string :=
  [author; name; package_file_name version].

(** The node a relative path leads to. *)
Fixpoint lookup_path (entries : list (string * node)) (p : list string) : option node :=
  match p with
  | [] => None
  | [x] => dir_lookup x entries
  | x :: p' =>
    match dir_lookup x entries with
    | Some (Dir sub) => lookup_path sub p'
    | _ => None
    end
  end.

(** [Path.exists()] for a path below the cache directory. *)
Definition path_exists (cache_dir : list (string * node)) (p : list string) : bool :=
  match lookup_path cache_dir p with
  | Some _ => true
  | None => false
  end.

(** The part of [download_tool] after the cache lookup: the request to
    the registry with the resolved version, saving the answer and
    checking its requirements.  It depends on the HTTP client and on
    [ToolPackage], and is taken as given. *)
Definition fetcher : Type :=
  option string -> list (string * node) ->
  list (string * node) * result (string * string * option string).

(** [download_tool]: the version is resolved, and a package that is
    already in the cache is returned without a request. *)
Definition download_tool (fetch : fetcher) (cache_dir : list (string * node))
  (author name : string) (version : option string) :
  list (string * node) * result (string * string * option string) :=
  match resolve_version cache_dir author name version with
  | Raise e => (cache_dir, Raise e)
  | Ok resolved =>
    if path_exists cache_dir (_get_cache_path author name resolved)
    then (cache_dir, Ok (author, name, resolved))
    else fetch resolved cache_dir
  end.

(** The remote branch of [load_tool].  [package_load] stands for
    [ToolPackage(tool_path).load()].  The branch ends after the package
    is loaded, so the call returns [None]. *)
Definition load_tool_remote (fetch : fetcher)
  (package_load : list (string * node) -> list string -> result unit)
  (cache_dir : list (string * node)) (author name : string) (version : option string) :
  list (string * node) * result (option (pyobj * json)) :=
  match resolve_version cache_dir author name version with
  | Raise e => (cache_dir, Raise e)
  | Ok resolved =>
    let tool_path := _get_cache_path author name resolved in
    let '(cache1, downloaded) :=
      if path_exists cache_dir tool_path then (cache_dir, Ok tt)
      else let '(c, r) := download_tool fetch cache_dir author name resolved in
           (c, let* _ := r in Ok tt) in
    match downloaded with
    | Raise e => (cache1, Raise e)
    | Ok _ =>
      match package_load cache1 tool_path with
      | Raise e => (cache1, Raise e)
      | Ok _ => (cache1, Ok None)
      end
    end
  end.

(** ** [load_local_tool] and [list_available_tools] *)

Section WithJSONConfig.

Variable json_load : list byte -> result json.

(** [load_local_tool(name)]: the parsed configuration of a local tool. *)
Definition load_local_tool (w : world) (name : string) : result json :=
  match dir_lookup name (local_tools_dir w) with
  | None => Raise FileNotFoundError
  | Some (File _) => Raise FileNotFoundError
  | Some (Dir entries) =>
    match dir_lookup "config.json" entries with
    | None => Raise FileNotFoundError
    | Some (Dir _) => Raise IsADirectoryError
    | Some (File data) => json_load data
    end
  end.

End WithJSONConfig.

(** One element of the result of [list_available_tools]. *)
Record ToolListing : Type := {
  tool : string;
  type : json;
  description : json
}.

Section WithFormat.

(** How an f-string shows a value that is not a [str]. *)
Variable str_of_other : json -> string.

Definition format_value (v : json) : string :=
  match v with
  | JStr s => s
  | _ => str_of_other v
  end.

Definition listing_of (item : json) : result ToolListing :=
  let* author := subscript item "author" in
  let* name := subscript item "name" in
  let* version := subscript item "version" in
  let* tool_type := dict_get item "tool_type" (JStr "generic") in
  let* descr := dict_get item "description" (JStr EmptyString) in
  Ok {| tool := format_value author +:+ "/" +:+ format_value name
                +:+ "/" +:+ format_value version;
        type := tool_type; description := descr |}.

(** [list_available_tools]: [response] is the parsed body of the answer,
    or the exception of the request.  The comprehension iterates over
    the body: a list gives its items, an object its keys and a string
    its characters, which are strings and cannot be subscripted by a
    key. *)
Definition list_available_tools (response : result json) : result (list ToolListing) :=
  let* tools := response in
  match tools with
  | JArr items => mapM listing_of items
  | JObj [] => Ok []
  | JObj (_ :: _) => Raise TypeError
  | JStr EmptyString => Ok []
  | JStr (String _ _) => Raise TypeError
  | _ => Raise TypeError
  end.

End WithFormat.

(** [check_tool_updates]: the member [update_available] of the answer. *)
Definition check_tool_updates (response : result json) : result json :=
  let* body := response in subscript body "update_available".

(** ** Further predicates of the statements *)

Definition has_no_dot (p : string) : bool :=
  PyStr.forallb (fun c => negb (is_dot c)) p.

Definition is_slash (c : ascii) : bool := (N_of_ascii c =? 47)%N.

Definition has_no_slash (s : string) : bool :=
  PyStr.forallb (fun c => negb (is_slash c)) s.

Definition is_equals (c : ascii) : bool := (N_of_ascii c =? 61)%N.

(** A requirement name: not empty, without equals sign, white space or
    line boundary, and not starting a comment. *)
Definition is_line_char (c : ascii) : bool :=
  negb (PyStr.is_space c) && negb (PyStr.is_linebreak c) && (N_of_ascii c <? 128)%N.

Definition is_plain_name (s : string) : bool :=
  negb (String.eqb s EmptyString)
  && PyStr.forallb (fun c => is_line_char c && negb (is_equals c)) s
  && negb (PyStr.startswith s "#").

(** A version text: ASCII characters of a line, none of them white
    space. *)
Definition is_plain_version (s : string) : bool := PyStr.forallb is_line_char s.

(** A line of a manifest or of a frozen listing: a name, followed by a
    version when there is one. *)
Definition requirement_line (name : string) (version : option string) : string :=
  match version with
  | Some v => name +:+ "==" +:+ v
  | None => name
  end.

(** ** Manifests and listings, line by line *)

(** The ending of a line of a text file. *)
Inductive line_end : Type :=
| LF
| CRLF.

Definition end_text (e : line_end) : list N :=
  match e with
  | LF => [10%N]
  | CRLF => [13%N; 10%N]
  end.

(** The text of a file: its ended lines, then what stands after the last
    ending. *)
Fixpoint lines_text (lines : list (list N * line_end)) (rest : list N) : list N :=
  match lines with
  | [] => rest
  | (l, e) :: r => l ++ end_text e ++ lines_text r rest
  end.

(** White space that stays within a line. *)
Definition is_blank (c : N) : bool :=
  PyText.is_space c && negb (PyText.is_linebreak c).

(** A line of a requirements manifest: white space only, a comment after
    its indentation, or a dependency with the version it asks for,
    between leading and trailing white space. *)
Inductive manifest_line : Type :=
| Blank (pad : list N)
| Comment (indent body : list N)
| Requirement (indent : list N) (name : string) (version : option string) (trail : list N).

Definition line_text (l : manifest_line) : list N :=
  match l with
  | Blank pad => pad
  | Comment indent body => indent ++ 35%N :: body
  | Requirement indent name version trail =>
    indent ++ PyText.of_string (requirement_line name version) ++ trail
  end.

(** The padding and the indentation are white space and the body of a
    comment is any text, all within the line; a name and a version are
    plain. *)
Definition is_manifest_line (l : manifest_line) : bool :=
  match l with
  | Blank pad => List.forallb is_blank pad
  | Comment indent body =>
    List.forallb is_blank indent
    && List.forallb (fun c => negb (PyText.is_linebreak c)) body
  | Requirement indent name version trail =>
    List.forallb is_blank indent
    && is_plain_name name
    && match version with Some v => is_plain_version v | None => true end
    && List.forallb is_blank trail
  end.

(** A comment, if the line is one, begins in the first column. *)
Definition comment_opens_line (l : manifest_line) : bool :=
  match l with
  | Comment (_ :: _) _ => false
  | _ => true
  end.

(** The lines of a file: the ended ones, then the last one when it has
    no ending. *)
Definition all_lines {A : Type} (ended : list (A * line_end)) (last : option A) : list A :=
  List.map fst ended ++ match last with Some l => [l] | None => [] end.

Definition file_text {A : Type} (text_of : A -> list N)
  (ended : list (A * line_end)) (last : option A) : list N :=
  lines_text (List.map (fun le => (text_of (fst le), snd le)) ended)
             (match last with Some l => text_of l | None => [] end).

Definition manifest_text : list (manifest_line * line_end) -> option manifest_line -> list N :=
  file_text line_text.

(** A line of the frozen listing: an installed package and its version. *)
Definition package_text (p : string * option string) : list N :=
  PyText.of_string (requirement_line (fst p) (snd p)).

Definition is_package_line (p : string * option string) : bool :=
  is_plain_name (fst p)
  && match snd p with Some v => is_plain_version v | None => true end.

Definition listing_text :
  list ((string * option string) * line_end) -> option (string * option string) -> list N :=
  file_text package_text.

(** Two letters that differ at most in their case, and two names that
    do so letter by letter. *)
Definition is_capital (n : N) : bool := ((65 <=? n) && (n <=? 90))%N.

Definition same_letter (c d : ascii) : bool :=
  let m := N_of_ascii c in
  let n := N_of_ascii d in
  ((m =? n) || (is_capital m && (n =? m + 32)) || (is_capital n && (m =? n + 32)))%N.

Fixpoint equal_up_to_case (s t : string) : bool :=
  match s, t with
  | EmptyString, EmptyString => true
  | String c s', String d t' => same_letter c d && equal_up_to_case s' t'
  | _, _ => false
  end.

(** The names a list of manifest lines declares. *)
Definition dependency_names (lines : list manifest_line) : list string :=
  List.flat_map (fun l => match l with
                          | Requirement _ name _ _ => [name]
                          | _ => []
                          end) lines.

(** A manifest with a comment that is not ASCII, lines that end in a
    carriage return and line feed, a line of blanks, and a last line
    without ending. *)
Definition accented_manifest : string :=
  "# caf" +:+ String (ascii_of_N 195) (String (ascii_of_N 169) EmptyString)
  +:+ String (ascii_of_N 13) (String (ascii_of_N 10) EmptyString)
  +:+ "Requests==2.31.0" +:+ String (ascii_of_N 13) (String (ascii_of_N 10) EmptyString)
  +:+ "  " +:+ String (ascii_of_N 10) EmptyString
  +:+ "numpy".

Definition accented_lines : list (manifest_line * line_end) :=
  [(Comment [] [32; 99; 97; 102; 233]%N, CRLF);
   (Requirement [] "Requests" (Some "2.31.0") [], CRLF);
   (Blank [32; 32]%N, LF)].

Definition sample_listing : list ((string * option string) * line_end) :=
  [(("NumPy", Some "1.26.4"), LF); (("pip", Some "24.0"), LF);
   (("requests", Some "2.32.3"), LF)].

(** A manifest whose comment is indented, and its lines. *)
Definition indented_manifest : string :=
  " # note
numpy".

Definition indented_lines : list (manifest_line * line_end) :=
  [(Comment [32%N] (PyText.of_string " note"), LF)].

(** A manifest that holds one comment. *)
Definition comment_manifest : string := "# nothing yet".

Definition comment_line : manifest_line := Comment [] (PyText.of_string " nothing yet").

(** A manifest whose requirement lines are padded. *)
Definition padded_manifest : string :=
  "  Requests==2.31.0  " +:+ String (ascii_of_N 10) (String (ascii_of_N 9) "numpy").

Definition padded_lines : list (manifest_line * line_end) :=
  [(Requirement [32; 32]%N "Requests" (Some "2.31.0") [32; 32]%N, LF)].

(** The number of regular files below a node. *)
Fixpoint count_files (n : node) : nat :=
  match n with
  | File _ => 0
  | Dir entries =>
    (fix count (es : list (string * node)) : nat :=
       match es with
       | [] => 0
       | (_, File _) :: r => S (count r)
       | (_, (Dir _) as sub) :: r => count_files sub + count r
       end) entries
  end.

(** No loader changes [sys.modules]. *)
Definition registry_stable (w : world) : Prop :=
  forall location exec_module module st,
    find_loader w location = Some exec_module ->
    sys_modules (fst (exec_module module st)) = sys_modules st.

(** A loader that empties [sys.path] before it returns. *)
Definition clears_path : loader :=
  fun module st => (set_sys_path [] st, Ok module).

Definition path_clearing_world : world :=
  {| local_tools_dir := [("calc", good_folder)];
     local_tools_path := "/opt/cerebrum/example/tools";
     cwd := "/work";
     find_loader := fun _ => Some clears_path |}.

(** A fetcher that answers with a fixed version and leaves the cache as
    it is. *)
Definition fixed_fetch (v : string) : fetcher :=
  fun _ cache_dir => (cache_dir, Ok ("alice", "calc", Some v)).

(** An installer that exits with the given status and touches nothing. *)
Definition quiet_pip (code : Z) : installer := fun entries => (entries, Exit code).

(** A cache directory in which a file that is no version has the package
    extension. *)
Definition stray_cache : list (string * node) :=
  [("alice",
    Dir [("calc",
          Dir [("1-0-0.tool", File []);
               ("latest.tool", File [])])])].

(** The regular files below a folder, with their relative paths, in the
    order of the walk. *)
Definition folder_files (folder : option node) : list (string * list byte) :=
  match folder with
  | Some n => walk EmptyString n
  | None => []
  end.

(** The metadata that [_save_tool_to_cache] stores for a payload. *)
Definition stored_metadata (tool_data : Payload) : list (string * json) :=
  [("author", p_author tool_data); ("name", p_name tool_data);
   ("version", p_version tool_data); ("license", p_license tool_data);
   ("entry", p_entry tool_data); ("module", p_module tool_data)].

(** * Properties *)

(** ** Strings *)

Section StringFacts.

Lemma append_single (c : ascii) (s : string) : String c EmptyString +:+ s = String c s.
Proof. reflexivity. Qed.

(** Replacing one character by another is a character-wise map. *)
Lemma replace_char (a b : ascii) (s : string) :
  PyStr.replace s (String a EmptyString) (String b EmptyString) =
  PyStr.map (fun c => if Ascii.eqb a c then b else c) s.
Proof.
  unfold PyStr.replace.
  induction s as [|c s IH]; [reflexivity|].
  cbn [PyStr.replace_from PyStr.startswith PyStr.map String.length Nat.sub].
  unfold PyStr.char_eqb. rewrite andb_true_r.
  destruct (Ascii.eqb a c); cbn; now rewrite IH.
Qed.

Lemma map_map_id (f g : ascii -> ascii) (p : ascii -> bool) (s : string) :
  (forall c, p c = true -> g (f c) = c) ->
  PyStr.forallb p s = true -> PyStr.map g (PyStr.map f s) = s.
Proof.
  intros Hfg. induction s as [|c s IH]; cbn; [reflexivity|].
  intros [Hc Hs]%andb_prop. now rewrite Hfg, IH.
Qed.

Lemma forallb_impl (p q : ascii -> bool) (s : string) :
  (forall c, p c = true -> q c = true) ->
  PyStr.forallb p s = true -> PyStr.forallb q s = true.
Proof.
  intros Hpq. induction s as [|c s IH]; cbn; [reflexivity|].
  intros [Hc Hs]%andb_prop. now rewrite (Hpq _ Hc), IH.
Qed.

(** Splitting at dots: what holds of every character of every piece
    holds of every character of the string that is not a dot. *)
Lemma split_dot_chars (p : ascii -> bool) (s : string) :
  PyStr.forallb p (fst (PyStr.split_from "." 0 s)) = true ->
  List.forallb (PyStr.forallb p) (snd (PyStr.split_from "." 0 s)) = true ->
  PyStr.forallb (fun c => p c || is_dot c) s = true.
Proof.
  induction s as [|c s IH]; [reflexivity|].
  cbn [PyStr.split_from PyStr.startswith String.length Nat.sub].
  unfold PyStr.char_eqb. rewrite andb_true_r.
  destruct (Ascii.eqb "." c) eqn:Hc.
  - apply Ascii.eqb_eq in Hc. subst c.
    destruct (PyStr.split_from "." 0 s) as [q qs]. cbn.
    intros _ [Hq Hqs]%andb_prop. rewrite orb_true_r. cbn. now apply IH.
  - destruct (PyStr.split_from "." 0 s) as [q qs]. cbn.
    intros [Hpc Hq]%andb_prop Hqs. rewrite Hpc. cbn. now apply IH.
Qed.

Lemma digit_not_dash (c : ascii) : PyStr.is_digit c = true -> is_dash c = false.
Proof.
  unfold PyStr.is_digit, is_dash. intros [H1 H2]%andb_prop.
  apply N.leb_le in H1. apply N.eqb_neq. lia.
Qed.

Lemma dot_not_dash (c : ascii) : is_dot c = true -> is_dash c = false.
Proof.
  unfold is_dot, is_dash. intros H%N.eqb_eq. apply N.eqb_neq. lia.
Qed.

Lemma dotted_version_has_no_dash (v : string) :
  is_dotted_version v = true -> has_no_dash v = true.
Proof.
  unfold is_dotted_version, PyStr.split, has_no_dash. intros H.
  apply forallb_impl with (p := fun c => PyStr.is_digit c || is_dot c).
  - intros c [Hc|Hc]%orb_prop; [now rewrite digit_not_dash | now rewrite dot_not_dash].
  - destruct (PyStr.split_from "." 0 v) as [q qs] eqn:E.
    cbn in H. apply andb_prop in H as [Hq Hqs].
    apply split_dot_chars; rewrite E; cbn.
    + unfold is_number in Hq. now apply andb_prop in Hq as [_ Hq].
    + clear E. induction qs as [|r qs IH]; [reflexivity|]. cbn in *.
      apply andb_prop in Hqs as [Hr Hqs]. rewrite (IH Hqs), andb_true_r.
      unfold is_number in Hr. now apply andb_prop in Hr as [_ Hr].
Qed.

Lemma dash_char (c : ascii) : is_dash c = Ascii.eqb "-" c.
Proof.
  unfold is_dash. destruct (Ascii.eqb "-" c) eqn:E.
  - apply Ascii.eqb_eq in E. now subst c.
  - apply N.eqb_neq. intros H. apply Ascii.eqb_neq in E. apply E.
    rewrite <- (ascii_N_embedding c), H. reflexivity.
Qed.

(** The codec is reversible on every version without a dash. *)
Lemma version_roundtrip_no_dash (v : string) :
  has_no_dash v = true -> _path_to_version (_version_to_path (Some v)) = v.
Proof.
  unfold _path_to_version, _version_to_path, has_no_dash.
  rewrite !replace_char. apply map_map_id.
  intros c Hc. rewrite dash_char in Hc.
  destruct (Ascii.eqb "." c) eqn:E.
  - apply Ascii.eqb_eq in E. now subst c.
  - now destruct (Ascii.eqb "-" c).
Qed.

End StringFacts.

(** ** C2: the version codec *)

(** C2.  Decoding the encoded form of a version made of dot-separated
    non-negative integers gives the version back, and the absent version
    is encoded as the segment "latest". *)
Theorem version_codec_roundtrip :
  (forall v : string,
      is_dotted_version v = true ->
      _path_to_version (_version_to_path (Some v)) = v)
  /\ _version_to_path None = "latest".
Proof.
  split; [|reflexivity].
  intros v Hv. apply version_roundtrip_no_dash.
  now apply dotted_version_has_no_dash.
Qed.

Lemma version_codec_roundtrip_witness :
  is_dotted_version "1.10.0" = true
  /\ _path_to_version (_version_to_path (Some "1.10.0")) = "1.10.0".
Proof.
  split; [reflexivity|].
  apply (proj1 version_codec_roundtrip "1.10.0"). reflexivity.
Defined.

(** ** C3: the newest version *)

Section ResultFacts.

Context {A B : Type}.

Lemma mapM_ok_forward (f : A -> result B) (l : list A) (l' : list B) :
  mapM f l = Ok l' -> forall x, In x l -> exists y, f x = Ok y /\ In y l'.
Proof.
  revert l'. induction l as [|a l IH]; intros l' H x Hx; [destruct Hx|].
  cbn in H. destruct (f a) as [b|e] eqn:Ea; [|discriminate].
  cbn in H. destruct (mapM f l) as [bs|e] eqn:El; [|discriminate].
  cbn in H. injection H as <-. destruct Hx as [<-|Hx].
  - exists b. split; [assumption | now left].
  - destruct (IH bs eq_refl x Hx) as (y & Hy & Hin). exists y. split; [assumption | now right].
Qed.

Lemma mapM_ok_backward (f : A -> result B) (l : list A) (l' : list B) :
  mapM f l = Ok l' -> forall y, In y l' -> exists x, In x l /\ f x = Ok y.
Proof.
  revert l'. induction l as [|a l IH]; intros l' H y Hy.
  - cbn in H. injection H as <-. destruct Hy.
  - cbn in H. destruct (f a) as [b|e] eqn:Ea; [|discriminate].
    cbn in H. destruct (mapM f l) as [bs|e] eqn:El; [|discriminate].
    cbn in H. injection H as <-. destruct Hy as [<-|Hy].
    + exists a. split; [now left | assumption].
    + destruct (IH bs eq_refl y Hy) as (x & Hx & Hfx). exists x. split; [now right | assumption].
Qed.

Lemma mapM_ok_length (f : A -> result B) (l : list A) (l' : list B) :
  mapM f l = Ok l' -> length l' = length l.
Proof.
  revert l'. induction l as [|a l IH]; intros l' H; cbn in H.
  - now injection H as <-.
  - destruct (f a) as [b|e]; [|discriminate]. cbn in H.
    destruct (mapM f l) as [bs|e]; [|discriminate]. cbn in H.
    injection H as <-. cbn. now rewrite (IH bs eq_refl).
Qed.

(** When every element evaluates, so does the comprehension. *)
Lemma mapM_all_ok (f : A -> result B) (l : list A) :
  List.forallb (fun x => is_ok (f x)) l = true -> exists l', mapM f l = Ok l'.
Proof.
  induction l as [|a l IH]; cbn; [now exists []|].
  intros [Ha Hl]%andb_prop. destruct (f a) as [b|e]; [|discriminate].
  destruct (IH Hl) as [bs ->]. now exists (b :: bs).
Qed.

(** When one element raises and [e] is the only exception [f] can
    raise, the comprehension raises [e]. *)
Lemma mapM_raises (f : A -> result B) (e : exn) (l : list A) (x : A) :
  (forall a e', f a = Raise e' -> e' = e) ->
  In x l -> is_ok (f x) = false -> mapM f l = Raise e.
Proof.
  intros Honly. induction l as [|a l IH]; intros Hx Hfx; [destruct Hx|].
  cbn. destruct (f a) as [b|e'] eqn:Ea.
  - destruct Hx as [->|Hx]; [rewrite Ea in Hfx; discriminate|].
    cbn. now rewrite (IH Hx Hfx).
  - cbn. now rewrite (Honly a e' Ea).
Qed.

End ResultFacts.

Section VersionOrder.

Lemma list_lt_true_le (a b : list Z) : list_lt a b = true -> version_le a b.
Proof.
  revert b. induction a as [|x a IH]; intros [|y b] H; try discriminate.
  - constructor.
  - cbn in H. destruct (Z.eqb_spec x y) as [->|Hne].
    + apply version_le_eq. now apply IH.
    + apply version_le_lt. now apply Z.ltb_lt.
Qed.

Lemma list_lt_false_ge (a b : list Z) : list_lt a b = false -> version_le b a.
Proof.
  revert b. induction a as [|x a IH]; intros [|y b] H; try discriminate;
    [constructor | constructor |].
  cbn in H. destruct (Z.eqb_spec x y) as [->|Hne].
  - apply version_le_eq. now apply IH.
  - apply version_le_lt. apply Z.ltb_ge in H. lia.
Qed.

Lemma version_le_ge_not_lt (a b : list Z) : version_le b a -> list_lt a b = false.
Proof.
  intros H. induction H as [b|x y a b Hxy|x a b H IH].
  - now destruct b.
  - cbn. destruct (Z.eqb_spec y x); [lia|]. apply Z.ltb_ge. lia.
  - cbn. now rewrite Z.eqb_refl.
Qed.

Lemma version_le_refl (a : list Z) : version_le a a.
Proof. induction a; constructor; assumption. Qed.

Lemma version_le_trans (a b c : list Z) :
  version_le a b -> version_le b c -> version_le a c.
Proof.
  intros Hab. revert c. induction Hab as [b|x y a b Hxy|x a b H IH]; intros c Hbc.
  - constructor.
  - inversion Hbc; subst; constructor; lia.
  - inversion Hbc; subst; [now constructor|]. apply version_le_eq. now apply IH.
Qed.

Lemma version_le_total (a b : list Z) : version_le a b \/ version_le b a.
Proof.
  destruct (list_lt a b) eqn:E; [left; now apply list_lt_true_le|right; now apply list_lt_false_ge].
Qed.

Lemma version_le_antisym (a b : list Z) : version_le a b -> version_le b a -> a = b.
Proof.
  intros Hab. induction Hab as [b|x y a b Hxy|x a b H IH]; intros Hba.
  - now inversion Hba.
  - inversion Hba; subst; lia.
  - inversion Hba; subst; [lia|]. f_equal. now apply IH.
Qed.

End VersionOrder.

Section SortFacts.

Context {A : Type}.
Implicit Types (x : list Z * A) (l : list (list Z * A)).

Lemma insert_by_key_In x l z : In z (insert_by_key x l) <-> z = x \/ In z l.
Proof.
  induction l as [|y l IH]; cbn.
  - intuition.
  - destruct (list_lt (fst y) (fst x)); cbn; rewrite ?IH; intuition.
Qed.

Lemma insert_by_key_ascending x l : ascending l -> ascending (insert_by_key x l).
Proof.
  induction l as [|y l IH]; cbn; [intuition|].
  intros [Hy Hl]. destruct (list_lt (fst y) (fst x)) eqn:E; cbn.
  - split; [|now apply IH].
    intros z [->|Hz]%insert_by_key_In; [now apply list_lt_true_le | now apply Hy].
  - apply list_lt_false_ge in E. split; [|split; assumption].
    intros z [<-|Hz]; [assumption|].
    apply version_le_trans with (fst y); [assumption | now apply Hy].
Qed.

Lemma sorted_by_key_In l z : In z (sorted_by_key l) <-> In z l.
Proof.
  induction l as [|y l IH]; cbn; [reflexivity|].
  rewrite insert_by_key_In, IH. intuition.
Qed.

Lemma sorted_by_key_ascending l : ascending (sorted_by_key l).
Proof.
  induction l as [|y l IH]; cbn; [exact I|]. now apply insert_by_key_ascending.
Qed.

Lemma last_ascending l x :
  ascending l -> last l = Some x -> forall z, In z l -> version_le (fst z) (fst x).
Proof.
  induction l as [|y l IH]; [discriminate|].
  intros [Hy Hl] Hlast z Hz. destruct l as [|y' l].
  - cbn in Hlast. injection Hlast as <-. destruct Hz as [<-|[]]. apply version_le_refl.
  - change (last (y :: y' :: l)) with (last (y' :: l)) in Hlast.
    destruct Hz as [<-|Hz]; [|now apply IH].
    apply Hy. clear -Hlast. revert y' Hlast. induction l as [|w l IHl]; intros y' Hlast.
    + cbn in Hlast. injection Hlast as <-. now left.
    + right. apply (IHl w). exact Hlast.
Qed.

Lemma last_In l x : last l = Some x -> In x l.
Proof.
  induction l as [|y l IH]; [discriminate|]. destruct l as [|y' l].
  - cbn. intros [= <-]. now left.
  - intros H. right. now apply IH.
Qed.

Lemma last_nonempty l : l <> [] -> exists x, last l = Some x.
Proof.
  induction l as [|y l IH]; [congruence|]. intros _. destruct l as [|y' l].
  - now exists y.
  - destruct IH as [x Hx]; [congruence|]. now exists x.
Qed.

End SortFacts.

Section NewestVersion.

Lemma mapM_only_raises {A B : Type} (f : A -> result B) (e : exn) (l : list A) :
  (forall a e', f a = Raise e' -> e' = e) ->
  forall e', mapM f l = Raise e' -> e' = e.
Proof.
  intros Honly. induction l as [|a l IH]; intros e' H; [discriminate|].
  cbn in H. destruct (f a) as [b|e0] eqn:Ea.
  - cbn in H. destruct (mapM f l) as [bs|e1]; [discriminate|].
    cbn in H. injection H as <-. now apply IH.
  - cbn in H. injection H as <-. now apply (Honly a).
Qed.

Lemma int_only_ValueError (x : string) (e : exn) : PyInt.int x = Raise e -> e = ValueError.
Proof.
  unfold PyInt.int.
  destruct (match PyInt.trim x with
            | EmptyString => None
            | String c r => _
            end); [discriminate|]. now intros [= <-].
Qed.

Lemma version_key_only_ValueError (v : string) (e : exn) :
  version_key v = Raise e -> e = ValueError.
Proof. apply mapM_only_raises. exact int_only_ValueError. Qed.

Lemma version_key_numeric (v : string) :
  all_numeric v = true -> exists k, version_key v = Ok k.
Proof. apply mapM_all_ok. Qed.

Lemma version_key_not_numeric (v comp : string) :
  In comp (PyStr.split v ".") -> numeric comp = false -> version_key v = Raise ValueError.
Proof. apply mapM_raises. exact int_only_ValueError. Qed.

Lemma keyed_ok (v : string) (kv : list Z * string) :
  keyed v = Ok kv <-> version_key v = Ok (fst kv) /\ snd kv = v.
Proof.
  unfold keyed. destruct (version_key v) as [k|e]; cbn.
  - split.
    + intros [= <-]. now split.
    + intros [[= ->] <-]. now destruct kv.
  - split; [discriminate | intros [? _]; discriminate].
Qed.

Lemma keyed_only_ValueError (v : string) (e : exn) : keyed v = Raise e -> e = ValueError.
Proof.
  unfold keyed. destruct (version_key v) as [k|e'] eqn:E; [discriminate|].
  cbn. intros [= <-]. now apply (version_key_only_ValueError v).
Qed.

Lemma decorate_numeric (versions : list string) :
  List.forallb all_numeric versions = true -> exists l, decorate versions = Ok l.
Proof.
  intros H. apply mapM_all_ok.
  rewrite List.forallb_forall in *. intros v Hv.
  destruct (version_key_numeric v (H v Hv)) as [k Hk]. unfold keyed. now rewrite Hk.
Qed.

(** On a non-empty list whose keys all evaluate, the result is an
    element of the list that no other element exceeds. *)
Lemma newest_is_maximum (versions : list string) :
  versions <> [] ->
  List.forallb all_numeric versions = true ->
  exists v k,
    _get_newest_version versions = Ok (Some v)
    /\ In v versions
    /\ version_key v = Ok k
    /\ forall w kw, In w versions -> version_key w = Ok kw -> version_le kw k.
Proof.
  intros Hne Hnum. destruct (decorate_numeric versions Hnum) as [l Hl].
  assert (Hlen : length l = length versions) by exact (mapM_ok_length _ _ _ Hl).
  assert (Hsne : sorted_by_key l <> []).
  { intros E. destruct l as [|kv l].
    - destruct versions; [congruence | discriminate].
    - assert (Hin : In kv (sorted_by_key (kv :: l))) by (apply sorted_by_key_In; now left).
      rewrite E in Hin. destruct Hin. }
  destruct (last_nonempty _ Hsne) as [[k v] Hlast].
  exists v, k.
  assert (Hinl : In (k, v) l) by (apply sorted_by_key_In; now apply last_In).
  destruct (mapM_ok_backward _ _ _ Hl _ Hinl) as (v' & Hv' & Hkey).
  apply keyed_ok in Hkey as [Hkey Hsnd]. cbn in Hkey, Hsnd. subst v'.
  repeat split; try assumption.
  - unfold _get_newest_version. destruct versions as [|v0 vs]; [congruence|].
    rewrite Hl. cbn. now rewrite Hlast.
  - intros w kw Hw Hkw.
    destruct (mapM_ok_forward _ _ _ Hl w Hw) as (kv & Hkv & Hin).
    apply keyed_ok in Hkv as [Hkv Hsnd]. rewrite Hkw in Hkv. injection Hkv as Hkv.
    rewrite Hkv.
    apply (last_ascending (sorted_by_key l) (k, v)
             (sorted_by_key_ascending l) Hlast kv).
    now apply sorted_by_key_In.
Qed.

Lemma newest_raises (versions : list string) (v comp : string) :
  In v versions -> In comp (PyStr.split v ".") -> numeric comp = false ->
  _get_newest_version versions = Raise ValueError.
Proof.
  intros Hv Hcomp Hnum. unfold _get_newest_version.
  destruct versions as [|v0 vs]; [destruct Hv|].
  assert (H : decorate (v0 :: vs) = Raise ValueError).
  { apply mapM_raises with (x := v); [exact keyed_only_ValueError | assumption |].
    unfold keyed. now rewrite (version_key_not_numeric v comp Hcomp Hnum). }
  now rewrite H.
Qed.

End NewestVersion.

(** Versions made of dot-separated non-negative integers have numeric
    components, so the result on them is the maximum. *)
Section DottedVersionsAreNumeric.

Lemma forallb_rev_onto (p : ascii -> bool) (s acc : string) :
  PyStr.forallb p (PyStr.rev_onto s acc) = PyStr.forallb p s && PyStr.forallb p acc.
Proof.
  revert acc. induction s as [|c s IH]; intros acc; [reflexivity|].
  cbn. rewrite IH. cbn. now rewrite !andb_assoc, (andb_comm (PyStr.forallb p s)).
Qed.

Lemma rev_onto_twice (s a b : string) :
  PyStr.rev_onto (PyStr.rev_onto s a) b = PyStr.rev_onto a (s +:+ b).
Proof.
  revert a b. induction s as [|c s IH]; intros a b; [reflexivity|].
  cbn [PyStr.rev_onto]. now rewrite IH.
Qed.

Lemma append_empty (s : string) : s +:+ EmptyString = s.
Proof. induction s as [|c s IH]; [reflexivity|]. change (String c s +:+ EmptyString) with (String c (s +:+ EmptyString)). now rewrite IH. Qed.

Lemma rev_involutive (s : string) : PyStr.rev (PyStr.rev s) = s.
Proof. unfold PyStr.rev. rewrite rev_onto_twice. cbn [PyStr.rev_onto]. apply append_empty. Qed.

Lemma digit_not_int_space (c : ascii) : PyStr.is_digit c = true -> PyInt.is_space c = false.
Proof.
  unfold PyStr.is_digit, PyInt.is_space. intros [H1 H2]%andb_prop.
  apply N.leb_le in H1, H2.
  destruct (N.eqb_spec (N_of_ascii c) 32); [lia|].
  destruct (N.eqb_spec (N_of_ascii c) 133); [lia|].
  destruct (N.eqb_spec (N_of_ascii c) 160); [lia|].
  rewrite !orb_false_r. apply andb_false_iff. right. apply N.leb_gt. lia.
Qed.

Lemma lskip_digits (s : string) :
  PyStr.forallb PyStr.is_digit s = true -> PyInt.lskip s = s.
Proof.
  destruct s as [|c s]; [reflexivity|]. cbn. intros [Hc _]%andb_prop.
  now rewrite (digit_not_int_space c Hc).
Qed.

Lemma trim_digits (s : string) :
  PyStr.forallb PyStr.is_digit s = true -> PyInt.trim s = s.
Proof.
  intros H. unfold PyInt.trim. rewrite (lskip_digits s H).
  rewrite lskip_digits; [apply rev_involutive|].
  unfold PyStr.rev. now rewrite forallb_rev_onto, H.
Qed.

Lemma digits_from_digits (s : string) (acc : Z) (prev : bool) :
  PyStr.forallb PyStr.is_digit s = true ->
  s <> EmptyString \/ prev = true ->
  exists n, PyInt.digits_from acc prev s = Some n.
Proof.
  revert acc prev. induction s as [|c s IH]; intros acc prev Hs Hne.
  - destruct Hne as [Hne| ->]; [congruence|]. now exists acc.
  - cbn in Hs. apply andb_prop in Hs as [Hc Hs]. cbn. rewrite Hc.
    apply IH; [assumption | now right].
Qed.

(** A non-empty run of digits within the limit is accepted by [int]. *)
Lemma number_is_numeric (comp : string) :
  is_number comp = true ->
  (PyInt.count_digits comp <=? PyInt.max_str_digits)%N = true ->
  numeric comp = true.
Proof.
  unfold is_number, numeric, PyInt.int. intros [Hne Hdigits]%andb_prop Hlimit.
  rewrite (trim_digits comp Hdigits).
  destruct comp as [|c r]; [discriminate|].
  assert (Hc : PyStr.is_digit c = true) by (cbn in Hdigits; now apply andb_prop in Hdigits).
  unfold PyStr.is_digit in Hc. apply andb_prop in Hc as [H1 H2].
  apply N.leb_le in H1, H2.
  destruct (N.eqb_spec (N_of_ascii c) 43); [lia|].
  destruct (N.eqb_spec (N_of_ascii c) 45); [lia|].
  destruct (digits_from_digits (String c r) 0 false Hdigits) as [value Hn];
    [now left|].
  unfold PyInt.magnitude, PyInt.digits. now rewrite Hn, Hlimit.
Qed.

Lemma dotted_version_all_numeric (v : string) :
  is_dotted_version v = true -> within_digit_limit v = true -> all_numeric v = true.
Proof.
  unfold is_dotted_version, within_digit_limit, all_numeric.
  rewrite !List.forallb_forall.
  intros H Hlimit comp Hcomp. apply number_is_numeric; [now apply H | now apply Hlimit].
Qed.

End DottedVersionsAreNumeric.

(** C3.  The newest version of an empty list is absent; on a non-empty
    list whose components are all numeric it is an element of the list
    that is maximal for the component-wise numeric comparison of the
    dot-separated components, so the newest of 1.2.0, 1.10.0 and 1.9.0
    is 1.10.0; and one non-numeric component makes the call raise
    [ValueError], the format error of the comparison. *)
Theorem newest_version_spec :
  _get_newest_version [] = Ok None
  /\ (forall versions : list string,
        versions <> [] ->
        List.forallb all_numeric versions = true ->
        exists v k,
          _get_newest_version versions = Ok (Some v)
          /\ In v versions
          /\ version_key v = Ok k
          /\ forall w kw, In w versions -> version_key w = Ok kw -> version_le kw k)
  /\ (forall (versions : list string) (v comp : string),
        In v versions -> In comp (PyStr.split v ".") -> numeric comp = false ->
        _get_newest_version versions = Raise ValueError)
  /\ _get_newest_version ["1.2.0"; "1.10.0"; "1.9.0"] = Ok (Some "1.10.0").
Proof.
  split; [reflexivity|]. split; [exact newest_is_maximum|].
  split; [exact newest_raises|]. vm_compute. reflexivity.
Qed.

Lemma newest_version_spec_witness :
  (exists v k,
      _get_newest_version ["1.0"; "01.0"; "0.9"] = Ok (Some v)
      /\ In v ["1.0"; "01.0"; "0.9"]
      /\ version_key v = Ok k
      /\ forall w kw,
          In w ["1.0"; "01.0"; "0.9"] -> version_key w = Ok kw -> version_le kw k)
  /\ _get_newest_version ["1.0"; "x.1"] = Raise ValueError.
Proof.
  split.
  - apply (proj1 (proj2 newest_version_spec)); [discriminate | reflexivity].
  - apply (proj1 (proj2 (proj2 newest_version_spec)) ["1.0"; "x.1"] "x.1" "x").
    + right. left. reflexivity.
    + left. reflexivity.
    + reflexivity.
Defined.

(** ** C5: the content transport *)

Section Base64Facts.

Import Base64.

Lemma forall_below (P : N -> bool) (k : nat) :
  List.forallb P (below k) = true -> forall n, (n < N.of_nat k)%N -> P n = true.
Proof.
  intros H n Hn. rewrite List.forallb_forall in H. apply H.
  unfold below. apply List.in_map_iff. exists (N.to_nat n). split.
  - apply N2Nat.id.
  - apply List.in_seq. lia.
Qed.

Lemma forall_below2 (P : N -> N -> bool) (k : nat) :
  List.forallb (fun a => List.forallb (P a) (below k)) (below k) = true ->
  forall a b, (a < N.of_nat k)%N -> (b < N.of_nat k)%N -> P a b = true.
Proof.
  intros H a b Ha Hb.
  apply (forall_below (P a) k); [|assumption].
  now apply (forall_below (fun a => List.forallb (P a) (below k)) k).
Qed.

Lemma sextets_decode (v : N) : (v < 64)%N -> sextet_ok v = true.
Proof. apply (forall_below sextet_ok 64). vm_compute. reflexivity. Qed.

Lemma pairs_decode (a b : N) : (a < 256)%N -> (b < 256)%N -> pair_ok a b = true.
Proof. apply (forall_below2 pair_ok 256). vm_compute. reflexivity. Qed.

Lemma byte_below (x : byte) : (Byte.to_N x < 256)%N.
Proof. pose proof (Byte.to_N_bounded x). lia. Qed.

Lemma byte_of_N_eq (n : N) (x : byte) : (n mod 256)%N = Byte.to_N x -> byte_of_N n = x.
Proof. unfold byte_of_N. intros ->. now rewrite Byte.of_to_N. Qed.

(** Reading one alphabet character. *)
Lemma a2b_from_sextet (v : N) (quad_pos : nat) (leftchar : N) (pads : nat) (t : string) :
  (v < 64)%N ->
  a2b_from quad_pos leftchar pads (String (b2a v) t) =
  match quad_pos with
  | 0%nat => a2b_from 1 v 0 t
  | 1%nat =>
    emit (byte_of_N (N.lor (N.shiftl leftchar 2) (N.shiftr v 4)))
         (a2b_from 2 (N.land v 15) 0 t)
  | 2%nat =>
    emit (byte_of_N (N.lor (N.shiftl leftchar 4) (N.shiftr v 2)))
         (a2b_from 3 (N.land v 3) 0 t)
  | _ =>
    emit (byte_of_N (N.lor (N.shiftl leftchar 6) v))
         (a2b_from 0 0 0 t)
  end.
Proof.
  intros Hv. pose proof (sextets_decode v Hv) as H.
  unfold sextet_ok in H. apply andb_prop in H as [H _]. apply andb_prop in H as [Hpad Hval].
  apply negb_true_iff in Hpad.
  cbn [a2b_from]. rewrite Hpad.
  destruct (a2b (b2a v)) as [w|]; [|discriminate].
  apply N.eqb_eq in Hval. now subst w.
Qed.

Lemma b2a_ascii (v : N) : (v < 64)%N -> (N_of_ascii (b2a v) <? 128)%N = true.
Proof.
  intros Hv. pose proof (sextets_decode v Hv) as H.
  unfold sextet_ok in H. now apply andb_prop in H as [_ H].
Qed.

(** The facts about two neighbouring bytes, one by one. *)
Ltac pair_facts x y :=
  let H := fresh "H" in
  pose proof (pairs_decode (Byte.to_N x) (Byte.to_N y) (byte_below x) (byte_below y)) as H;
  unfold pair_ok in H;
  repeat (apply andb_prop in H as [H ?]);
  repeat match goal with
         | E : (_ <? _)%N = true |- _ => apply N.ltb_lt in E
         | E : (_ =? _)%N = true |- _ => apply N.eqb_eq in E
         end.

Lemma list_ind3 {A : Type} (P : list A -> Prop) :
  P [] -> (forall a, P [a]) -> (forall a b, P [a; b]) ->
  (forall a b c l, P l -> P (a :: b :: c :: l)) ->
  forall l, P l.
Proof.
  intros H0 H1 H2 H3.
  assert (H : forall l, P l /\ (forall a, P (a :: l)) /\ (forall a b, P (a :: b :: l))).
  { induction l as [|x l (IH0 & IH1 & IH2)].
    - repeat split; auto.
    - repeat split; auto. }
  intros l. apply H.
Qed.

Lemma a2b_from_pad2 (leftchar : N) : a2b_from 2 leftchar 0 "==" = Ok [].
Proof. reflexivity. Qed.

Lemma a2b_from_pad3 (leftchar : N) : a2b_from 3 leftchar 0 "=" = Ok [].
Proof. reflexivity. Qed.

(** Decoding what [b2a_base64] wrote gives the bytes back. *)
Lemma a2b_b2a (data : list byte) : a2b_from 0 0 0 (b2a_base64 data) = Ok data.
Proof.
  induction data as [|x|x y|x y z rest IH] using list_ind3.
  - reflexivity.
  - pair_facts x x.
    cbn [b2a_base64].
    rewrite !a2b_from_sextet by assumption. rewrite a2b_from_pad2.
    rewrite (byte_of_N_eq _ x) by assumption. reflexivity.
  - pair_facts x y. pair_facts y y.
    cbn [b2a_base64].
    rewrite !a2b_from_sextet by assumption. rewrite a2b_from_pad3.
    repeat match goal with
           | E : N.land _ _ = _ |- _ => rewrite E; clear E
           end.
    rewrite (byte_of_N_eq _ x), (byte_of_N_eq _ y) by assumption. reflexivity.
  - pair_facts x y. pair_facts y z. pair_facts z z.
    cbn [b2a_base64].
    rewrite !a2b_from_sextet by assumption. rewrite IH.
    repeat match goal with
           | E : N.land _ _ = _ |- _ => rewrite E; clear E
           end.
    rewrite (byte_of_N_eq _ x), (byte_of_N_eq _ y), (byte_of_N_eq _ z) by assumption.
    reflexivity.
Qed.

Lemma b2a_base64_ascii (data : list byte) : is_ascii (b2a_base64 data) = true.
Proof.
  unfold is_ascii.
  induction data as [|x|x y|x y z rest IH] using list_ind3.
  - reflexivity.
  - pair_facts x x. cbn [b2a_base64 PyStr.forallb].
    rewrite !b2a_ascii by assumption. reflexivity.
  - pair_facts x y. pair_facts y y. cbn [b2a_base64 PyStr.forallb].
    rewrite !b2a_ascii by assumption. reflexivity.
  - pair_facts x y. pair_facts y z. pair_facts z z. cbn [b2a_base64 PyStr.forallb].
    rewrite !b2a_ascii by assumption. rewrite IH. reflexivity.
Qed.

Lemma to_N_byte_of_ascii (c : ascii) : Byte.to_N (byte_of_ascii c) = N_of_ascii c.
Proof. apply Byte.to_of_N. symmetry. apply byte_of_ascii_via_N. Qed.

Lemma bytes_is_ascii_of_string (s : string) :
  bytes_is_ascii (list_byte_of_string s) = is_ascii s.
Proof.
  unfold bytes_is_ascii, is_ascii, list_byte_of_string.
  induction s as [|c s IH]; [reflexivity|].
  cbn. now rewrite to_N_byte_of_ascii, IH.
Qed.

(** The content field of a file is the base64 text of its bytes. *)
Lemma encode_content_ok (data : list byte) : encode_content data = Ok (b2a_base64 data).
Proof.
  unfold encode_content, decode_utf8, b64encode.
  rewrite bytes_is_ascii_of_string, b2a_base64_ascii.
  now rewrite string_of_list_byte_of_string.
Qed.

Lemma b64decode_b2a (data : list byte) : b64decode (b2a_base64 data) = Ok data.
Proof. unfold b64decode. rewrite b2a_base64_ascii. apply a2b_b2a. Qed.

End Base64Facts.

(** C5.  For every byte sequence, the content field written by
    [_get_tool_files] (base64 text of the bytes, decoded as UTF-8) is
    produced without error, and the decoding that [_save_tool_to_cache]
    applies to it gives exactly the bytes back. *)
Theorem content_transport_roundtrip (b : list byte) :
  exists text : string,
    encode_content b = Ok text /\ Base64.b64decode text = Ok b.
Proof.
  exists (Base64.b2a_base64 b). split.
  - apply encode_content_ok.
  - apply b64decode_b2a.
Qed.

(** ** C6: the cached versions *)

Section CachedVersions.

Lemma app_nil (t : string) : EmptyString +:+ t = t.
Proof. reflexivity. Qed.

Lemma app_cons (c : ascii) (s t : string) : String c s +:+ t = String c (s +:+ t).
Proof. reflexivity. Qed.

Lemma rev_onto_app (s t acc : string) :
  PyStr.rev_onto (s +:+ t) acc = PyStr.rev_onto t (PyStr.rev_onto s acc).
Proof.
  revert acc. induction s as [|c s IH]; intros acc.
  - now rewrite app_nil.
  - rewrite app_cons. cbn [PyStr.rev_onto]. apply IH.
Qed.

Lemma endswith_tool (base : string) : PyStr.endswith (base +:+ ".tool") ".tool" = true.
Proof.
  unfold PyStr.endswith, PyStr.rev. rewrite rev_onto_app. reflexivity.
Qed.

Lemma rfind_dot_app (i : nat) (s t : string) :
  rfind_dot i (s +:+ t) =
  match rfind_dot (i + String.length s) t with
  | Some j => Some j
  | None => rfind_dot i s
  end.
Proof.
  revert i. induction s as [|c s IH]; intros i.
  - rewrite app_nil. cbn. rewrite Nat.add_0_r. now destruct (rfind_dot i t).
  - rewrite app_cons. cbn [rfind_dot String.length]. rewrite IH.
    replace (S i + String.length s)%nat with (i + S (String.length s))%nat by lia.
    now destruct (rfind_dot (i + S (String.length s)) t).
Qed.

Lemma take_app (s t : string) : take (String.length s) (s +:+ t) = s.
Proof.
  induction s as [|c s IH].
  - rewrite app_nil. now destruct t.
  - rewrite app_cons. cbn. now rewrite IH.
Qed.

Lemma length_app (s t : string) :
  String.length (s +:+ t) = (String.length s + String.length t)%nat.
Proof.
  induction s as [|c s IH]; [now rewrite app_nil|].
  rewrite app_cons. cbn. now rewrite IH.
Qed.

Lemma rfind_dot_tool (k : nat) : rfind_dot k ".tool" = Some k.
Proof. reflexivity. Qed.

(** The stem of a package file name is the name without the extension. *)
Lemma stem_tool (base : string) : base <> EmptyString -> stem (base +:+ ".tool") = base.
Proof.
  intros Hne. unfold stem. rewrite rfind_dot_app, rfind_dot_tool.
  rewrite Nat.add_0_l, length_app. cbn [String.length].
  assert (0 < String.length base)%nat by (destruct base; [congruence | cbn; lia]).
  destruct (Nat.ltb_spec 0 (String.length base)); [|lia].
  destruct (Nat.ltb_spec (String.length base) (String.length base + 5 - 1)); [|lia].
  cbn [andb]. apply take_app.
Qed.

Lemma dotted_version_nonempty (v : string) : is_dotted_version v = true -> v <> EmptyString.
Proof. intros H ->. discriminate H. Qed.

Lemma map_nonempty (f : ascii -> ascii) (s : string) : s <> EmptyString -> PyStr.map f s <> EmptyString.
Proof. destruct s; [congruence | discriminate]. Qed.

Lemma version_to_path_nonempty (v : string) : v <> EmptyString -> _version_to_path (Some v) <> EmptyString.
Proof. intros H. unfold _version_to_path. rewrite replace_char. now apply map_nonempty. Qed.

(** The name of the cache entry of a version, below the tool's
    directory. *)
Lemma cache_name_decodes (v : string) :
  is_dotted_version v = true ->
  _path_to_version (stem (cache_file_name v)) = v
  /\ PyStr.endswith (cache_file_name v) ".tool" = true.
Proof.
  intros Hv. unfold cache_file_name. split; [|apply endswith_tool].
  rewrite stem_tool.
  - apply version_roundtrip_no_dash. now apply dotted_version_has_no_dash.
  - apply version_to_path_nonempty. now apply dotted_version_nonempty.
Qed.

Lemma listing_exact (entries : list (string * node)) (v : string) :
  In v (List.map (fun e => _path_to_version (stem (fst e)))
                 (List.filter (fun e => is_file (snd e)) (glob_tool entries)))
  <-> exists fname data,
        In (fname, File data) entries
        /\ PyStr.endswith fname ".tool" = true
        /\ v = _path_to_version (stem fname).
Proof.
  unfold glob_tool. rewrite List.in_map_iff. split.
  - intros ([fname n] & <- & Hin). apply List.filter_In in Hin as [Hin Hfile].
    apply List.filter_In in Hin as [Hin Hext]. cbn in *.
    destruct n as [data|]; [|discriminate]. now exists fname, data.
  - intros (fname & data & Hin & Hext & ->). exists (fname, File data).
    split; [reflexivity|]. apply List.filter_In. split; [|reflexivity].
    apply List.filter_In. now split.
Qed.

Lemma populated_listing (versions : list string) (data : string -> list byte) :
  List.forallb is_dotted_version versions = true ->
  List.map (fun e => _path_to_version (stem (fst e)))
           (List.filter (fun e => is_file (snd e))
              (glob_tool (populated versions data))) = versions.
Proof.
  unfold populated, glob_tool.
  induction versions as [|v vs IH]; [reflexivity|].
  cbn [List.forallb List.map List.filter fst snd].
  intros [Hv Hvs]%andb_prop. destruct (cache_name_decodes v Hv) as [Hdec Hext].
  rewrite Hext. cbn [List.filter snd is_file List.map fst].
  rewrite Hdec. f_equal. now apply IH.
Qed.

End CachedVersions.

(** C6.  The listing is empty when the tool's cache sub-directory does
    not exist.  When it exists, the listing holds exactly the decoded
    stems of its regular files with the package extension; the stem of
    such a file name is the name without the extension; a directory
    that holds the package files of some versions lists these versions;
    and a directory with the entries 1-0-0 and 2-1-0 lists 1.0.0 and
    2.1.0. *)
Theorem cached_versions_spec :
  (forall (cache : list (string * node)) (author name : string),
      resolve_tool_dir cache author name = None ->
      _get_cached_versions cache author name = [])
  /\ (forall (cache : list (string * node)) (author name : string)
             (entries : list (string * node)),
        resolve_tool_dir cache author name = Some (Dir entries) ->
        (forall v : string,
            In v (_get_cached_versions cache author name)
            <-> exists fname data,
                  In (fname, File data) entries
                  /\ PyStr.endswith fname ".tool" = true
                  /\ v = _path_to_version (stem fname))
        /\ (forall (versions : list string) (data : string -> list byte),
              List.forallb is_dotted_version versions = true ->
              entries = populated versions data ->
              _get_cached_versions cache author name = versions))
  /\ (forall base : string, base <> EmptyString -> stem (base +:+ ".tool") = base)
  /\ _get_cached_versions sample_cache "alice" "calc" = ["1.0.0"; "2.1.0"].
Proof.
  split; [|split; [|split]].
  - intros cache author name H. unfold _get_cached_versions. now rewrite H.
  - intros cache author name entries H. unfold _get_cached_versions. rewrite H. split.
    + intros v. apply listing_exact.
    + intros versions data Hv ->. now apply populated_listing.
  - exact stem_tool.
  - vm_compute. reflexivity.
Qed.

Lemma cached_versions_spec_witness :
  resolve_tool_dir sample_cache "bob" "calc" = None
  /\ _get_cached_versions sample_cache "bob" "calc" = []
  /\ stem ("2-1-0" +:+ ".tool") = "2-1-0"
  /\ _get_cached_versions
       [("alice", Dir [("calc", Dir (populated ["1.0.0"; "2.1.0"] (fun _ => [])))])]
       "alice" "calc" = ["1.0.0"; "2.1.0"].
Proof.
  split; [reflexivity|]. split; [|split].
  - apply (proj1 cached_versions_spec). reflexivity.
  - apply (proj1 (proj2 (proj2 cached_versions_spec))). discriminate.
  - apply (proj2 (proj1 (proj2 cached_versions_spec)
                    [("alice", Dir [("calc", Dir (populated ["1.0.0"; "2.1.0"] (fun _ => [])))])]
                    "alice" "calc" (populated ["1.0.0"; "2.1.0"] (fun _ => [])) eq_refl)
             ["1.0.0"; "2.1.0"] (fun _ => [])); reflexivity.
Defined.

(** ** C4: the requirement check *)

Section RequirementLines.

Lemma forallb_app (p : ascii -> bool) (s t : string) :
  PyStr.forallb p (s +:+ t) = PyStr.forallb p s && PyStr.forallb p t.
Proof.
  induction s as [|c s IH]; [reflexivity|].
  rewrite app_cons. cbn. now rewrite IH, andb_assoc.
Qed.

Lemma forallb_rev (p : ascii -> bool) (s : string) :
  PyStr.forallb p (PyStr.rev s) = PyStr.forallb p s.
Proof. unfold PyStr.rev. rewrite forallb_rev_onto. cbn. apply andb_true_r. Qed.

Lemma lstrip_no_space (s : string) :
  PyStr.forallb (fun c => negb (PyStr.is_space c)) s = true -> PyStr.lstrip s = s.
Proof.
  destruct s as [|c s]; [reflexivity|]. cbn. intros [Hc _]%andb_prop.
  apply negb_true_iff in Hc. now rewrite Hc.
Qed.

Lemma strip_no_space (s : string) :
  PyStr.forallb (fun c => negb (PyStr.is_space c)) s = true -> PyStr.strip s = s.
Proof.
  intros H. unfold PyStr.strip. rewrite (lstrip_no_space s H).
  rewrite lstrip_no_space by now rewrite forallb_rev. apply rev_involutive.
Qed.

Lemma splitlines_from_line (s cur : string) (nonempty : bool) :
  PyStr.forallb (fun c => negb (PyStr.is_linebreak c)) s = true ->
  s <> EmptyString \/ nonempty = true ->
  PyStr.splitlines_from cur nonempty s = [PyStr.rev (PyStr.rev_onto s cur)].
Proof.
  revert cur nonempty. induction s as [|c s IH]; intros cur nonempty Hs Hne.
  - destruct Hne as [Hne| ->]; [congruence | reflexivity].
  - cbn in Hs. apply andb_prop in Hs as [Hc Hs]. apply negb_true_iff in Hc.
    cbn [PyStr.splitlines_from PyStr.rev_onto]. rewrite Hc.
    apply IH; [assumption | now right].
Qed.

(** A text without line boundary is one line. *)
Lemma splitlines_line (s : string) :
  PyStr.forallb (fun c => negb (PyStr.is_linebreak c)) s = true ->
  s <> EmptyString ->
  PyStr.splitlines s = [s].
Proof.
  intros Hs Hne. unfold PyStr.splitlines.
  rewrite splitlines_from_line by (assumption || now left).
  fold (PyStr.rev s). now rewrite rev_involutive.
Qed.

Lemma split_eqeq_first (name rest : string) :
  PyStr.forallb (fun c => negb (is_equals c)) name = true ->
  fst (PyStr.split_from "==" 0 (name +:+ "==" +:+ rest)) = name
  /\ fst (PyStr.split_from "==" 0 name) = name.
Proof.
  induction name as [|c name IH]; intros H.
  - split; reflexivity.
  - cbn in H. apply andb_prop in H as [Hc H]. destruct (IH H) as [IH1 IH2].
    assert (E : PyStr.char_eqb "=" c = false).
    { unfold PyStr.char_eqb. destruct (Ascii.eqb_spec "=" c) as [<-|]; [discriminate Hc|].
      reflexivity. }
    rewrite app_cons. cbn [PyStr.split_from PyStr.startswith]. rewrite E. cbn [andb].
    split.
    + destruct (PyStr.split_from "==" 0 (name +:+ "==" +:+ rest)) as [p ps].
      cbn in *. now subst p.
    + destruct (PyStr.split_from "==" 0 name) as [p ps]. cbn in *. now subst p.
Qed.

Lemma before_eqeq_line (name : string) (version : option string) :
  PyStr.forallb (fun c => negb (is_equals c)) name = true ->
  name_part (requirement_line name version) = name.
Proof.
  intros H. destruct (split_eqeq_first name (default EmptyString version) H) as [H1 H2].
  unfold name_part, PyStr.split, requirement_line. destruct version as [v|]; cbn in H1.
  - now destruct (PyStr.split_from "==" 0 (name +:+ "==" +:+ v)).
  - now destruct (PyStr.split_from "==" 0 name).
Qed.

Lemma plain_name_parts (name : string) :
  is_plain_name name = true ->
  name <> EmptyString
  /\ PyStr.forallb is_line_char name = true
  /\ PyStr.forallb (fun c => negb (is_equals c)) name = true
  /\ PyStr.startswith name "#" = false.
Proof.
  unfold is_plain_name. intros [[Hne Hchars]%andb_prop Hcomment]%andb_prop.
  split; [now destruct name|]. split; [|split].
  - eapply forallb_impl; [|exact Hchars]. now intros c [? _]%andb_prop.
  - eapply forallb_impl; [|exact Hchars]. now intros c [_ ?]%andb_prop.
  - now apply negb_true_iff.
Qed.

Lemma line_chars (name : string) (version : option string) :
  is_plain_name name = true ->
  match version with Some v => is_plain_version v = true | None => True end ->
  PyStr.forallb is_line_char (requirement_line name version) = true.
Proof.
  intros (_ & Hname & _ & _)%plain_name_parts Hv. destruct version as [v|]; cbn.
  - rewrite !forallb_app, Hname. cbn. exact Hv.
  - exact Hname.
Qed.

Lemma line_nonempty (name : string) (version : option string) :
  name <> EmptyString -> requirement_line name version <> EmptyString.
Proof. destruct name; [congruence|]. destruct version; discriminate. Qed.

Lemma line_startswith (name : string) (version : option string) (p : string) :
  name <> EmptyString ->
  PyStr.startswith (requirement_line name version) "#" = PyStr.startswith name "#".
Proof. destruct name; [congruence|]. now destruct version. Qed.

End RequirementLines.

(** ** Text and strings *)

Section TextOfStrings.

Lemma of_string_cons (c : ascii) (s : string) :
  PyText.of_string (String c s) = N_of_ascii c :: PyText.of_string s.
Proof. reflexivity. Qed.

Lemma of_string_app (s t : string) :
  PyText.of_string (s +:+ t) = PyText.of_string s ++ PyText.of_string t.
Proof.
  induction s as [|c s IH]; [reflexivity|].
  rewrite app_cons, !of_string_cons, IH. reflexivity.
Qed.

Lemma of_string_length (s : string) :
  List.length (PyText.of_string s) = String.length s.
Proof. induction s as [|c s IH]; [reflexivity|]. rewrite of_string_cons. cbn. now rewrite IH. Qed.

Lemma N_of_ascii_eqb (c d : ascii) : (N_of_ascii c =? N_of_ascii d)%N = Ascii.eqb c d.
Proof.
  destruct (Ascii.eqb_spec c d) as [->|Hne]; [apply N.eqb_refl|].
  apply N.eqb_neq. intros E. apply Hne.
  rewrite <- (ascii_N_embedding c), <- (ascii_N_embedding d). now rewrite E.
Qed.

Lemma N_of_ascii_bound (c : ascii) : (N_of_ascii c < 256)%N.
Proof. apply N_ascii_bounded. Qed.

Lemma text_eqb_of_string (a b : string) :
  PyText.eqb (PyText.of_string a) (PyText.of_string b) = String.eqb a b.
Proof.
  revert b. induction a as [|c a IH]; intros [|d b]; try reflexivity.
  rewrite !of_string_cons. cbn [PyText.eqb String.eqb].
  rewrite N_of_ascii_eqb, IH. now destruct (Ascii.eqb c d).
Qed.

Lemma text_eqb_eq (s t : list N) : PyText.eqb s t = true <-> s = t.
Proof.
  revert t. induction s as [|c s IH]; intros [|d t]; cbn; try (split; congruence).
  rewrite andb_true_iff, N.eqb_eq, IH. split; [intros [-> ->]; reflexivity | intros [= -> ->]; now split].
Qed.

Lemma startswith_of_string (s p : string) :
  PyText.startswith (PyText.of_string s) (PyText.of_string p) = PyStr.startswith s p.
Proof.
  revert s. induction p as [|c p IH]; intros s; [reflexivity|].
  destruct s as [|d s]; [reflexivity|].
  rewrite !of_string_cons. cbn [PyText.startswith PyStr.startswith].
  now rewrite N_of_ascii_eqb, IH.
Qed.

Lemma split_from_of_string (sep : string) (k : nat) (s : string) :
  PyText.split_from (PyText.of_string sep) k (PyText.of_string s)
  = (PyText.of_string (fst (PyStr.split_from sep k s)),
     List.map PyText.of_string (snd (PyStr.split_from sep k s))).
Proof.
  revert k. induction s as [|c s IH]; intros k; [reflexivity|].
  rewrite of_string_cons. cbn [PyText.split_from PyStr.split_from]. destruct k as [|k].
  - change (N_of_ascii c :: PyText.of_string s) with (PyText.of_string (String c s)).
    rewrite startswith_of_string, of_string_length.
    destruct (PyStr.startswith (String c s) sep).
    + rewrite IH. now destruct (PyStr.split_from sep (String.length sep - 1) s).
    + rewrite IH. now destruct (PyStr.split_from sep 0 s).
  - apply IH.
Qed.

Lemma before_eqeq_of_string (line : string) :
  before_eqeq (PyText.of_string line) = PyText.of_string (name_part line).
Proof.
  unfold before_eqeq, name_part, PyText.split, PyStr.split.
  rewrite split_from_of_string. now destruct (PyStr.split_from "==" 0 line).
Qed.

Lemma of_string_rev_onto (s acc : string) :
  PyText.of_string (PyStr.rev_onto s acc)
  = List.rev (PyText.of_string s) ++ PyText.of_string acc.
Proof.
  revert acc. induction s as [|c s IH]; intros acc; [reflexivity|].
  cbn [PyStr.rev_onto]. rewrite IH, !of_string_cons. cbn [List.rev].
  now rewrite <- List.app_assoc.
Qed.

Lemma of_string_rev (s : string) :
  PyText.of_string (PyStr.rev s) = List.rev (PyText.of_string s).
Proof. unfold PyStr.rev. rewrite of_string_rev_onto. apply List.app_nil_r. Qed.

(** Below 0x80 the white space and the line boundaries of the two
    readings are the same. *)
Lemma is_space_ascii (c : ascii) :
  (N_of_ascii c <? 128)%N = true -> PyText.is_space (N_of_ascii c) = PyStr.is_space c.
Proof.
  intros H%N.ltb_lt. unfold PyText.is_space, PyStr.is_space.
  set (n := N_of_ascii c) in *.
  repeat match goal with
         | |- context [(n =? ?k)%N] =>
           destruct (N.eqb_spec n k); [lia|]
         end.
  replace ((8192 <=? n)%N) with false by (symmetry; apply N.leb_gt; lia).
  cbn. now rewrite !orb_false_r.
Qed.

Lemma is_linebreak_ascii (c : ascii) :
  (N_of_ascii c <? 128)%N = true -> PyText.is_linebreak (N_of_ascii c) = PyStr.is_linebreak c.
Proof.
  intros H%N.ltb_lt. unfold PyText.is_linebreak, PyStr.is_linebreak.
  set (n := N_of_ascii c) in *.
  repeat match goal with
         | |- context [(n =? ?k)%N] =>
           destruct (N.eqb_spec n k); [lia|]
         end.
  now rewrite !orb_false_r.
Qed.

Lemma is_ascii_of_string (s : string) :
  PyText.is_ascii (PyText.of_string s) = Base64.is_ascii s.
Proof.
  unfold PyText.is_ascii, Base64.is_ascii.
  induction s as [|c s IH]; [reflexivity|]. rewrite of_string_cons. cbn. now rewrite IH.
Qed.

Lemma forallb_lstrip (p : ascii -> bool) (s : string) :
  PyStr.forallb p s = true -> PyStr.forallb p (PyStr.lstrip s) = true.
Proof.
  induction s as [|c s IH]; [reflexivity|]. cbn [PyStr.lstrip].
  destruct (PyStr.is_space c); [|trivial]. cbn. intros [_ H]%andb_prop. now apply IH.
Qed.

Lemma lstrip_of_string (s : string) :
  Base64.is_ascii s = true ->
  PyText.lstrip (PyText.of_string s) = PyText.of_string (PyStr.lstrip s).
Proof.
  unfold Base64.is_ascii. induction s as [|c s IH]; [reflexivity|].
  cbn [PyStr.forallb]. intros [Hc Hs]%andb_prop.
  rewrite of_string_cons. cbn [PyText.lstrip PyStr.lstrip].
  rewrite (is_space_ascii c Hc). destruct (PyStr.is_space c); [now apply IH | reflexivity].
Qed.

Lemma strip_of_string (s : string) :
  Base64.is_ascii s = true ->
  PyText.strip (PyText.of_string s) = PyText.of_string (PyStr.strip s).
Proof.
  intros H. unfold PyText.strip, PyStr.strip.
  rewrite (lstrip_of_string s H), <- of_string_rev, lstrip_of_string, <- of_string_rev.
  - reflexivity.
  - unfold Base64.is_ascii in *. rewrite forallb_rev. now apply forallb_lstrip.
Qed.

Lemma is_requirement_line_of_string (line : string) :
  Base64.is_ascii line = true ->
  is_requirement_line (PyText.of_string line) = declares_name line.
Proof.
  intros H. unfold is_requirement_line, declares_name.
  rewrite (strip_of_string line H), startswith_of_string.
  change (@nil N) with (PyText.of_string EmptyString). now rewrite text_eqb_of_string.
Qed.

Lemma lower_ascii_of_char (c : ascii) :
  PyText.lower_ascii (N_of_ascii c) = N_of_ascii (PyStr.lower_char c).
Proof.
  unfold PyText.lower_ascii, PyStr.lower_char, PyStr.is_upper.
  destruct ((65 <=? N_of_ascii c)%N && (N_of_ascii c <=? 90)%N) eqn:E; [|reflexivity].
  apply andb_prop in E as [_ E%N.leb_le].
  symmetry. apply N_ascii_embedding. lia.
Qed.

Lemma lower_of_string (unicode_lower : list N -> list N) (s : string) :
  Base64.is_ascii s = true ->
  PyText.lower unicode_lower (PyText.of_string s) = PyText.of_string (PyStr.lower s).
Proof.
  intros H. unfold PyText.lower. rewrite is_ascii_of_string, H.
  clear H. induction s as [|c s IH]; [reflexivity|].
  unfold PyStr.lower in *. cbn [PyStr.map]. rewrite !of_string_cons. cbn [List.map].
  now rewrite lower_ascii_of_char, IH.
Qed.

(** Induction that steps over one or two characters, as the line
    splitting does at a carriage return and line feed. *)
Lemma string_ind2 (P : string -> Prop) :
  P EmptyString ->
  (forall c s, P s -> (forall d s', s = String d s' -> P s') -> P (String c s)) ->
  forall s, P s.
Proof.
  intros Hnil Hcons s.
  enough (H : P s /\ forall d s', s = String d s' -> P s') by apply H.
  induction s as [|c s [IH1 IH2]].
  - split; [assumption | discriminate].
  - split; [now apply Hcons | intros d s' [= _ <-]; assumption].
Qed.

Lemma splitlines_from_of_string (s cur : string) (nonempty : bool) :
  Base64.is_ascii s = true ->
  PyText.splitlines_from (PyText.of_string cur) nonempty (PyText.of_string s)
  = List.map PyText.of_string (PyStr.splitlines_from cur nonempty s).
Proof.
  unfold Base64.is_ascii. revert cur nonempty.
  induction s as [|c s IH IH2] using string_ind2; intros cur nonempty H.
  - cbn. destruct nonempty; [|reflexivity]. cbn. now rewrite of_string_rev.
  - cbn [PyStr.forallb] in H. apply andb_prop in H as [Hc Hs].
    rewrite of_string_cons. cbn [PyText.splitlines_from PyStr.splitlines_from].
    rewrite (is_linebreak_ascii c Hc). destruct (PyStr.is_linebreak c).
    + destruct s as [|d s]; [cbn; now rewrite of_string_rev|].
      rewrite of_string_cons.
      destruct ((N_of_ascii c =? 13)%N && (N_of_ascii d =? 10)%N).
      * cbn [List.map]. rewrite of_string_rev. f_equal.
        change (@nil N) with (PyText.of_string EmptyString).
        apply (IH2 d s eq_refl).
        cbn [PyStr.forallb] in Hs. now apply andb_prop in Hs.
      * cbn [List.map]. rewrite of_string_rev. f_equal.
        change (@nil N) with (PyText.of_string EmptyString).
        rewrite <- of_string_cons. now apply IH.
    + rewrite <- of_string_cons. now apply IH.
Qed.

Lemma splitlines_of_string (s : string) :
  Base64.is_ascii s = true ->
  PyText.splitlines (PyText.of_string s) = List.map PyText.of_string (PyStr.splitlines s).
Proof.
  intros H. unfold PyText.splitlines, PyStr.splitlines.
  change (@nil N) with (PyText.of_string EmptyString). now apply splitlines_from_of_string.
Qed.

(** What holds of every character of a text holds of every character
    of its lines. *)
Lemma splitlines_from_forallb (p : ascii -> bool) (s cur : string) (nonempty : bool) :
  PyStr.forallb p cur = true -> PyStr.forallb p s = true ->
  List.Forall (fun l => PyStr.forallb p l = true) (PyStr.splitlines_from cur nonempty s).
Proof.
  revert cur nonempty. induction s as [|c s IH IH2] using string_ind2;
    intros cur nonempty Hcur Hs.
  - cbn. destruct nonempty; constructor; [|constructor]. now rewrite forallb_rev.
  - cbn [PyStr.forallb] in Hs. apply andb_prop in Hs as [Hc Hs].
    cbn [PyStr.splitlines_from]. destruct (PyStr.is_linebreak c).
    + assert (Hrev : PyStr.forallb p (PyStr.rev cur) = true) by now rewrite forallb_rev.
      destruct s as [|d s]; [constructor; [assumption | constructor]|].
      destruct ((N_of_ascii c =? 13)%N && (N_of_ascii d =? 10)%N).
      * constructor; [assumption|]. apply (IH2 d s eq_refl); [reflexivity|].
        cbn [PyStr.forallb] in Hs. now apply andb_prop in Hs.
      * constructor; [assumption|]. now apply IH.
    + apply IH; [|assumption]. cbn. now rewrite Hc, Hcur.
Qed.

Lemma to_N_of_string_bytes (data : list byte) :
  PyText.of_string (string_of_list_byte data) = List.map Byte.to_N data.
Proof.
  unfold PyText.of_string, string_of_list_byte.
  induction data as [|b data IH]; [reflexivity|]. cbn.
  rewrite IH. f_equal. now destruct b.
Qed.

Lemma code_points_ascii (data : list N) :
  List.forallb (fun b => (b <? 128)%N) data = true -> UTF8.code_points data = Some data.
Proof.
  induction data as [|b data IH]; [reflexivity|]. cbn [List.forallb].
  intros [Hb Hdata]%andb_prop. cbn [UTF8.code_points]. now rewrite Hb, (IH Hdata).
Qed.

(** ASCII bytes decode to the characters of the same numbers. *)
Lemma decode_ascii (data : list byte) :
  bytes_is_ascii data = true ->
  UTF8.decode data = Ok (PyText.of_string (string_of_list_byte data)).
Proof.
  intros H. unfold UTF8.decode. rewrite code_points_ascii.
  - now rewrite to_N_of_string_bytes.
  - unfold bytes_is_ascii in H. clear -H.
    induction data as [|b data IH]; [reflexivity|]. cbn in *.
    apply andb_prop in H as [Hb H]. now rewrite Hb, IH.
Qed.

Lemma decode_ascii_string (s : string) :
  Base64.is_ascii s = true ->
  UTF8.decode (list_byte_of_string s) = Ok (PyText.of_string s).
Proof.
  intros H. rewrite decode_ascii by now rewrite bytes_is_ascii_of_string.
  now rewrite string_of_list_byte_of_string.
Qed.

End TextOfStrings.

(** ** Files made of lines *)

Section LinesOfFiles.

Variable unicode_lower : list N -> list N.

Lemma splitlines_from_ended (l : list N) (e : line_end) (tail cur : list N) (nonempty : bool) :
  List.forallb (fun c => negb (PyText.is_linebreak c)) l = true ->
  PyText.splitlines_from cur nonempty (l ++ end_text e ++ tail)
  = (List.rev cur ++ l) :: PyText.splitlines_from [] false tail.
Proof.
  revert cur nonempty. induction l as [|c l IH]; intros cur nonempty H.
  - rewrite List.app_nil_r. destruct e; cbn [end_text List.app PyText.splitlines_from].
    + change (PyText.is_linebreak 10) with true. cbn match.
      now destruct tail.
    + change (PyText.is_linebreak 13) with true. reflexivity.
  - cbn [List.forallb] in H. apply andb_prop in H as [Hc H]. apply negb_true_iff in Hc.
    cbn [List.app PyText.splitlines_from]. rewrite Hc, (IH _ _ H). cbn [List.rev].
    now rewrite <- List.app_assoc.
Qed.

Lemma splitlines_from_rest (rest cur : list N) (nonempty : bool) :
  List.forallb (fun c => negb (PyText.is_linebreak c)) rest = true ->
  rest <> [] \/ nonempty = true ->
  PyText.splitlines_from cur nonempty rest = [List.rev cur ++ rest].
Proof.
  revert cur nonempty. induction rest as [|c rest IH]; intros cur nonempty H Hne.
  - destruct Hne as [Hne| ->]; [congruence|]. cbn. now rewrite List.app_nil_r.
  - cbn [List.forallb] in H. apply andb_prop in H as [Hc H]. apply negb_true_iff in Hc.
    cbn [PyText.splitlines_from]. rewrite Hc, IH by (assumption || now right).
    cbn [List.rev]. now rewrite <- List.app_assoc.
Qed.

(** The lines of a file are its ended lines and, unless it is empty,
    what stands after the last ending. *)
Lemma splitlines_lines_text (lines : list (list N * line_end)) (rest : list N) :
  List.forallb (fun le => List.forallb (fun c => negb (PyText.is_linebreak c)) (fst le)) lines
  = true ->
  List.forallb (fun c => negb (PyText.is_linebreak c)) rest = true ->
  PyText.splitlines (lines_text lines rest)
  = List.map fst lines ++ match rest with [] => [] | _ => [rest] end.
Proof.
  intros Hlines Hrest. unfold PyText.splitlines.
  induction lines as [|[l e] lines IH].
  - cbn [lines_text List.map List.app]. destruct rest as [|c rest]; [reflexivity|].
    now rewrite splitlines_from_rest by (assumption || now left).
  - cbn [List.forallb fst] in Hlines. apply andb_prop in Hlines as [Hl Hlines].
    cbn [lines_text List.map fst]. rewrite (splitlines_from_ended l e _ _ _ Hl), (IH Hlines).
    reflexivity.
Qed.

Lemma splitlines_file_text {A : Type} (text_of : A -> list N)
      (ended : list (A * line_end)) (last : option A) :
  List.forallb (fun l => List.forallb (fun c => negb (PyText.is_linebreak c)) (text_of l))
               (all_lines ended last) = true ->
  PyText.splitlines (file_text text_of ended last)
  = List.map text_of (List.map fst ended)
    ++ match last with
       | Some l => match text_of l with [] => [] | _ => [text_of l] end
       | None => []
       end.
Proof.
  unfold all_lines, file_text. rewrite List.forallb_app. intros [Hended Hlast]%andb_prop.
  rewrite splitlines_lines_text.
  - rewrite !List.map_map. cbn [fst]. now destruct last.
  - clear -Hended. induction ended as [|[l e] ended IH]; [reflexivity|].
    cbn in *. apply andb_prop in Hended as [H1 H2]. now rewrite H1, IH.
  - destruct last as [l|]; [|reflexivity]. cbn in Hlast. now rewrite andb_true_r in Hlast.
Qed.

(** Plain names and versions, read as text. *)
Lemma line_char_text (c : ascii) :
  is_line_char c = true ->
  PyText.is_space (N_of_ascii c) = false
  /\ PyText.is_linebreak (N_of_ascii c) = false
  /\ (N_of_ascii c <? 128)%N = true.
Proof.
  unfold is_line_char. intros [[H1 H2]%andb_prop H3]%andb_prop.
  rewrite (is_space_ascii c H3), (is_linebreak_ascii c H3).
  apply negb_true_iff in H1, H2. now repeat split.
Qed.

Lemma requirement_line_text (name : string) (version : option string) :
  is_plain_name name = true ->
  match version with Some v => is_plain_version v = true | None => True end ->
  let line := requirement_line name version in
  Base64.is_ascii line = true
  /\ Base64.is_ascii name = true
  /\ List.forallb (fun c => negb (PyText.is_linebreak c)) (PyText.of_string line) = true
  /\ PyText.of_string line <> []
  /\ PyStr.strip line = line
  /\ name_part line = name
  /\ declares_name line = true.
Proof.
  intros Hname Hv line.
  pose proof (line_chars name version Hname Hv) as Hchars. fold line in Hchars.
  destruct (plain_name_parts name Hname) as (Hne & Hnchars & Heq & Hcomment).
  assert (Hstrip : PyStr.strip line = line).
  { apply strip_no_space. eapply forallb_impl; [|exact Hchars].
    now intros c [[? _]%andb_prop _]%andb_prop. }
  assert (Hline : line <> EmptyString) by now apply line_nonempty.
  repeat split.
  - unfold Base64.is_ascii. eapply forallb_impl; [|exact Hchars].
    now intros c [_ ?]%andb_prop.
  - unfold Base64.is_ascii. eapply forallb_impl; [|exact Hnchars].
    now intros c [_ ?]%andb_prop.
  - clear -Hchars. induction line as [|c line IH]; [reflexivity|].
    cbn in Hchars. apply andb_prop in Hchars as [Hc Hchars].
    rewrite of_string_cons. cbn [List.forallb].
    destruct (line_char_text c Hc) as (_ & -> & _). now rewrite IH.
  - destruct line; [congruence | discriminate].
  - exact Hstrip.
  - now apply before_eqeq_line.
  - unfold declares_name. rewrite Hstrip. subst line.
    rewrite (line_startswith name version "#" Hne), Hcomment.
    now destruct (String.eqb_spec (requirement_line name version) EmptyString).
Qed.

(** The name a plain line gives, as the check reads it. *)
Lemma name_of_plain_line (name : string) (version : option string) :
  is_plain_name name = true ->
  match version with Some v => is_plain_version v = true | None => True end ->
  PyText.lower unicode_lower
    (before_eqeq (PyText.of_string (requirement_line name version)))
  = PyText.of_string (PyStr.lower name).
Proof.
  intros Hname Hv.
  destruct (requirement_line_text name version Hname Hv) as (_ & Hascii & _ & _ & _ & Hpart & _).
  rewrite before_eqeq_of_string, Hpart. now apply lower_of_string.
Qed.

Lemma text_forallb_rev (p : N -> bool) (l : list N) :
  List.forallb p (List.rev l) = List.forallb p l.
Proof.
  induction l as [|c l IH]; [reflexivity|].
  cbn [List.rev List.forallb]. rewrite List.forallb_app, IH. cbn. rewrite andb_true_r.
  apply andb_comm.
Qed.

Lemma blank_is_space (l : list N) :
  List.forallb is_blank l = true -> List.forallb PyText.is_space l = true.
Proof.
  intros H. apply List.forallb_forall. intros c Hc.
  eapply List.forallb_forall in H; [|exact Hc]. now apply andb_prop in H.
Qed.

Lemma blank_no_linebreak (l : list N) :
  List.forallb is_blank l = true ->
  List.forallb (fun c => negb (PyText.is_linebreak c)) l = true.
Proof.
  intros H. apply List.forallb_forall. intros c Hc.
  eapply List.forallb_forall in H; [|exact Hc]. now apply andb_prop in H.
Qed.

Lemma lstrip_spaces (a x : list N) :
  List.forallb PyText.is_space a = true -> PyText.lstrip (a ++ x) = PyText.lstrip x.
Proof.
  induction a as [|c a IH]; [reflexivity|]. cbn [List.forallb List.app PyText.lstrip].
  intros [Hc Ha]%andb_prop. rewrite Hc. now apply IH.
Qed.

Lemma lstrip_no_spaces (x : list N) :
  List.forallb (fun c => negb (PyText.is_space c)) x = true -> PyText.lstrip x = x.
Proof.
  destruct x as [|c x]; [reflexivity|]. cbn. intros [Hc _]%andb_prop.
  apply negb_true_iff in Hc. now rewrite Hc.
Qed.

Lemma blank_strip (pad : list N) :
  List.forallb is_blank pad = true -> PyText.strip pad = [].
Proof.
  intros H%blank_is_space. unfold PyText.strip.
  assert (E : PyText.lstrip pad = []).
  { rewrite <- (List.app_nil_r pad). now rewrite lstrip_spaces. }
  now rewrite E.
Qed.

(** White space around a text without white space at its ends is what
    [strip] removes. *)
Lemma strip_padded (indent body trail : list N) :
  List.forallb is_blank indent = true ->
  List.forallb is_blank trail = true ->
  List.forallb (fun c => negb (PyText.is_space c)) body = true ->
  body <> [] ->
  PyText.strip (indent ++ body ++ trail) = body.
Proof.
  intros Hindent%blank_is_space Htrail%blank_is_space Hbody Hne. unfold PyText.strip.
  rewrite (lstrip_spaces indent _ Hindent).
  assert (E : PyText.lstrip (body ++ trail) = body ++ trail).
  { destruct body as [|c body]; [congruence|]. cbn in *.
    apply andb_prop in Hbody as [Hc _]. apply negb_true_iff in Hc. now rewrite Hc. }
  rewrite E, List.rev_app_distr, lstrip_spaces by now rewrite text_forallb_rev.
  rewrite lstrip_no_spaces by now rewrite text_forallb_rev.
  apply List.rev_involutive.
Qed.

Lemma blank_not_hash (c : N) : is_blank c = true -> (35 =? c)%N = false.
Proof.
  intros H. destruct (N.eqb_spec 35 c) as [<-|]; [discriminate H | reflexivity].
Qed.

Lemma plain_line_no_spaces (name : string) (version : option string) :
  is_plain_name name = true ->
  match version with Some v => is_plain_version v = true | None => True end ->
  List.forallb (fun c => negb (PyText.is_space c))
               (PyText.of_string (requirement_line name version)) = true.
Proof.
  intros Hname Hv. pose proof (line_chars name version Hname Hv) as Hchars.
  induction (requirement_line name version) as [|c line IH]; [reflexivity|].
  cbn in Hchars. apply andb_prop in Hchars as [Hc Hchars].
  rewrite of_string_cons. cbn [List.forallb].
  destruct (line_char_text c Hc) as (-> & _ & _). now rewrite IH.
Qed.

(** What one line of a manifest adds to the required packages. *)
Lemma required_of_line (l : manifest_line) :
  is_manifest_line l = true ->
  comment_opens_line l = true ->
  List.forallb (fun c => negb (PyText.is_linebreak c)) (line_text l) = true
  /\ List.map (fun line => PyText.lower unicode_lower (before_eqeq (PyText.strip line)))
              (List.filter is_requirement_line [line_text l])
     = List.map (fun name => PyText.of_string (PyStr.lower name)) (dependency_names [l]).
Proof.
  destruct l as [pad|indent body|indent name version trail];
    cbn [is_manifest_line line_text comment_opens_line].
  - intros H _. split; [now apply blank_no_linebreak|].
    cbn [List.filter]. unfold is_requirement_line. now rewrite (blank_strip pad H).
  - intros [_ H]%andb_prop Hopen. destruct indent as [|c indent]; [|discriminate Hopen].
    cbn [List.app]. split.
    + cbn [List.forallb]. now rewrite H.
    + cbn [List.filter]. unfold is_requirement_line.
      change (PyText.startswith (35%N :: body) (PyText.of_string "#")) with true.
      now rewrite andb_false_r.
  - intros [[[Hindent Hname]%andb_prop Hv]%andb_prop Htrail]%andb_prop _.
    assert (Hv' : match version with Some v => is_plain_version v = true | None => True end)
      by now destruct version.
    destruct (requirement_line_text name version Hname Hv')
      as (Hascii & _ & Hlb & Hne & _ & _ & Hdecl).
    pose proof (plain_line_no_spaces name version Hname Hv') as Hspaces.
    set (body := PyText.of_string (requirement_line name version)) in *.
    split.
    + rewrite !List.forallb_app, Hlb. now rewrite !blank_no_linebreak.
    + assert (Hstart : PyText.startswith (indent ++ body ++ trail) (PyText.of_string "#")
                       = false).
      { destruct indent as [|c indent].
        - assert (Hbody : PyText.startswith body (PyText.of_string "#") = false).
          { subst body. rewrite startswith_of_string.
            unfold declares_name in Hdecl. apply andb_prop in Hdecl as [_ Hdecl].
            now apply negb_true_iff in Hdecl. }
          change (PyText.of_string "#") with [35%N] in *.
          destruct body as [|c body]; [congruence|].
          cbn [List.app PyText.startswith] in *. exact Hbody.
        - cbn [List.forallb] in Hindent. apply andb_prop in Hindent as [Hc _].
          change (PyText.of_string "#") with [35%N].
          cbn [List.app PyText.startswith]. now rewrite (blank_not_hash c Hc). }
      pose proof (strip_padded indent body trail Hindent Htrail Hspaces Hne) as Hstrip.
      cbn [List.filter]. unfold is_requirement_line. rewrite Hstrip, Hstart.
      destruct (PyText.eqb body []) eqn:E; [apply text_eqb_eq in E; congruence|].
      cbn [negb andb List.map]. rewrite Hstrip. subst body.
      now rewrite (name_of_plain_line name version Hname Hv').
Qed.

Lemma required_of_lines (lines : list manifest_line) :
  List.forallb is_manifest_line lines = true ->
  List.forallb comment_opens_line lines = true ->
  List.forallb (fun l => List.forallb (fun c => negb (PyText.is_linebreak c)) (line_text l)) lines
  = true
  /\ List.map (fun line => PyText.lower unicode_lower (before_eqeq (PyText.strip line)))
              (List.filter is_requirement_line (List.map line_text lines))
     = List.map (fun name => PyText.of_string (PyStr.lower name)) (dependency_names lines).
Proof.
  induction lines as [|l lines IH]; [now split|].
  cbn [List.forallb]. intros [Hl Hlines]%andb_prop [Ho Hopen]%andb_prop.
  destruct (required_of_line l Hl Ho) as [H1 H2]. destruct (IH Hlines Hopen) as [H3 H4].
  split; [now rewrite H1, H3|].
  assert (E : dependency_names (l :: lines) = dependency_names [l] ++ dependency_names lines).
  { unfold dependency_names. cbn [List.flat_map]. now rewrite List.app_nil_r. }
  rewrite E. cbn [List.map].
  change (line_text l :: List.map line_text lines)
    with ([line_text l] ++ List.map line_text lines).
  now rewrite List.filter_app, !List.map_app, H2, H4.
Qed.

(** The required packages of a manifest are the lower-case forms of the
    names on its requirement lines. *)
Lemma required_of_manifest (ended : list (manifest_line * line_end)) (last : option manifest_line) :
  List.forallb is_manifest_line (all_lines ended last) = true ->
  List.forallb comment_opens_line (all_lines ended last) = true ->
  required_packages unicode_lower (manifest_text ended last)
  = List.map (fun name => PyText.of_string (PyStr.lower name))
             (dependency_names (all_lines ended last)).
Proof.
  intros H Hopen. destruct (required_of_lines _ H Hopen) as [Hlb Hreq].
  unfold required_packages, manifest_text. rewrite splitlines_file_text by exact Hlb.
  rewrite <- Hreq. unfold all_lines. rewrite List.map_app.
  rewrite !List.filter_app. do 2 f_equal.
  destruct last as [l|]; [|reflexivity]. cbn [List.map].
  destruct (line_text l); reflexivity.
Qed.

(** The installed packages of a listing are the lower-case forms of the
    names on its lines. *)
Lemma installed_of_listing
      (ended : list ((string * option string) * line_end)) (last : option (string * option string)) :
  List.forallb is_package_line (all_lines ended last) = true ->
  installed_packages unicode_lower (listing_text ended last)
  = List.map (fun p => PyText.of_string (PyStr.lower (fst p))) (all_lines ended last).
Proof.
  intros H.
  assert (Hline : forall p, is_package_line p = true ->
            List.forallb (fun c => negb (PyText.is_linebreak c)) (package_text p) = true
            /\ package_text p <> []
            /\ PyText.lower unicode_lower (before_eqeq (package_text p))
               = PyText.of_string (PyStr.lower (fst p))).
  { intros [name version]. unfold is_package_line, package_text. cbn [fst snd].
    intros [Hname Hv]%andb_prop.
    assert (Hv' : match version with Some v => is_plain_version v = true | None => True end)
      by now destruct version.
    destruct (requirement_line_text name version Hname Hv') as (_ & _ & Hlb & Hne & _).
    split; [exact Hlb|]. split; [exact Hne|]. now apply name_of_plain_line. }
  unfold installed_packages, listing_text. rewrite splitlines_file_text.
  - unfold all_lines in *. rewrite List.forallb_app in H. apply andb_prop in H as [Hended Hlast].
    rewrite !List.map_app. f_equal.
    + rewrite !List.map_map. apply List.map_ext_in. intros [p e] Hin. cbn [fst].
      apply Hline. rewrite List.forallb_forall in Hended. apply Hended.
      now apply (List.in_map fst) in Hin.
    + destruct last as [p|]; [|reflexivity]. cbn in Hlast. rewrite andb_true_r in Hlast.
      destruct (Hline p Hlast) as (_ & Hne & Hname).
      destruct (package_text p) eqn:E; [congruence|]. cbn [List.map]. now rewrite Hname.
  - rewrite List.forallb_forall in *. intros p Hp. now apply Hline, H.
Qed.

End LinesOfFiles.

(** ** Names up to the case of letters *)

Section NamesUpToCase.

Lemma same_letter_lower (c d : ascii) :
  Ascii.eqb (PyStr.lower_char c) (PyStr.lower_char d) = same_letter c d.
Proof.
  rewrite <- N_of_ascii_eqb, <- !lower_ascii_of_char.
  unfold same_letter, PyText.lower_ascii, is_capital.
  set (m := N_of_ascii c). set (n := N_of_ascii d).
  destruct (N.leb_spec 65 m), (N.leb_spec m 90), (N.leb_spec 65 n), (N.leb_spec n 90);
    cbn [andb orb];
    repeat match goal with
           | |- context [(?a =? ?b)%N] => destruct (N.eqb_spec a b)
           end; cbn [andb orb]; try reflexivity; lia.
Qed.

Lemma equal_up_to_case_lower (a b : string) :
  String.eqb (PyStr.lower a) (PyStr.lower b) = equal_up_to_case a b.
Proof.
  revert b. induction a as [|c a IH]; intros [|d b]; try reflexivity.
  unfold PyStr.lower in *. cbn [PyStr.map String.eqb equal_up_to_case].
  rewrite same_letter_lower, IH. now destruct (same_letter c d).
Qed.

Lemma text_in_names (a : string) (names : list string) :
  text_in (PyText.of_string (PyStr.lower a))
          (List.map (fun n => PyText.of_string (PyStr.lower n)) names)
  = List.existsb (equal_up_to_case a) names.
Proof.
  unfold text_in. induction names as [|n names IH]; [reflexivity|].
  cbn [List.map List.existsb]. now rewrite text_eqb_of_string, equal_up_to_case_lower, IH.
Qed.

End NamesUpToCase.

(** The check on a manifest and a listing given line by line. *)
Lemma check_on_lines
      (unicode_lower : list N -> list N) (pkg : ToolPackage) (reqs stdout : list byte)
      (ended : list (manifest_line * line_end)) (last : option manifest_line)
      (listed : list ((string * option string) * line_end))
      (last_listed : option (string * option string)) :
  files pkg !! "requirements.txt" = Some reqs ->
  UTF8.decode reqs = Ok (manifest_text ended last) ->
  UTF8.decode stdout = Ok (listing_text listed last_listed) ->
  List.forallb is_manifest_line (all_lines ended last) = true ->
  List.forallb comment_opens_line (all_lines ended last) = true ->
  List.forallb is_package_line (all_lines listed last_listed) = true ->
  check_reqs_installed unicode_lower pkg (Ok stdout)
  = List.forallb (fun name =>
                    List.existsb (equal_up_to_case name)
                                 (List.map fst (all_lines listed last_listed)))
                 (dependency_names (all_lines ended last)).
Proof.
  intros Hfile Hreqs Hout Hmanifest Hopen Hlisting.
  pose proof (required_of_manifest unicode_lower ended last Hmanifest Hopen) as Hrequired.
  pose proof (installed_of_listing unicode_lower listed last_listed Hlisting) as Hinstalled.
  unfold check_reqs_installed. rewrite Hfile.
  destruct reqs as [|b reqs].
  - cbn [reqs_missing]. injection Hreqs as Hreqs. rewrite <- Hreqs in Hrequired.
    destruct (dependency_names (all_lines ended last)); [reflexivity | discriminate Hrequired].
  - cbn [reqs_missing bind]. rewrite Hout. cbn [bind default from_option]. unfold id.
    rewrite Hreqs. cbn [bind]. rewrite Hrequired, Hinstalled.
    rewrite <- (List.map_map fst (fun n => PyText.of_string (PyStr.lower n))).
    generalize (List.map fst (all_lines listed last_listed)). intros names.
    clear. induction (dependency_names (all_lines ended last)) as [|d ds IH]; [reflexivity|].
    cbn [List.map List.forallb]. now rewrite text_in_names, IH.
Qed.

Section RequirementCheck.

Lemma check_true_iff
      (names : list string) (packages : list (string * option string)) :
  List.forallb (fun name => List.existsb (equal_up_to_case name) (List.map fst packages)) names
  = true
  <-> forall name : string,
        In name names ->
        exists package : string * option string,
          In package packages /\ equal_up_to_case name (fst package) = true.
Proof.
  rewrite List.forallb_forall. split.
  - intros H name Hname.
    apply H, List.existsb_exists in Hname as (n & Hn & E).
    apply List.in_map_iff in Hn as (package & <- & Hpackage). now exists package.
  - intros H name Hname. destruct (H name Hname) as (package & Hpackage & E).
    apply List.existsb_exists. exists (fst package). split; [now apply List.in_map | exact E].
Qed.

End RequirementCheck.

(** C4.  A package without a requirements manifest, or with an empty
    one, is satisfied whatever the installer reports, even when the
    listing of installed packages cannot be obtained.  Take a manifest
    that decodes to lines, each of them blank, a comment that begins
    with the comment character in the first column, or a name with an
    optional version, possibly between white space, and a listing that
    decodes to lines of a name and a version: the check holds exactly
    when every name on a requirement line is, up to the case of letters,
    the name on a line of the listing; blank lines, comments and
    versions play no part.  With a manifest that is not empty the check
    fails when the listing cannot be obtained. *)
Theorem check_reqs_installed_by_lines (unicode_lower : list N -> list N) :
  (forall (pkg : ToolPackage) (pip_list : result (list byte)),
      files pkg !! "requirements.txt" = None \/ files pkg !! "requirements.txt" = Some [] ->
      check_reqs_installed unicode_lower pkg pip_list = true)
  /\ (forall (pkg : ToolPackage) (reqs stdout : list byte)
             (ended : list (manifest_line * line_end)) (last : option manifest_line)
             (listed : list ((string * option string) * line_end))
             (last_listed : option (string * option string)),
        files pkg !! "requirements.txt" = Some reqs ->
        UTF8.decode reqs = Ok (manifest_text ended last) ->
        UTF8.decode stdout = Ok (listing_text listed last_listed) ->
        List.forallb is_manifest_line (all_lines ended last) = true ->
        List.forallb comment_opens_line (all_lines ended last) = true ->
        List.forallb is_package_line (all_lines listed last_listed) = true ->
        (check_reqs_installed unicode_lower pkg (Ok stdout) = true
         <-> forall name : string,
               In name (dependency_names (all_lines ended last)) ->
               exists package : string * option string,
                 In package (all_lines listed last_listed)
                 /\ equal_up_to_case name (fst package) = true))
  /\ (forall (pkg : ToolPackage) (reqs : list byte) (e : exn),
        files pkg !! "requirements.txt" = Some reqs ->
        reqs <> [] ->
        check_reqs_installed unicode_lower pkg (Raise e) = false).
Proof.
  split; [|split].
  - intros pkg pip_list [H|H]; unfold check_reqs_installed; now rewrite H.
  - intros pkg reqs stdout ended last listed last_listed Hfile Hreqs Hout Hm Ho Hl.
    rewrite (check_on_lines unicode_lower pkg reqs stdout ended last listed last_listed
               Hfile Hreqs Hout Hm Ho Hl).
    apply check_true_iff.
  - intros pkg reqs e Hfile Hne. unfold check_reqs_installed. rewrite Hfile.
    destruct reqs; [congruence | reflexivity].
Qed.

Lemma check_reqs_installed_by_lines_witness :
  check_reqs_installed (fun s => s) (package_with [("tool.py", "print(1)")])
                       (Raise FileNotFoundError) = true
  /\ (check_reqs_installed (fun s => s) (package_with [("requirements.txt", accented_manifest)])
                           (Ok (list_byte_of_string sample_pip_list)) = true
      <-> forall name : string,
            In name (dependency_names
                       (all_lines accented_lines (Some (Requirement [] "numpy" None [])))) ->
            exists package : string * option string,
              In package (all_lines sample_listing None)
              /\ equal_up_to_case name (fst package) = true)
  /\ check_reqs_installed (fun s => s) (package_with [("requirements.txt", accented_manifest)])
                          (Raise FileNotFoundError) = false.
Proof.
  destruct (check_reqs_installed_by_lines (fun s => s)) as (Hnone & Hlines & Hfail).
  split; [|split].
  - apply Hnone. left. reflexivity.
  - apply (Hlines _ (list_byte_of_string accented_manifest)); reflexivity.
  - apply (Hfail _ (list_byte_of_string accented_manifest)); [reflexivity | discriminate].
Defined.

(** The claim C4 as it is written fails on two inputs.  The manifest of
    the first has an indented comment and then asks for numpy: it is
    made of a comment line and a requirement line, and numpy is
    installed, so that every declared name is in the listing; yet the
    check fails.  The manifest of the second holds one comment, so that
    it declares nothing; yet the check fails when the listing cannot be
    obtained. *)
Lemma check_reqs_installed_not_by_names_alone :
  (UTF8.decode (list_byte_of_string indented_manifest)
   = Ok (manifest_text indented_lines (Some (Requirement [] "numpy" None [])))
   /\ List.forallb is_manifest_line
                   (all_lines indented_lines (Some (Requirement [] "numpy" None []))) = true
   /\ UTF8.decode (list_byte_of_string sample_pip_list) = Ok (listing_text sample_listing None)
   /\ List.forallb is_package_line (all_lines sample_listing None) = true
   /\ (forall name : string,
         In name (dependency_names
                    (all_lines indented_lines (Some (Requirement [] "numpy" None [])))) ->
         exists package : string * option string,
           In package (all_lines sample_listing None)
           /\ equal_up_to_case name (fst package) = true)
   /\ check_reqs_installed (fun s => s)
        (package_with [("requirements.txt", indented_manifest)])
        (Ok (list_byte_of_string sample_pip_list)) = false)
  /\ (UTF8.decode (list_byte_of_string comment_manifest)
      = Ok (manifest_text [] (Some comment_line))
      /\ dependency_names (all_lines [] (Some comment_line)) = []
      /\ check_reqs_installed (fun s => s)
           (package_with [("requirements.txt", comment_manifest)])
           (Raise FileNotFoundError) = false).
Proof.
  split.
  - split; [reflexivity|]. split; [reflexivity|]. split; [reflexivity|].
    split; [reflexivity|]. split; [|vm_compute; reflexivity].
    apply check_true_iff. vm_compute. reflexivity.
  - repeat split; vm_compute; reflexivity.
Qed.

Example check_reqs_installed_sample :
  declared_names sample_manifest = ["Requests"; "numpy"]
  /\ check_reqs_installed (fun s => s) (package_with [("requirements.txt", sample_manifest)])
                          (Ok (list_byte_of_string sample_pip_list)) = true
  /\ check_reqs_installed (fun s => s) (package_with [("requirements.txt", "flask==3.0")])
                          (Ok (list_byte_of_string sample_pip_list)) = false
  /\ check_reqs_installed (fun s => s) (package_with [("requirements.txt", "requests == 2.0")])
                          (Ok (list_byte_of_string sample_pip_list)) = false
  /\ check_reqs_installed (fun s => s) (package_with [("requirements.txt", padded_manifest)])
                          (Ok (list_byte_of_string sample_pip_list)) = true
  /\ UTF8.decode (list_byte_of_string padded_manifest)
     = Ok (manifest_text padded_lines (Some (Requirement [9%N] "numpy" None [])))
  /\ check_reqs_installed (fun s => s)
       (package_with [("requirements.txt", PyStr.lstrip indented_manifest)])
       (Ok (list_byte_of_string sample_pip_list)) = true
  /\ check_reqs_installed (fun s => s)
       (package_with [("requirements.txt", String (ascii_of_N 255) "numpy")])
       (Ok (list_byte_of_string sample_pip_list)) = false.
Proof. repeat split; vm_compute; reflexivity. Qed.

Example utf8_samples :
  UTF8.decode (list_byte_of_string "numpy") = Ok [110; 117; 109; 112; 121]%N
  /\ UTF8.decode [xc3; xa9]%byte = Ok [233%N]
  /\ UTF8.decode [xe2; x82; xac]%byte = Ok [8364%N]
  /\ UTF8.decode [xf0; x9f; x98; x80]%byte = Ok [128512%N]
  /\ UTF8.decode [xc0; x80]%byte = Raise ValueError
  /\ UTF8.decode [xed; xa0; x80]%byte = Raise ValueError
  /\ UTF8.decode [xf4; x90; x80; x80]%byte = Raise ValueError
  /\ UTF8.decode [xe2; x82]%byte = Raise ValueError
  /\ UTF8.decode [x80]%byte = Raise ValueError.
Proof. repeat split; vm_compute; reflexivity. Qed.

Example text_samples :
  PyText.splitlines [97; 13; 10; 98; 133; 99; 8232; 10]%N = [[97]; [98]; [99]; []]%N
  /\ PyText.strip [160; 32; 97; 32; 98; 12288; 9]%N = [97; 32; 98]%N
  /\ PyText.split (PyText.of_string "a==b===c") (PyText.of_string "==")
     = [PyText.of_string "a"; PyText.of_string "b"; PyText.of_string "=c"]
  /\ PyText.lower (fun s => s) (PyText.of_string "NumPy-2") = PyText.of_string "numpy-2".
Proof. repeat split; vm_compute; reflexivity. Qed.

(** ** C8: the installer *)

Section Installer.

Lemma dir_lookup_remove (name : string) (entries : list (string * node)) :
  dir_lookup name (dir_remove name entries) = None.
Proof.
  unfold dir_lookup. induction entries as [|[k n] r IH]; [reflexivity|].
  cbn. destruct (String.eqb name k) eqn:E; [assumption|].
  cbn. now rewrite E.
Qed.

Lemma dir_lookup_write (name : string) (data : list byte) (entries : list (string * node)) :
  dir_lookup name (dir_write name data entries) = Some (File data).
Proof. unfold dir_lookup, dir_write. cbn. now rewrite String.eqb_refl. Qed.

(** After [unlink], the path does not name a regular file. *)
Lemma unlink_no_file (name : string) (entries : list (string * node)) (data : list byte) :
  dir_lookup name (fst (unlink_missing_ok name entries)) <> Some (File data).
Proof.
  unfold unlink_missing_ok.
  destruct (dir_lookup name entries) as [[d|sub]|] eqn:E; cbn [fst snd].
  - now rewrite dir_lookup_remove.
  - now rewrite E.
  - now rewrite E.
Qed.

Lemma unlink_removes (name : string) (entries : list (string * node)) :
  (forall sub, dir_lookup name entries <> Some (Dir sub)) ->
  dir_lookup name (fst (unlink_missing_ok name entries)) = None
  /\ snd (unlink_missing_ok name entries) = Ok tt.
Proof.
  intros H. unfold unlink_missing_ok.
  destruct (dir_lookup name entries) as [[d|sub]|] eqn:E; cbn [fst snd].
  - now rewrite dir_lookup_remove.
  - now destruct (H sub).
  - now rewrite E.
Qed.

End Installer.

(** C8.  When the package has a requirements manifest and the scratch
    file can be written, the call ends with no scratch file in the cache
    directory, whatever the installer does and however it ends; and when
    the installer exits with a non-zero status and leaves the scratch
    path a file or absent, the call returns normally and the scratch
    path is gone. *)
Theorem install_tool_reqs_spec
  (pkg : ToolPackage) (pip_install : installer) (cache_dir : list (string * node)) :
  reqs_missing (files pkg !! "requirements.txt") = false ->
  let written :=
    dir_write temp_reqs_name (default [] (files pkg !! "requirements.txt")) cache_dir in
  let outcome := install_tool_reqs pkg pip_install cache_dir in
  (forall data, dir_lookup temp_reqs_name (fst outcome) <> Some (File data))
  /\ (scratch_unlinkable cache_dir ->
      scratch_unlinkable (fst (pip_install written)) ->
      dir_lookup temp_reqs_name (fst outcome) = None
      /\ forall code, snd (pip_install written) = Exit code -> snd outcome = Ok tt).
Proof.
  intros Hreqs written outcome. subst written outcome.
  unfold install_tool_reqs. rewrite Hreqs.
  set (reqs := default [] (files pkg !! "requirements.txt")).
  destruct (dir_lookup temp_reqs_name cache_dir) as [[d|sub]|] eqn:E.
  all: try (destruct (pip_install (dir_write temp_reqs_name reqs cache_dir))
              as [after result] eqn:Ep;
            pose proof (unlink_no_file temp_reqs_name after) as Hfile;
            pose proof (unlink_removes temp_reqs_name after) as Hgone;
            destruct (unlink_missing_ok temp_reqs_name after) as [final unlinked];
            cbn [fst snd] in *; split;
            [ destruct unlinked; exact Hfile
            | intros _ Hafter; destruct (Hgone Hafter) as [Hnone ->]; cbn [fst snd];
              split; [exact Hnone|];
              intros code ->; now destruct (code =? 0)%Z ]).
  cbn [fst snd]. split.
  - intros data. now rewrite E.
  - intros H. now destruct (H sub).
Qed.

Lemma install_tool_reqs_spec_witness :
  let pkg := package_with [("requirements.txt", "flask==3.0")] in
  (forall data,
      dir_lookup temp_reqs_name (fst (install_tool_reqs pkg failing_pip [])) <> Some (File data))
  /\ dir_lookup temp_reqs_name (fst (install_tool_reqs pkg failing_pip [])) = None
  /\ snd (install_tool_reqs pkg failing_pip []) = Ok tt.
Proof.
  intros pkg.
  pose proof (install_tool_reqs_spec pkg failing_pip [] eq_refl) as [Hfile Hrest].
  split; [exact Hfile|].
  destruct Hrest as [Hnone Hok].
  - intros sub. discriminate.
  - intros sub. discriminate.
  - split; [exact Hnone|]. apply (Hok 1%Z). reflexivity.
Defined.

Example install_tool_reqs_samples :
  let pkg := package_with [("requirements.txt", "flask==3.0")] in
  install_tool_reqs pkg failing_pip [] = ([], Ok tt)
  /\ install_tool_reqs pkg working_pip [] = ([("pip.log", File [])], Ok tt)
  /\ install_tool_reqs pkg absent_pip [] = ([], Raise (OSError "no interpreter"))
  /\ install_tool_reqs (package_with []) failing_pip [("temp_requirements.txt", File [])]
     = ([("temp_requirements.txt", File [])], Ok tt).
Proof. repeat split; vm_compute; reflexivity. Qed.

(** ** C10: duplicate paths in a downloaded payload *)

Section SaveToCache.

Implicit Types (acc m : gmap string (list byte)) (entries : list FileEntry).

Lemma files_dict_app acc (l1 l2 : list FileEntry) :
  files_dict acc (l1 ++ l2) = let* m := files_dict acc l1 in files_dict m l2.
Proof.
  revert acc. induction l1 as [|f l1 IH]; intros acc; [reflexivity|].
  cbn. destruct (Base64.b64decode (content f)); cbn; [apply IH | reflexivity].
Qed.

Lemma files_dict_ok acc entries :
  contents_decodable entries = true -> exists m, files_dict acc entries = Ok m.
Proof.
  revert acc. induction entries as [|f r IH]; intros acc; [now exists acc|].
  cbn. intros [Hf Hr]%andb_prop.
  destruct (Base64.b64decode (content f)) as [data|]; [|discriminate]. cbn.
  now apply IH.
Qed.

(** Entries with other paths leave a key as it is. *)
Lemma files_dict_frame acc entries m (p : string) :
  files_dict acc entries = Ok m ->
  (forall g, In g entries -> path g <> p) ->
  m !! p = acc !! p.
Proof.
  revert acc. induction entries as [|f r IH]; intros acc H Hp.
  - cbn in H. now injection H as <-.
  - cbn in H. destruct (Base64.b64decode (content f)) as [data|]; [|discriminate].
    cbn in H. rewrite (IH _ H).
    + apply lookup_insert_ne. apply Hp. now left.
    + intros g Hg. apply Hp. now right.
Qed.

Lemma contents_decodable_app (l1 l2 : list FileEntry) :
  contents_decodable (l1 ++ l2) = contents_decodable l1 && contents_decodable l2.
Proof. apply List.forallb_app. Qed.

(** The entry that comes last among those of its path gives the
    stored bytes. *)
Lemma files_dict_last acc (before after : list FileEntry) (f : FileEntry) m :
  files_dict acc (before ++ f :: after) = Ok m ->
  (forall g, In g after -> path g <> path f) ->
  Ok (default [] (m !! path f)) = Base64.b64decode (content f)
  /\ is_Some (m !! path f).
Proof.
  intros H Hlast. rewrite files_dict_app in H.
  destruct (files_dict acc before) as [m1|]; [|discriminate]. cbn in H.
  destruct (Base64.b64decode (content f)) as [data|]; [|discriminate]. cbn in H.
  rewrite (files_dict_frame _ _ _ _ H Hlast), lookup_insert_eq. cbn. eauto.
Qed.

End SaveToCache.

(** C10.  When every content field decodes, saving succeeds whether or
    not paths repeat, and the saved package maps a path to the decoded
    content of the last entry that has this path: earlier entries of the
    same path leave no trace.  A path that no entry has is not in the
    package. *)
Theorem save_keeps_last_duplicate
  (tool_data : Payload) (cache_path : string) (store : gmap string ToolPackage) :
  contents_decodable (p_files tool_data) = true ->
  exists pkg : ToolPackage,
    _save_tool_to_cache tool_data cache_path store = Ok (<[cache_path := pkg]> store)
    /\ (forall (before after : list FileEntry) (f : FileEntry),
          p_files tool_data = before ++ f :: after ->
          (forall g, In g after -> path g <> path f) ->
          exists data, Base64.b64decode (content f) = Ok data
                       /\ files pkg !! path f = Some data)
    /\ (forall p : string,
          (forall g, In g (p_files tool_data) -> path g <> p) -> files pkg !! p = None).
Proof.
  intros Hdec. unfold _save_tool_to_cache.
  destruct (files_dict_ok ∅ _ Hdec) as [m Hm]. rewrite Hm. cbn [bind].
  eexists. split; [reflexivity|]. cbn [files]. split.
  - intros before after f Hsplit Hlast. rewrite Hsplit in Hm.
    destruct (files_dict_last _ _ _ _ _ Hm Hlast) as [Hdata [data Hsome]].
    rewrite Hsome in Hdata. cbn in Hdata. exists data. now split.
  - intros p Hp. now rewrite (files_dict_frame _ _ _ _ Hm Hp), lookup_empty.
Qed.

Lemma save_keeps_last_duplicate_witness :
  exists pkg : ToolPackage,
    _save_tool_to_cache duplicate_payload "alice/calc/1-0-0.tool" ∅
    = Ok (<["alice/calc/1-0-0.tool" := pkg]> ∅)
    /\ files pkg !! "tool.py" = Some (list_byte_of_string "last").
Proof.
  destruct (save_keeps_last_duplicate duplicate_payload "alice/calc/1-0-0.tool" ∅ eq_refl)
    as (pkg & Hsave & Hlast & _).
  exists pkg. split; [exact Hsave|].
  destruct (Hlast [ {| path := "tool.py"; content := "Zmlyc3Q=" |};
                    {| path := "README"; content := "aGk=" |} ]
                  [] {| path := "tool.py"; content := "bGFzdA==" |} eq_refl)
    as (data & Hdata & Hfile).
  - intros g [].
  - cbn [path content] in Hdata, Hfile. rewrite Hfile. f_equal.
    vm_compute in Hdata. now injection Hdata as <-.
Defined.

(** ** C7: packaging a folder *)

Section Packaging.

Variable json_load : list byte -> result json.

(** Reading the files of a folder never fails, and gives the base64
    text of every regular file. *)
Lemma get_tool_files_ok (folder : option node) :
  _get_tool_files folder = Ok (packaged_files folder).
Proof.
  destruct folder as [n|]; [|reflexivity].
  unfold _get_tool_files, packaged_files.
  induction (walk EmptyString n) as [|f l IH]; [reflexivity|].
  cbn [mapM List.map]. rewrite encode_content_ok. cbn [bind]. now rewrite IH.
Qed.

Lemma dict_get_member (obj : json) (key : string) (absent : json) :
  is_object obj = true -> dict_get obj key absent = Ok (top_or obj key absent).
Proof.
  destruct obj; try discriminate. intros _. unfold dict_get, top_or, member.
  now destruct (assoc key fields).
Qed.

Lemma dict_get_group (config : json) (group : string) :
  is_object config = true ->
  match member config group with Some v => is_object v | None => true end = true ->
  exists g, dict_get config group (JObj []) = Ok g
            /\ is_object g = true
            /\ forall key absent, top_or g key absent = nested_or config group key absent.
Proof.
  intros Hobj Hgroup. rewrite (dict_get_member _ _ _ Hobj).
  exists (top_or config group (JObj [])). split; [reflexivity|].
  unfold top_or at 1 3, nested_or. destruct (member config group) as [g|].
  - split; [assumption | reflexivity].
  - split; [reflexivity|]. intros key absent. reflexivity.
Qed.

(** Without a [config.json] the metadata is the empty mapping. *)
Lemma no_config_empty_metadata (folder : option node) :
  match folder with
  | Some (Dir entries) => dir_lookup "config.json" entries = None
  | _ => True
  end ->
  _get_tool_metadata json_load folder = Ok (JObj []).
Proof.
  destruct folder as [[data|entries]|]; try reflexivity.
  intros H. unfold _get_tool_metadata. now rewrite H.
Qed.

Lemma package_tool_fields (folder : option node) (config : json) :
  _get_tool_metadata json_load folder = Ok config ->
  well_shaped config = true ->
  package_tool json_load folder =
  Ok {| p_author := nested_or config "meta" "author" JNull;
        p_name := top_or config "name" JNull;
        p_version := nested_or config "meta" "version" JNull;
        p_license := top_or config "license" (JStr "Unknown");
        p_files := packaged_files folder;
        p_entry := nested_or config "build" "entry" (JStr "tool.py");
        p_module := nested_or config "build" "module" (JStr "Tool") |}.
Proof.
  intros Hmeta Hshape. unfold well_shaped in Hshape.
  apply andb_prop in Hshape as [Hshape Hbuild]. apply andb_prop in Hshape as [Hobj Hm].
  destruct (dict_get_group config "meta" Hobj Hm) as (m & Em & Hmo & Hmk).
  destruct (dict_get_group config "build" Hobj Hbuild) as (b & Eb & Hbo & Hbk).
  unfold package_tool. rewrite get_tool_files_ok, Hmeta. cbn [bind].
  rewrite Em. cbn [bind]. rewrite (dict_get_member m _ _ Hmo). cbn [bind].
  rewrite (dict_get_member config "name" _ Hobj). cbn [bind].
  rewrite (dict_get_member m _ _ Hmo). cbn [bind].
  rewrite (dict_get_member config "license" _ Hobj). cbn [bind].
  rewrite Eb. cbn [bind]. rewrite !(dict_get_member b _ _ Hbo). cbn [bind].
  now rewrite !Hmk, !Hbk.
Qed.

End Packaging.

(** The claim C7 as it is written fails on a folder whose configuration
    has a [meta] member that is not an object: the call raises instead
    of returning a payload. *)
Lemma package_tool_rejects_null_meta :
  _get_tool_metadata sample_json_load (Some draft_folder) = Ok draft_config
  /\ package_tool sample_json_load (Some draft_folder) = Raise (AttributeError "get")
  /\ ~ exists payload, package_tool sample_json_load (Some draft_folder) = Ok payload.
Proof.
  assert (H : package_tool sample_json_load (Some draft_folder) = Raise (AttributeError "get"))
    by (vm_compute; reflexivity).
  split; [vm_compute; reflexivity|]. split; [exact H|].
  intros [payload Hp]. rewrite H in Hp. discriminate.
Qed.

(** C7, amended.  For every folder whose [config.json] is absent, or is
    read as an object whose [meta] and [build] members are objects when
    present, [package_tool] returns a payload whose author and version
    come from [meta], whose entry and module come from [build], whose
    name and license come from the top level, and whose files are the
    regular files below the folder; the entry is "tool.py", the module
    "Tool" and the license "Unknown" when their keys are absent.  A
    folder without [config.json] has the empty mapping as metadata. *)
Theorem package_tool_payload (json_load : list byte -> result json) :
  (forall (folder : option node) (config : json),
      _get_tool_metadata json_load folder = Ok config ->
      well_shaped config = true ->
      package_tool json_load folder =
      Ok {| p_author := nested_or config "meta" "author" JNull;
            p_name := top_or config "name" JNull;
            p_version := nested_or config "meta" "version" JNull;
            p_license := top_or config "license" (JStr "Unknown");
            p_files := packaged_files folder;
            p_entry := nested_or config "build" "entry" (JStr "tool.py");
            p_module := nested_or config "build" "module" (JStr "Tool") |})
  /\ (forall entries : list (string * node),
        dir_lookup "config.json" entries = None ->
        _get_tool_metadata json_load (Some (Dir entries)) = Ok (JObj [])
        /\ package_tool json_load (Some (Dir entries)) =
           Ok {| p_author := JNull; p_name := JNull; p_version := JNull;
                 p_license := JStr "Unknown";
                 p_files := packaged_files (Some (Dir entries));
                 p_entry := JStr "tool.py"; p_module := JStr "Tool" |}).
Proof.
  split.
  - apply package_tool_fields.
  - intros entries H.
    assert (Hmeta : _get_tool_metadata json_load (Some (Dir entries)) = Ok (JObj []))
      by now apply no_config_empty_metadata.
    split; [exact Hmeta|].
    now rewrite (package_tool_fields json_load _ _ Hmeta eq_refl).
Qed.

Lemma package_tool_payload_witness :
  package_tool sample_json_load (Some good_folder) =
  Ok {| p_author := JStr "alice"; p_name := JStr "calc"; p_version := JStr "1.0.0";
        p_license := JStr "Unknown";
        p_files := [ {| path := "config.json";
                        content := Base64.b2a_base64 (list_byte_of_string good_config_text) |};
                     {| path := "main.py"; content := "Y2xhc3MgVG9vbDogcGFzcw==" |};
                     {| path := "requirements.txt"; content := "cmVxdWVzdHM=" |} ];
        p_entry := JStr "main.py"; p_module := JStr "Tool" |}
  /\ package_tool sample_json_load (Some bare_folder) =
     Ok {| p_author := JNull; p_name := JNull; p_version := JNull;
           p_license := JStr "Unknown";
           p_files := [ {| path := "tool.py"; content := "Y2xhc3MgVG9vbDogcGFzcw==" |};
                        {| path := "docs/usage.md"; content := "aGk=" |} ];
           p_entry := JStr "tool.py"; p_module := JStr "Tool" |}.
Proof.
  split.
  - rewrite (proj1 (package_tool_payload sample_json_load) (Some good_folder) good_config);
      reflexivity.
  - unfold bare_folder.
    rewrite (proj2 (proj2 (package_tool_payload sample_json_load) bare_entries eq_refl)).
    reflexivity.
Defined.

(** ** C1 and C9: the interpreter state around a local load *)

Section LocalLoad.

Variable json_load : list byte -> result json.

Lemma push_paths_path (current_path tool_path : string) (st : interp) :
  sys_path (push_paths current_path tool_path st) =
  tool_path :: (if decide (current_path ∈ sys_path st)
                then sys_path st
                else current_path :: sys_path st).
Proof. reflexivity. Qed.

Lemma push_paths_modules (current_path tool_path : string) (st : interp) :
  sys_modules (push_paths current_path tool_path st) = sys_modules st.
Proof. reflexivity. Qed.

(** The body of the [try] statement ends in the state its loader left. *)
Lemma import_entry_loaded (w : world) (tool_path : string) (cfg : json)
      (entry mname : string) (exec_module : loader) (st : interp) :
  find_loader w (path_join tool_path entry) = Some exec_module ->
  let fresh := {| mod_name := mname; mod_origin := path_join tool_path entry;
                  mod_dict := ∅ |} in
  fst (import_entry w tool_path cfg (JStr entry) (JStr mname) st) =
  fst (exec_module fresh (register_module mname fresh st)).
Proof.
  intros H fresh. unfold import_entry. rewrite H. fold fresh.
  destruct (exec_module fresh (register_module mname fresh st)) as [st2 [m|e]]; cbn.
  - now destruct (mod_dict m !! mname).
  - reflexivity.
Qed.

Lemma import_entry_path (w : world) (tool_path : string) (cfg entry_point module_name : json)
      (st : interp) :
  path_stable w ->
  sys_path (fst (import_entry w tool_path cfg entry_point module_name st)) = sys_path st.
Proof.
  intros Hstable. unfold import_entry.
  destruct entry_point as [| | |entry| |]; try reflexivity.
  destruct (find_loader w (path_join tool_path entry)) as [exec_module|] eqn:E;
    [|reflexivity].
  destruct module_name as [| | |mname| |]; try reflexivity.
  pose proof (Hstable _ exec_module
                {| mod_name := mname; mod_origin := path_join tool_path entry;
                   mod_dict := ∅ |}
                (register_module mname
                   {| mod_name := mname; mod_origin := path_join tool_path entry;
                      mod_dict := ∅ |} st) E) as Hp.
  destruct (exec_module _ _) as [st2 [m|e]]; cbn in *.
  - now destruct (mod_dict m !! mname).
  - assumption.
Qed.

Lemma try_finally_state {A : Type} (body : interp -> interp * result A)
      (final : interp -> interp * result unit) (st : interp) :
  fst (try_finally body final st) = fst (final (fst (body st))).
Proof.
  unfold try_finally. destruct (body st) as [st1 r]. cbn.
  destruct (final st1) as [st2 [u|e]]; reflexivity.
Qed.

(** The clean-up on a search path with at least two entries. *)
Lemma cleanup_path (current_path : string) (module_name : json) (st : interp)
      (top head : string) (rest : list string) :
  sys_path st = top :: head :: rest ->
  sys_path (fst (cleanup current_path module_name st)) =
  if String.eqb current_path head then rest else head :: rest.
Proof.
  intros H. unfold cleanup. rewrite H. now destruct module_name.
Qed.

Lemma cleanup_modules (current_path mname : string) (st : interp)
      (top head : string) (rest : list string) :
  sys_path st = top :: head :: rest ->
  sys_modules (fst (cleanup current_path (JStr mname) st)) = delete mname (sys_modules st).
Proof. intros H. unfold cleanup. now rewrite H. Qed.

(** The search path has at least two entries when the [try] statement
    is entered. *)
Lemma push_paths_two (current_path tool_path : string) (st : interp) :
  exists head rest,
    sys_path (push_paths current_path tool_path st) = tool_path :: head :: rest
    /\ (if String.eqb current_path head then rest else head :: rest) =
       match sys_path st with
       | [] => []
       | first :: others =>
         if String.eqb current_path first then others else sys_path st
       end.
Proof.
  rewrite push_paths_path.
  destruct (decide (current_path ∈ sys_path st)) as [Hin|Hout].
  - destruct (sys_path st) as [|first others] eqn:E.
    + now apply elem_of_nil in Hin.
    + exists first, others. split; reflexivity.
  - exists current_path, (sys_path st). split; [reflexivity|].
    rewrite String.eqb_refl. destruct (sys_path st) as [|first others] eqn:E;
      [reflexivity|].
    destruct (String.eqb_spec current_path first) as [->|Hne]; [|reflexivity].
    exfalso. apply Hout. now left.
Qed.

(** The search path after a local load, whatever its outcome. *)
Lemma load_tool_path (w : world) (name : string) (st : interp) :
  path_stable w ->
  sys_path (fst (load_tool_local json_load w name st)) =
  match dir_lookup name (local_tools_dir w) with
  | None => sys_path st
  | Some tool =>
    match read_build json_load tool with
    | Raise _ => sys_path st
    | Ok _ =>
      match sys_path st with
      | [] => []
      | first :: others =>
        if String.eqb (cwd w) first then others else sys_path st
      end
    end
  end.
Proof.
  intros Hstable. unfold load_tool_local.
  destruct (dir_lookup name (local_tools_dir w)) as [tool|]; [|reflexivity].
  destruct (read_build json_load tool) as [[[cfg entry_point] module_name]|e];
    [|reflexivity].
  rewrite try_finally_state.
  destruct (push_paths_two (cwd w) (path_join (local_tools_path w) name) st)
    as (head & rest & Hpushed & Hresult).
  rewrite (cleanup_path _ _ _ (path_join (local_tools_path w) name) head rest).
  - exact Hresult.
  - now rewrite import_entry_path.
Qed.

(** The search path is restored unless the working directory is its
    first entry. *)
Lemma load_tool_restores_path (w : world) (name : string) (st : interp) :
  path_stable w ->
  hd_error (sys_path st) <> Some (cwd w) ->
  sys_path (fst (load_tool_local json_load w name st)) = sys_path st.
Proof.
  intros Hstable Hhead. rewrite load_tool_path by assumption.
  destruct (dir_lookup name (local_tools_dir w)) as [tool|]; [|reflexivity].
  destruct (read_build json_load tool); [|reflexivity].
  destruct (sys_path st) as [|first others]; [reflexivity|].
  destruct (String.eqb_spec (cwd w) first) as [E|_]; [|reflexivity].
  cbn in Hhead. congruence.
Qed.

(** When the working directory is the first entry of the search path,
    every load that reaches the [try] statement removes it. *)
Lemma load_tool_drops_head (w : world) (name : string) (st : interp)
      (tool : node) (built : json * json * json) (others : list string) :
  path_stable w ->
  dir_lookup name (local_tools_dir w) = Some tool ->
  read_build json_load tool = Ok built ->
  sys_path st = cwd w :: others ->
  sys_path (fst (load_tool_local json_load w name st)) = others.
Proof.
  intros Hstable Htool Hbuilt Hpath. rewrite load_tool_path by assumption.
  now rewrite Htool, Hbuilt, Hpath, String.eqb_refl.
Qed.

Lemma load_tool_modules (w : world) (name : string) (st : interp)
      (tool : node) (cfg entry_point : json) (mname : string) :
  path_stable w ->
  dir_lookup name (local_tools_dir w) = Some tool ->
  read_build json_load tool = Ok (cfg, entry_point, JStr mname) ->
  sys_modules (fst (load_tool_local json_load w name st)) !! mname = None.
Proof.
  intros Hstable Htool Hbuilt. unfold load_tool_local. rewrite Htool, Hbuilt.
  rewrite try_finally_state.
  destruct (push_paths_two (cwd w) (path_join (local_tools_path w) name) st)
    as (head & rest & Hpushed & _).
  rewrite (cleanup_modules _ _ _ (path_join (local_tools_path w) name) head rest).
  - apply lookup_delete_eq.
  - now rewrite import_entry_path.
Qed.

End LocalLoad.

Lemma sample_world_path_stable : path_stable sample_world.
Proof.
  intros location exec_module module st H. cbn [find_loader sample_world] in H.
  destruct (PyStr.endswith location ".py"); [|discriminate].
  injection H as <-. reflexivity.
Qed.

(** C1.  The claim asks that the search path after a local load equal the
    search path before it on every exit path, whether or not the working
    directory was already on it.  The code does not do so when the
    working directory is the first entry of the search path: a load that
    succeeds, and one that fails on a missing entry symbol, both leave
    the path one entry shorter. *)
Theorem load_tool_loses_working_directory :
  sys_path script_state = ["/work"; "/usr/lib/python3"]
  /\ snd (load_tool_local sample_json_load sample_world "calc" script_state)
     = Ok ("class Tool", good_config)
  /\ sys_path (fst (load_tool_local sample_json_load sample_world "calc" script_state))
     = ["/usr/lib/python3"]
  /\ snd (load_tool_local sample_json_load symbol_less_world "calc" script_state)
     = Raise (AttributeError "Tool")
  /\ sys_path (fst (load_tool_local sample_json_load symbol_less_world "calc" script_state))
     = ["/usr/lib/python3"].
Proof. repeat split; vm_compute; reflexivity. Qed.

(** C9.  When the module registry already binds the tool's module name,
    a local load that reaches the [try] statement ends with that name
    unbound, so the registry differs from the one before the call: the
    loader runs in a state where the name is bound to the fresh module,
    and the clean-up after it deletes the key. *)
Theorem registry_binding_not_restored
  (json_load : list byte -> result json) (w : world) (name : string) (st : interp)
  (tool : node) (cfg entry_point : json) (mname : string) (old : pymodule) :
  path_stable w ->
  dir_lookup name (local_tools_dir w) = Some tool ->
  read_build json_load tool = Ok (cfg, entry_point, JStr mname) ->
  sys_modules st !! mname = Some old ->
  let tool_path := path_join (local_tools_path w) name in
  let after := fst (load_tool_local json_load w name st) in
  sys_modules after !! mname = None
  /\ sys_modules after <> sys_modules st
  /\ forall (entry : string) (exec_module : loader),
      entry_point = JStr entry ->
      find_loader w (path_join tool_path entry) = Some exec_module ->
      let fresh := {| mod_name := mname; mod_origin := path_join tool_path entry;
                      mod_dict := ∅ |} in
      let running := register_module mname fresh (push_paths (cwd w) tool_path st) in
      sys_modules running !! mname = Some fresh
      /\ after = fst (cleanup (cwd w) (JStr mname) (fst (exec_module fresh running))).
Proof.
  intros Hstable Htool Hbuilt Hold tool_path after.
  assert (Hnone : sys_modules after !! mname = None)
    by (apply (load_tool_modules json_load w name st tool cfg entry_point); assumption).
  split; [exact Hnone|]. split.
  - intros E. rewrite E, Hold in Hnone. discriminate.
  - intros entry exec_module -> Hloader fresh running. split.
    + apply lookup_insert_eq.
    + subst after. unfold load_tool_local. rewrite Htool, Hbuilt.
      rewrite try_finally_state. fold tool_path.
      now rewrite (import_entry_loaded w tool_path cfg entry mname exec_module _ Hloader).
Qed.

Lemma registry_binding_not_restored_witness :
  is_Some (sys_modules script_state !! "Tool")
  /\ sys_modules (fst (load_tool_local sample_json_load sample_world "calc" script_state))
     !! "Tool" = None.
Proof.
  split; [eexists; reflexivity|].
  apply (registry_binding_not_restored sample_json_load sample_world "calc" script_state
           good_folder good_config (JStr "main.py") "Tool"
           {| mod_name := "Tool"; mod_origin := "/work/Tool.py"; mod_dict := ∅ |}).
  - exact sample_world_path_stable.
  - reflexivity.
  - reflexivity.
  - reflexivity.
Defined.

(** ** The models of the library functions on sample inputs *)

Example string_primitives :
  PyStr.split "a==b==c" "==" = ["a"; "b"; "c"]
  /\ PyStr.split "1.10." "." = ["1"; "10"; EmptyString]
  /\ PyStr.strip "  ab c  " = "ab c"
  /\ PyStr.replace "aXXXb" "XX" "y" = "ayXb"
  /\ PyStr.lower "NumPy" = "numpy"
  /\ PyStr.splitlines "a

b
" = ["a"; EmptyString; "b"]
  /\ stem "archive.tar.gz" = "archive.tar"
  /\ stem ".tool" = ".tool".
Proof. repeat split; vm_compute; reflexivity. Qed.

Example int_samples :
  PyInt.int " +1_000 " = Ok 1000%Z
  /\ PyInt.int "-07" = Ok (-7)%Z
  /\ PyInt.int "1__0" = Raise ValueError
  /\ PyInt.int "1a" = Raise ValueError
  /\ PyInt.int EmptyString = Raise ValueError.
Proof. repeat split; vm_compute; reflexivity. Qed.

(** Of the white space [str.strip] removes, [int] passes over the C
    locale's only: a unit separator before the digits is an error. *)
Example int_white_space :
  PyInt.int (String (ascii_of_N 9) "1 ") = Ok 1%Z
  /\ PyInt.int (String (ascii_of_N 31) "1") = Raise ValueError
  /\ PyInt.int (String (ascii_of_N 28) "1") = Raise ValueError
  /\ PyInt.int (String (ascii_of_N 160) "1") = Ok 1%Z
  /\ PyInt.int "+ 1" = Raise ValueError
  /\ _get_newest_version [String (ascii_of_N 31) "1"; "2"] = Raise ValueError.
Proof. repeat split; vm_compute; reflexivity. Qed.

(** A number of 4300 digits is read, one of 4301 digits is not. *)
Example int_digit_limit :
  is_ok (PyInt.int (repeated 4300 "1")) = true
  /\ PyInt.int (repeated 4301 "1") = Raise ValueError
  /\ PyInt.int ("-" +:+ repeated 4301 "0") = Raise ValueError
  /\ _get_newest_version [repeated 4301 "1"; "2"] = Raise ValueError.
Proof. repeat split; vm_compute; reflexivity. Qed.

Example base64_samples :
  Base64.b2a_base64 (list_byte_of_string "Man") = "TWFu"
  /\ Base64.b2a_base64 (list_byte_of_string "Ma") = "TWE="
  /\ Base64.b2a_base64 (list_byte_of_string "M") = "TQ=="
  /\ Base64.b64decode "TWFu" = Ok (list_byte_of_string "Man")
  /\ Base64.b64decode "T W E=" = Ok (list_byte_of_string "Ma")
  /\ Base64.b64decode "TWE" = Raise BinasciiError
  /\ Base64.b64decode "TWE=TWFu" = Ok (list_byte_of_string "Ma")
  /\ Base64.b64decode "T" = Raise BinasciiError.
Proof. repeat split; vm_compute; reflexivity. Qed.

(** The newest of the versions that [sample_cache] holds. *)
Example newest_cached_version :
  _get_newest_version (_get_cached_versions sample_cache "alice" "calc")
  = Ok (Some "2.1.0").
Proof. vm_compute. reflexivity. Qed.

(** * Further properties of the code *)

(** ** The version codec beyond dotted integers *)

Section CodecFacts.

Lemma dot_char (c : ascii) : is_dot c = Ascii.eqb "." c.
Proof.
  unfold is_dot. destruct (Ascii.eqb "." c) eqn:E.
  - apply Ascii.eqb_eq in E. now subst c.
  - apply N.eqb_neq. intros H. apply Ascii.eqb_neq in E. apply E.
    rewrite <- (ascii_N_embedding c), H. reflexivity.
Qed.

Lemma map_compose (f g : ascii -> ascii) (s : string) :
  PyStr.map g (PyStr.map f s) = PyStr.map (fun c => g (f c)) s.
Proof. induction s as [|c s IH]; cbn; [reflexivity | now rewrite IH]. Qed.

Lemma map_ext (f g : ascii -> ascii) (s : string) :
  (forall c, f c = g c) -> PyStr.map f s = PyStr.map g s.
Proof. intros H. induction s as [|c s IH]; cbn; [reflexivity | now rewrite H, IH]. Qed.

Lemma map_fixes (f : ascii -> ascii) (p : ascii -> bool) (s : string) :
  (forall c, f c = c <-> p c = true) ->
  PyStr.map f s = s <-> PyStr.forallb p s = true.
Proof.
  intros H. induction s as [|c s IH]; cbn; [tauto|]. split.
  - intros [= Hc Hs]. apply andb_true_intro. split; [now apply H | now apply IH].
  - intros [Hc Hs]%andb_prop. f_equal; [now apply H | now apply IH].
Qed.

(** Encoding after decoding is encoding, and decoding after encoding is
    decoding. *)
Lemma encode_decode_absorb (s : string) :
  _version_to_path (Some (_path_to_version s)) = _version_to_path (Some s).
Proof.
  unfold _version_to_path, _path_to_version. rewrite !replace_char, map_compose.
  apply map_ext. intros c.
  destruct (Ascii.eqb_spec "-" c) as [<-|Hd]; [reflexivity|].
  reflexivity.
Qed.

Lemma decode_encode_absorb (s : string) :
  _path_to_version (_version_to_path (Some s)) = _path_to_version s.
Proof.
  unfold _version_to_path, _path_to_version. rewrite !replace_char, map_compose.
  apply map_ext. intros c.
  destruct (Ascii.eqb_spec "." c) as [<-|Hd]; [reflexivity|].
  reflexivity.
Qed.

Lemma decode_fixes (s : string) : _path_to_version s = s <-> has_no_dash s = true.
Proof.
  unfold _path_to_version, has_no_dash. rewrite replace_char.
  apply map_fixes. intros c. rewrite dash_char.
  destruct (Ascii.eqb_spec "-" c) as [<-|Hd]; cbn; split; congruence.
Qed.

Lemma encode_fixes (s : string) : _version_to_path (Some s) = s <-> has_no_dot s = true.
Proof.
  unfold _version_to_path, has_no_dot. rewrite replace_char.
  apply map_fixes. intros c. rewrite dot_char.
  destruct (Ascii.eqb_spec "." c) as [<-|Hd]; cbn; split; congruence.
Qed.

End CodecFacts.

(** X1.  Decoding the encoded form of a version gives the version back
    exactly when the version contains no dash: with a dash the result
    differs from the version. *)
Theorem codec_roundtrip_iff_no_dash (v : string) :
  _path_to_version (_version_to_path (Some v)) = v <-> has_no_dash v = true.
Proof. rewrite decode_encode_absorb. apply decode_fixes. Qed.

(** X2.  Encoding the decoded form of a path segment gives the segment
    back exactly when the segment contains no dot. *)
Theorem codec_segment_roundtrip_iff_no_dot (p : string) :
  _version_to_path (Some (_path_to_version p)) = p <-> has_no_dot p = true.
Proof. rewrite encode_decode_absorb. apply encode_fixes. Qed.

(** X3.  Two versions are encoded as the same path segment exactly when
    they agree once their dashes are read as dots; so a version with a
    dash shares its segment with the version that has dots in their
    place, and versions without dashes never share a segment. *)
Theorem codec_collisions (v w : string) :
  (_version_to_path (Some v) = _version_to_path (Some w)
   <-> _path_to_version v = _path_to_version w)
  /\ _version_to_path (Some (_path_to_version v)) = _version_to_path (Some v)
  /\ (has_no_dash v = true -> has_no_dash w = true ->
      _version_to_path (Some v) = _version_to_path (Some w) -> v = w).
Proof.
  assert (Hiff : _version_to_path (Some v) = _version_to_path (Some w)
                 <-> _path_to_version v = _path_to_version w).
  { split; intros H.
    - rewrite <- (decode_encode_absorb v), <- (decode_encode_absorb w). now rewrite H.
    - rewrite <- (encode_decode_absorb v), <- (encode_decode_absorb w). now rewrite H. }
  split; [exact Hiff|]. split; [apply encode_decode_absorb|].
  intros Hv Hw H. apply Hiff in H.
  now rewrite (proj2 (decode_fixes v) Hv), (proj2 (decode_fixes w) Hw) in H.
Qed.

Lemma codec_collisions_witness :
  _version_to_path (Some "1.0-rc1") = _version_to_path (Some "1.0.rc1")
  /\ ("1.2.0" = "1.2.0").
Proof.
  split.
  - apply (proj1 (codec_collisions "1.0-rc1" "1.0.rc1")). reflexivity.
  - apply (proj2 (proj2 (codec_collisions "1.2.0" "1.2.0"))); reflexivity.
Defined.

Lemma codec_roundtrip_iff_no_dash_witness :
  _path_to_version (_version_to_path (Some "2.0.1")) = "2.0.1"
  /\ has_no_dash "1.0-beta" = false.
Proof.
  split.
  - apply (proj2 (codec_roundtrip_iff_no_dash "2.0.1")). reflexivity.
  - destruct (has_no_dash "1.0-beta") eqn:E; [|reflexivity].
    apply (proj2 (codec_roundtrip_iff_no_dash "1.0-beta")) in E. discriminate E.
Defined.

Lemma codec_segment_roundtrip_iff_no_dot_witness :
  _version_to_path (Some (_path_to_version "2-0-1")) = "2-0-1".
Proof. apply (proj2 (codec_segment_roundtrip_iff_no_dot "2-0-1")). reflexivity. Defined.

(** ** The newest version: ties, order and length *)

Section NewestFacts.

Lemma mapM_app {A B : Type} (f : A -> result B) (l1 l2 : list A) :
  mapM f (l1 ++ l2) =
  let* a := mapM f l1 in let* b := mapM f l2 in Ok (a ++ b).
Proof.
  induction l1 as [|x l1 IH]; cbn.
  - now destruct (mapM f l2).
  - destruct (f x) as [y|e]; cbn; [|reflexivity]. rewrite IH.
    destruct (mapM f l1) as [a|e]; cbn; [|reflexivity].
    now destruct (mapM f l2).
Qed.

(** The elements of a list all evaluate when each has a key with the
    property [P]; the decorated list keeps the property. *)
Lemma decorate_with (P : list Z -> Prop) (l : list string) :
  (forall w, In w l -> exists kw, version_key w = Ok kw /\ P kw) ->
  exists kl, decorate l = Ok kl /\ forall y, In y kl -> P (fst y).
Proof.
  unfold decorate. induction l as [|w l IH]; intros H.
  - exists []. split; [reflexivity | intros y []].
  - destruct (H w (or_introl eq_refl)) as (kw & Hkw & HP).
    destruct IH as (kl & Hkl & Hall); [intros w' Hw'; apply H; now right|].
    exists ((kw, w) :: kl). split.
    + cbn. unfold keyed at 1. rewrite Hkw. cbn. now rewrite Hkl.
    + intros y [<-|Hy]; [exact HP | now apply Hall].
Qed.

Lemma last_cons_nonempty {A : Type} (x : A) (l : list A) :
  l <> [] -> last (x :: l) = last l.
Proof. destruct l; [congruence | reflexivity]. Qed.

Lemma insert_by_key_nonempty {A : Type} (x : list Z * A) (l : list (list Z * A)) :
  insert_by_key x l <> [].
Proof. destruct l as [|y l]; cbn; [discriminate|]. now destruct (list_lt (fst y) (fst x)). Qed.

(** Where the inserted element ends up last. *)
Lemma last_insert_by_key {A : Type} (x : list Z * A) (l : list (list Z * A)) :
  last (insert_by_key x l) =
  if List.forallb (fun y => list_lt (fst y) (fst x)) l then Some x else last l.
Proof.
  induction l as [|y l IH]; [reflexivity|].
  cbn [insert_by_key List.forallb].
  destruct (list_lt (fst y) (fst x)) eqn:E; cbn [andb].
  - rewrite last_cons_nonempty by apply insert_by_key_nonempty. rewrite IH.
    destruct (List.forallb (fun y0 => list_lt (fst y0) (fst x)) l) eqn:F; [reflexivity|].
    destruct l as [|z l]; [discriminate F | reflexivity].
  - reflexivity.
Qed.

Lemma forallb_sorted {A : Type} (p : list Z * A -> bool) (l : list (list Z * A)) :
  List.forallb p (sorted_by_key l) = List.forallb p l.
Proof.
  apply eq_true_iff_eq. rewrite !List.forallb_forall.
  split; intros H y Hy; apply H; now apply sorted_by_key_In.
Qed.

(** An element that nothing before it exceeds and that exceeds everything
    after it is the last of the sorted list. *)
Lemma last_sorted_split {A : Type} (before after : list (list Z * A)) (x : list Z * A) :
  (forall y, In y before -> version_le (fst y) (fst x)) ->
  (forall y, In y after -> list_lt (fst y) (fst x) = true) ->
  last (sorted_by_key (before ++ x :: after)) = Some x.
Proof.
  intros Hbefore Hafter. induction before as [|b before IH]; cbn [app sorted_by_key].
  - rewrite last_insert_by_key, forallb_sorted.
    assert (F : List.forallb (fun y => list_lt (fst y) (fst x)) after = true)
      by (apply List.forallb_forall; exact Hafter).
    now rewrite F.
  - rewrite last_insert_by_key, forallb_sorted.
    assert (F : List.forallb (fun y => list_lt (fst y) (fst b)) (before ++ x :: after) = false).
    { destruct (List.forallb _ _) eqn:F; [|reflexivity].
      rewrite List.forallb_forall in F.
      assert (Hx : list_lt (fst x) (fst b) = true)
        by (apply F, List.in_or_app; right; now left).
      rewrite (version_le_ge_not_lt (fst x) (fst b)) in Hx; [discriminate|].
      apply Hbefore. now left. }
    rewrite F. apply IH. intros y Hy. apply Hbefore. now right.
Qed.

Lemma newest_of_split (before after : list string) (v : string) (k : list Z) :
  version_key v = Ok k ->
  (forall w, In w before -> exists kw, version_key w = Ok kw /\ version_le kw k) ->
  (forall w, In w after -> exists kw, version_key w = Ok kw /\ list_lt kw k = true) ->
  _get_newest_version (before ++ v :: after) = Ok (Some v).
Proof.
  intros Hk Hbefore Hafter.
  destruct (decorate_with (fun kw => version_le kw k) before Hbefore) as (kb & Hkb & Hb).
  destruct (decorate_with (fun kw => list_lt kw k = true) after Hafter) as (ka & Hka & Ha).
  assert (Hdec : decorate (before ++ v :: after) = Ok (kb ++ (k, v) :: ka)).
  { unfold decorate in *. rewrite mapM_app, Hkb. cbn [bind mapM].
    unfold keyed at 1. rewrite Hk. cbn [bind]. now rewrite Hka. }
  unfold _get_newest_version.
  destruct (before ++ v :: after) as [|v0 vs] eqn:E; [now destruct before|].
  rewrite Hdec. cbn [bind].
  now rewrite (last_sorted_split kb ka (k, v) Hb Ha).
Qed.

Lemma split_dot_cons (c : ascii) (s : string) :
  PyStr.split (String c s) "." =
  if Ascii.eqb "." c then EmptyString :: PyStr.split s "."
  else match PyStr.split s "." with
       | p :: ps => String c p :: ps
       | [] => [String c EmptyString]
       end.
Proof.
  unfold PyStr.split. cbn [PyStr.split_from PyStr.startswith String.length Nat.sub].
  unfold PyStr.char_eqb. rewrite andb_true_r.
  destruct (Ascii.eqb "." c); now destruct (PyStr.split_from "." 0 s).
Qed.

Lemma split_dot_nonempty (s : string) : PyStr.split s "." <> [].
Proof. unfold PyStr.split. now destruct (PyStr.split_from "." 0 s). Qed.

(** Appending a component to a version appends it to the components. *)
Lemma split_dot_append_zero (v : string) :
  PyStr.split (v +:+ ".0") "." = PyStr.split v "." ++ ["0"].
Proof.
  induction v as [|c v IH]; [reflexivity|].
  change (String c v +:+ ".0") with (String c (v +:+ ".0")).
  rewrite !split_dot_cons, IH. destruct (Ascii.eqb "." c); [reflexivity|].
  destruct (PyStr.split v ".") as [|p ps] eqn:E; [|reflexivity].
  now destruct (split_dot_nonempty v).
Qed.

Lemma version_key_append_zero (v : string) (k : list Z) :
  version_key v = Ok k -> version_key (v +:+ ".0") = Ok (k ++ [0%Z]).
Proof.
  unfold version_key. intros H. now rewrite split_dot_append_zero, mapM_app, H.
Qed.

Lemma list_lt_append (k : list Z) (z : Z) : list_lt k (k ++ [z]) = true.
Proof. induction k as [|x k IH]; [reflexivity|]. cbn. now rewrite Z.eqb_refl. Qed.

End NewestFacts.

(** X4.  Among versions that compare equal the one listed last is the
    newest: a version that no earlier element of the list exceeds, and
    that exceeds every later element, is the result. *)
Theorem newest_prefers_last_of_equals
  (before after : list string) (v : string) (k : list Z) :
  version_key v = Ok k ->
  (forall w, In w before -> exists kw, version_key w = Ok kw /\ version_le kw k) ->
  (forall w, In w after -> exists kw, version_key w = Ok kw /\ list_lt kw k = true) ->
  _get_newest_version (before ++ v :: after) = Ok (Some v).
Proof. apply newest_of_split. Qed.

Lemma newest_prefers_last_of_equals_witness :
  _get_newest_version (["1.0"] ++ "01.0" :: ["0.9"]) = Ok (Some "01.0").
Proof.
  apply (newest_prefers_last_of_equals ["1.0"] ["0.9"] "01.0" [1%Z; 0%Z]).
  - reflexivity.
  - intros w [<-|[]]. exists [1%Z; 0%Z]. split; [reflexivity | apply version_le_refl].
  - intros w [<-|[]]. exists [0%Z; 9%Z]. split; reflexivity.
Defined.

(** X5.  The order of the list does not change which key wins: on two
    orderings of the same numeric versions the results have the same
    key. *)
Theorem newest_key_order_independent (versions versions' : list string) :
  Permutation versions versions' ->
  versions <> [] ->
  List.forallb all_numeric versions = true ->
  exists v v' k,
    _get_newest_version versions = Ok (Some v)
    /\ _get_newest_version versions' = Ok (Some v')
    /\ version_key v = Ok k
    /\ version_key v' = Ok k.
Proof.
  intros Hperm Hne Hnum.
  assert (Hne' : versions' <> []).
  { intros ->. apply Permutation_sym, Permutation_nil in Hperm. congruence. }
  assert (Hnum' : List.forallb all_numeric versions' = true).
  { rewrite List.forallb_forall in *. intros w Hw. apply Hnum.
    apply list_elem_of_In. rewrite Hperm. now apply list_elem_of_In. }
  destruct (newest_is_maximum versions Hne Hnum) as (v & k & Hv & Hin & Hk & Hmax).
  destruct (newest_is_maximum versions' Hne' Hnum') as (v' & k' & Hv' & Hin' & Hk' & Hmax').
  exists v, v', k. repeat split; try assumption.
  rewrite Hk'. f_equal. apply version_le_antisym.
  - apply (Hmax v'); [|assumption].
    apply list_elem_of_In. rewrite Hperm. now apply list_elem_of_In.
  - apply (Hmax' v); [|assumption].
    apply list_elem_of_In. rewrite <- Hperm. now apply list_elem_of_In.
Qed.

Lemma newest_key_order_independent_witness :
  exists v v' k,
    _get_newest_version ["1.2.0"; "1.10.0"] = Ok (Some v)
    /\ _get_newest_version ["1.10.0"; "1.2.0"] = Ok (Some v')
    /\ version_key v = Ok k
    /\ version_key v' = Ok k.
Proof.
  apply (newest_key_order_independent ["1.2.0"; "1.10.0"] ["1.10.0"; "1.2.0"]).
  - apply perm_swap.
  - discriminate.
  - reflexivity.
Defined.

(** X6.  A version with one more component is newer than the version it
    extends: of [v] and [v.0] the newest is [v.0], in either order, so
    1.0 and 1.0.0 are not taken to be the same version. *)
Theorem newest_longer_version_wins (v : string) (k : list Z) :
  version_key v = Ok k ->
  _get_newest_version [v; v +:+ ".0"] = Ok (Some (v +:+ ".0"))
  /\ _get_newest_version [v +:+ ".0"; v] = Ok (Some (v +:+ ".0")).
Proof.
  intros Hk. pose proof (version_key_append_zero v k Hk) as Hk0. split.
  - apply (newest_of_split [v] [] (v +:+ ".0") (k ++ [0%Z]) Hk0).
    + intros w [<-|[]]. exists k. split; [assumption|].
      apply list_lt_true_le, list_lt_append.
    + intros w [].
  - apply (newest_of_split [] [v] (v +:+ ".0") (k ++ [0%Z]) Hk0).
    + intros w [].
    + intros w [<-|[]]. exists k. split; [assumption | apply list_lt_append].
Qed.

Lemma newest_longer_version_wins_witness :
  _get_newest_version ["1.0"; "1.0" +:+ ".0"] = Ok (Some ("1.0" +:+ ".0"))
  /\ _get_newest_version ["1.0" +:+ ".0"; "1.0"] = Ok (Some ("1.0" +:+ ".0")).
Proof. apply (newest_longer_version_wins "1.0" [1%Z; 0%Z]). reflexivity. Defined.

(** ** The cache listing, version resolution and the cache lookup *)

Section CacheFacts.

Lemma lookup_tool_file (cache : list (string * node)) (author name file : string)
      (entries : list (string * node)) :
  resolve_tool_dir cache author name = Some (Dir entries) ->
  lookup_path cache [author; name; file] = dir_lookup file entries.
Proof.
  unfold resolve_tool_dir. cbn [lookup_path].
  destruct (dir_lookup author cache) as [[d|authors]|]; try discriminate.
  now intros ->.
Qed.

Lemma assoc_In {V : Type} (key : string) (x : V) (d : list (string * V)) :
  In (key, x) d -> exists y, assoc key d = Some y.
Proof.
  induction d as [|[k v] d IH]; [intros []|].
  intros [[= -> ->]|H]; cbn.
  - rewrite String.eqb_refl. now exists x.
  - destruct (String.eqb key k); [now exists v | now apply IH].
Qed.

Lemma populated_In (versions : list string) (data : string -> list byte) (v : string) :
  In v versions -> In (cache_file_name v, File (data v)) (populated versions data).
Proof. intros H. unfold populated. apply List.in_map_iff. now exists v. Qed.

Lemma listing_frame (front back : list (string * node)) (e : string * node) :
  is_file (snd e) && PyStr.endswith (fst e) ".tool" = false ->
  List.filter (fun x => is_file (snd x)) (glob_tool (front ++ e :: back)) =
  List.filter (fun x => is_file (snd x)) (glob_tool (front ++ back)).
Proof.
  intros H. unfold glob_tool. rewrite !List.filter_app. cbn [List.filter].
  destruct (PyStr.endswith (fst e) ".tool"); [|reflexivity].
  cbn [List.filter]. rewrite andb_true_r in H. now rewrite H.
Qed.

End CacheFacts.

(** X7.  An entry of the tool's cache directory that is a directory, or
    a file without the package extension, does not show in the listing:
    the listing is the same with and without it. *)
Theorem cached_versions_ignore_foreign_entries
  (cache cache' : list (string * node)) (author name : string)
  (front back : list (string * node)) (e : string * node) :
  resolve_tool_dir cache author name = Some (Dir (front ++ e :: back)) ->
  resolve_tool_dir cache' author name = Some (Dir (front ++ back)) ->
  is_file (snd e) && PyStr.endswith (fst e) ".tool" = false ->
  _get_cached_versions cache author name = _get_cached_versions cache' author name.
Proof.
  intros H H' He. unfold _get_cached_versions. rewrite H, H'.
  now rewrite (listing_frame front back e He).
Qed.

Lemma cached_versions_ignore_foreign_entries_witness :
  _get_cached_versions sample_cache "alice" "calc"
  = _get_cached_versions
      [("alice", Dir [("calc", Dir [("1-0-0.tool", File []);
                                    ("2-1-0.tool", File []);
                                    ("old.tool", Dir [])])])]
      "alice" "calc".
Proof.
  apply (cached_versions_ignore_foreign_entries _ _ "alice" "calc"
           [("1-0-0.tool", File [])]
           [("2-1-0.tool", File []); ("old.tool", Dir [])]
           ("notes.txt", File [])); reflexivity.
Defined.

(** X8.  One regular file with the package extension whose name does not
    decode to numeric components makes every resolution of an absent
    version fail: [download_tool] and the remote branch of [load_tool]
    raise [ValueError] before any request, and leave the cache as it
    is. *)
Theorem unpinned_resolution_fails_on_stray_file
  (cache : list (string * node)) (author name : string)
  (entries : list (string * node)) (fname comp : string) (data : list byte) :
  resolve_tool_dir cache author name = Some (Dir entries) ->
  In (fname, File data) entries ->
  PyStr.endswith fname ".tool" = true ->
  In comp (PyStr.split (_path_to_version (stem fname)) ".") ->
  numeric comp = false ->
  resolve_version cache author name None = Raise ValueError
  /\ (forall fetch, download_tool fetch cache author name None = (cache, Raise ValueError))
  /\ (forall fetch package_load,
        load_tool_remote fetch package_load cache author name None
        = (cache, Raise ValueError)).
Proof.
  intros Hdir Hin Hext Hcomp Hnum.
  assert (H : resolve_version cache author name None = Raise ValueError).
  { unfold resolve_version.
    apply (newest_raises _ (_path_to_version (stem fname)) comp); [|assumption..].
    unfold _get_cached_versions. rewrite Hdir. apply listing_exact.
    now exists fname, data. }
  split; [exact H|]. split.
  - intros fetch. unfold download_tool. now rewrite H.
  - intros fetch package_load. unfold load_tool_remote. now rewrite H.
Qed.

Lemma unpinned_resolution_fails_on_stray_file_witness :
  resolve_version stray_cache "alice" "calc" None = Raise ValueError
  /\ (forall fetch, download_tool fetch stray_cache "alice" "calc" None
                    = (stray_cache, Raise ValueError)).
Proof.
  destruct (unpinned_resolution_fails_on_stray_file stray_cache "alice" "calc"
              [("1-0-0.tool", File []); ("latest.tool", File [])]
              "latest.tool" "latest" [])
    as (H1 & H2 & _).
  - reflexivity.
  - right. left. reflexivity.
  - reflexivity.
  - left. reflexivity.
  - reflexivity.
  - split; assumption.
Defined.

(** X9.  With a pinned version nothing is resolved, and without a
    directory for the tool the absent version stays absent, so the cache
    path asked for is the one named latest. *)
Theorem resolution_without_cache
  (cache : list (string * node)) (author name : string) :
  (forall v, resolve_version cache author name (Some v) = Ok (Some v))
  /\ (resolve_tool_dir cache author name = None ->
      resolve_version cache author name None = Ok None
      /\ _get_cache_path author name None = [author; name; "latest.tool"]
      /\ forall fetch, download_tool fetch cache author name None = fetch None cache).
Proof.
  split; [reflexivity|]. intros H.
  assert (Hres : resolve_version cache author name None = Ok None).
  { unfold resolve_version, _get_cached_versions. now rewrite H. }
  split; [exact Hres|]. split; [reflexivity|].
  intros fetch. unfold download_tool. rewrite Hres.
  unfold path_exists, _get_cache_path. cbn [lookup_path].
  unfold resolve_tool_dir in H.
  destruct (dir_lookup author cache) as [[d|authors]|]; try reflexivity.
  now rewrite H.
Qed.

Lemma resolution_without_cache_witness :
  resolve_version sample_cache "bob" "calc" None = Ok None
  /\ forall fetch, download_tool fetch sample_cache "bob" "calc" None
                   = fetch None sample_cache.
Proof.
  destruct (proj2 (resolution_without_cache sample_cache "bob" "calc") eq_refl)
    as (H1 & _ & H2).
  split; assumption.
Defined.

(** X10.  Once versions of a tool are cached, each made of dot-separated
    numbers that [int] reads (no component has more digits than the
    interpreter's limit), a download without a version never asks the
    registry: it returns the newest cached version, whatever the
    registry would answer, and leaves the cache as it is. *)
Theorem unpinned_download_serves_cached_version
  (fetch : fetcher) (cache : list (string * node)) (author name : string)
  (versions : list string) (data : string -> list byte) :
  versions <> [] ->
  List.forallb is_dotted_version versions = true ->
  List.forallb within_digit_limit versions = true ->
  resolve_tool_dir cache author name = Some (Dir (populated versions data)) ->
  exists v k,
    download_tool fetch cache author name None = (cache, Ok (author, name, Some v))
    /\ In v versions
    /\ version_key v = Ok k
    /\ forall w kw, In w versions -> version_key w = Ok kw -> version_le kw k.
Proof.
  intros Hne Hdotted Hlimit Hdir.
  assert (Hnum : List.forallb all_numeric versions = true).
  { rewrite List.forallb_forall in *. intros w Hw.
    apply dotted_version_all_numeric; [now apply Hdotted | now apply Hlimit]. }
  destruct (newest_is_maximum versions Hne Hnum) as (v & k & Hv & Hin & Hk & Hmax).
  exists v, k. repeat split; try assumption.
  unfold download_tool, resolve_version, _get_cached_versions. rewrite Hdir.
  rewrite (populated_listing versions data Hdotted), Hv.
  unfold path_exists, _get_cache_path.
  rewrite (lookup_tool_file cache author name _ _ Hdir).
  destruct (assoc_In _ _ _ (populated_In versions data v Hin)) as [n Hn].
  unfold dir_lookup, package_file_name. fold (cache_file_name v). now rewrite Hn.
Qed.

Lemma unpinned_download_serves_cached_version_witness :
  exists v k,
    download_tool (fixed_fetch "9.9.9")
      [("alice", Dir [("calc", Dir (populated ["1.2.0"; "1.10.0"] (fun _ => [])))])]
      "alice" "calc" None
    = ([("alice", Dir [("calc", Dir (populated ["1.2.0"; "1.10.0"] (fun _ => [])))])],
       Ok ("alice", "calc", Some v))
    /\ In v ["1.2.0"; "1.10.0"]
    /\ version_key v = Ok k
    /\ forall w kw, In w ["1.2.0"; "1.10.0"] -> version_key w = Ok kw -> version_le kw k.
Proof.
  apply (unpinned_download_serves_cached_version (fixed_fetch "9.9.9") _ "alice" "calc"
           ["1.2.0"; "1.10.0"] (fun _ => [])).
  - discriminate.
  - reflexivity.
  - reflexivity.
  - reflexivity.
Defined.

(** X11.  The remote branch of [load_tool] never returns a tool: when it
    does not raise, its result is [None]. *)
Theorem remote_load_returns_nothing
  (fetch : fetcher) (package_load : list (string * node) -> list string -> result unit)
  (cache : list (string * node)) (author name : string) (version : option string)
  (loaded : option (pyobj * json)) :
  snd (load_tool_remote fetch package_load cache author name version) = Ok loaded ->
  loaded = None.
Proof.
  unfold load_tool_remote.
  destruct (resolve_version cache author name version) as [resolved|e]; [|discriminate].
  destruct (path_exists cache (_get_cache_path author name resolved)).
  - destruct (package_load cache _) as [u|e]; cbn; [|discriminate]. now intros [= <-].
  - destruct (download_tool fetch cache author name resolved) as [c [r|e]]; cbn;
      [|discriminate].
    destruct (package_load c _) as [u|e]; cbn; [|discriminate]. now intros [= <-].
Qed.

Lemma remote_load_returns_nothing_witness :
  snd (load_tool_remote (fixed_fetch "1.0.0") (fun _ _ => Ok tt)
         sample_cache "alice" "calc" None) = Ok None
  /\ (None : option (pyobj * json)) = None.
Proof.
  split; [vm_compute; reflexivity|].
  apply (remote_load_returns_nothing (fixed_fetch "1.0.0") (fun _ _ => Ok tt)
           sample_cache "alice" "calc" None None).
  vm_compute. reflexivity.
Defined.

(** ** The local loader and [load_local_tool] *)

Section LocalLoadFacts.

Variable json_load : list byte -> result json.

Lemma read_config_agrees (w : world) (name : string) (tool : node) :
  dir_lookup name (local_tools_dir w) = Some tool ->
  (forall cfg, read_config json_load tool = Ok cfg ->
               load_local_tool json_load w name = Ok cfg)
  /\ (forall e, load_local_tool json_load w name = Raise e ->
                exists e', read_config json_load tool = Raise e').
Proof.
  intros H. unfold load_local_tool, read_config. rewrite H.
  destruct tool as [d|entries].
  - split; [discriminate|]. intros e _. now exists NotADirectoryError.
  - destruct (dir_lookup "config.json" entries) as [[data|sub]|].
    + split; [tauto|]. intros e He. now exists e.
    + split; [discriminate|]. intros e He. now exists e.
    + split; [discriminate|]. intros e He. now exists e.
Qed.

Lemma read_build_config (tool : node) (cfg entry_point module_name : json) :
  read_build json_load tool = Ok (cfg, entry_point, module_name) ->
  read_config json_load tool = Ok cfg.
Proof.
  unfold read_build. destruct (read_config json_load tool) as [c|e]; [|discriminate].
  cbn [bind]. destruct (subscript c "build") as [b|e]; [|discriminate].
  cbn [bind]. destruct (subscript b "entry") as [en|e]; [|discriminate].
  cbn [bind]. destruct (subscript b "module") as [m|e]; [|discriminate].
  cbn [bind]. now intros [= -> _ _].
Qed.

Lemma read_build_fails (tool : node) (e : exn) :
  read_config json_load tool = Raise e -> read_build json_load tool = Raise e.
Proof. unfold read_build. now intros ->. Qed.

Lemma try_finally_ok {A : Type} (body : interp -> interp * result A)
      (final : interp -> interp * result unit) (st : interp) (a : A) :
  snd (try_finally body final st) = Ok a -> snd (body st) = Ok a.
Proof.
  unfold try_finally. destruct (body st) as [st1 r]. destruct (final st1) as [st2 [u|e]];
    cbn; [tauto | discriminate].
Qed.

Lemma try_finally_masked {A : Type} (body : interp -> interp * result A)
      (final : interp -> interp * result unit) (st : interp) (e : exn) :
  snd (final (fst (body st))) = Raise e -> snd (try_finally body final st) = Raise e.
Proof.
  unfold try_finally. destruct (body st) as [st1 r]. cbn.
  destruct (final st1) as [st2 [u|e']]; cbn; [discriminate | now intros [= ->]].
Qed.

Lemma import_entry_config (w : world) (tool_path : string)
      (cfg entry_point module_name : json) (st : interp) (cls : pyobj) (c : json) :
  snd (import_entry w tool_path cfg entry_point module_name st) = Ok (cls, c) -> c = cfg.
Proof.
  unfold import_entry. destruct entry_point as [| | |entry| |]; try discriminate.
  destruct (find_loader w (path_join tool_path entry)) as [exec_module|]; [|discriminate].
  destruct module_name as [| | |mname| |]; try discriminate.
  destruct (exec_module _ _) as [st2 [m|e]]; [|discriminate].
  destruct (mod_dict m !! mname); [|discriminate].
  cbn. now intros [= _ <-].
Qed.

(** The registry that the body of the [try] statement leaves, when no
    loader changes it. *)
Lemma import_entry_registry (w : world) (tool_path : string)
      (cfg entry_point : json) (mname : string) (st : interp) :
  registry_stable w ->
  delete mname (sys_modules (fst (import_entry w tool_path cfg entry_point (JStr mname) st)))
  = delete mname (sys_modules st).
Proof.
  intros Hstable. unfold import_entry.
  destruct entry_point as [| | |entry| |]; try reflexivity.
  destruct (find_loader w (path_join tool_path entry)) as [exec_module|] eqn:E;
    [|reflexivity].
  pose proof (Hstable _ exec_module
                {| mod_name := mname; mod_origin := path_join tool_path entry;
                   mod_dict := ∅ |}
                (register_module mname
                   {| mod_name := mname; mod_origin := path_join tool_path entry;
                      mod_dict := ∅ |} st) E) as Hm.
  destruct (exec_module _ _) as [st2 [m|e]]; cbn [fst] in *.
  - assert (Hst : sys_modules (fst (match mod_dict m !! mname with
                                    | Some tool_class => (st2, Ok (tool_class, cfg))
                                    | None => (st2, Raise (AttributeError mname))
                                    end)) = sys_modules st2)
      by now destruct (mod_dict m !! mname).
    rewrite Hst, Hm. cbn. apply delete_insert_eq.
  - rewrite Hm. cbn. apply delete_insert_eq.
Qed.

End LocalLoadFacts.

(** X12.  [load_tool] with [local=True] and [load_local_tool] read the
    same configuration: when the load returns a class and a
    configuration, [load_local_tool] returns that configuration; and
    when [load_local_tool] raises, the load raises as well and leaves
    [sys.path] and [sys.modules] as they were. *)
Theorem local_load_agrees_with_load_local_tool
  (json_load : list byte -> result json) (w : world) (name : string) (st : interp) :
  (forall cls cfg,
      snd (load_tool_local json_load w name st) = Ok (cls, cfg) ->
      load_local_tool json_load w name = Ok cfg)
  /\ (forall e,
        load_local_tool json_load w name = Raise e ->
        fst (load_tool_local json_load w name st) = st
        /\ is_ok (snd (load_tool_local json_load w name st)) = false).
Proof.
  split.
  - intros cls cfg. unfold load_tool_local.
    destruct (dir_lookup name (local_tools_dir w)) as [tool|] eqn:Htool; [|discriminate].
    destruct (read_build json_load tool) as [[[c entry_point] module_name]|e] eqn:Hb;
      [|discriminate].
    intros H%try_finally_ok%import_entry_config. subst c.
    apply (proj1 (read_config_agrees json_load w name tool Htool)).
    now apply (read_build_config json_load tool cfg entry_point module_name).
  - intros e He. unfold load_tool_local.
    destruct (dir_lookup name (local_tools_dir w)) as [tool|] eqn:Htool; [|now split].
    destruct (proj2 (read_config_agrees json_load w name tool Htool) e He) as [e' He'].
    rewrite (read_build_fails json_load tool e' He'). now split.
Qed.

Lemma local_load_agrees_with_load_local_tool_witness :
  load_local_tool sample_json_load sample_world "calc" = Ok good_config
  /\ fst (load_tool_local sample_json_load sample_world "absent" script_state) = script_state.
Proof.
  destruct (local_load_agrees_with_load_local_tool
              sample_json_load sample_world "calc" script_state) as [Hok _].
  destruct (local_load_agrees_with_load_local_tool
              sample_json_load sample_world "absent" script_state) as [_ Hfail].
  split.
  - apply (Hok "class Tool" good_config). vm_compute. reflexivity.
  - apply (Hfail FileNotFoundError). reflexivity.
Defined.

(** X13.  When the tool's code changes neither [sys.path] nor
    [sys.modules], a local load that reaches the [try] statement leaves
    the module registry as it was before the call, except that the key
    of the tool's module name is removed; every other binding is kept,
    on success and on failure. *)
Theorem registry_after_local_load
  (json_load : list byte -> result json) (w : world) (name : string) (st : interp)
  (tool : node) (cfg entry_point : json) (mname : string) :
  path_stable w ->
  registry_stable w ->
  dir_lookup name (local_tools_dir w) = Some tool ->
  read_build json_load tool = Ok (cfg, entry_point, JStr mname) ->
  sys_modules (fst (load_tool_local json_load w name st)) = delete mname (sys_modules st)
  /\ forall key, key <> mname ->
       sys_modules (fst (load_tool_local json_load w name st)) !! key = sys_modules st !! key.
Proof.
  intros Hpath Hreg Htool Hbuilt.
  assert (H : sys_modules (fst (load_tool_local json_load w name st))
              = delete mname (sys_modules st)).
  { unfold load_tool_local. rewrite Htool, Hbuilt. rewrite try_finally_state.
    destruct (push_paths_two (cwd w) (path_join (local_tools_path w) name) st)
      as (head & rest & Hpushed & _).
    rewrite (cleanup_modules _ _ _ (path_join (local_tools_path w) name) head rest)
      by now rewrite import_entry_path.
    now rewrite import_entry_registry. }
  split; [exact H|]. intros key Hkey. rewrite H. now apply lookup_delete_ne.
Qed.

Lemma sample_world_registry_stable : registry_stable sample_world.
Proof.
  intros location exec_module module st H. cbn [find_loader sample_world] in H.
  destruct (PyStr.endswith location ".py"); [|discriminate].
  injection H as <-. reflexivity.
Qed.

Lemma registry_after_local_load_witness :
  sys_modules (fst (load_tool_local sample_json_load sample_world "calc" script_state))
  = delete "Tool" (sys_modules script_state).
Proof.
  apply (registry_after_local_load sample_json_load sample_world "calc" script_state
           good_folder good_config (JStr "main.py") "Tool").
  - exact sample_world_path_stable.
  - exact sample_world_registry_stable.
  - reflexivity.
  - reflexivity.
Defined.

(** X14.  When the tool's code leaves [sys.path] empty, the clean-up
    raises [IndexError] at its first statement: this exception replaces
    the outcome of the load, even a successful one, and the tool's
    module stays in the registry as the code left it. *)
Theorem emptied_path_masks_the_outcome
  (json_load : list byte -> result json) (w : world) (name : string) (st : interp)
  (tool : node) (cfg : json) (entry mname : string) (exec_module : loader) :
  dir_lookup name (local_tools_dir w) = Some tool ->
  read_build json_load tool = Ok (cfg, JStr entry, JStr mname) ->
  let tool_path := path_join (local_tools_path w) name in
  find_loader w (path_join tool_path entry) = Some exec_module ->
  (forall module s, sys_path (fst (exec_module module s)) = []) ->
  let fresh := {| mod_name := mname; mod_origin := path_join tool_path entry;
                  mod_dict := ∅ |} in
  let running := register_module mname fresh (push_paths (cwd w) tool_path st) in
  snd (load_tool_local json_load w name st) = Raise IndexError
  /\ fst (load_tool_local json_load w name st) = fst (exec_module fresh running).
Proof.
  intros Htool Hbuilt tool_path Hloader Hempty fresh running.
  unfold load_tool_local. rewrite Htool, Hbuilt. fold tool_path.
  assert (Hstate : fst (import_entry w tool_path cfg (JStr entry) (JStr mname)
                          (push_paths (cwd w) tool_path st))
                   = fst (exec_module fresh running))
    by exact (import_entry_loaded w tool_path cfg entry mname exec_module _ Hloader).
  assert (Hclean : cleanup (cwd w) (JStr mname) (fst (exec_module fresh running))
                   = (fst (exec_module fresh running), Raise IndexError)).
  { unfold cleanup. now rewrite Hempty. }
  split.
  - apply try_finally_masked. now rewrite Hstate, Hclean.
  - now rewrite try_finally_state, Hstate, Hclean.
Qed.

Lemma emptied_path_masks_the_outcome_witness :
  snd (load_tool_local sample_json_load path_clearing_world "calc" script_state)
  = Raise IndexError.
Proof.
  apply (emptied_path_masks_the_outcome sample_json_load path_clearing_world "calc"
           script_state good_folder good_config "main.py" "Tool" clears_path).
  - reflexivity.
  - reflexivity.
  - reflexivity.
  - reflexivity.
Defined.

(** ** Packaging a folder and saving what was packaged *)

Section PackagingFacts.

(** Induction on a node, with the property at hand for every entry of a
    directory. *)
Lemma node_induction (P : node -> Prop) :
  (forall data, P (File data)) ->
  (forall entries, Forall (fun e => P (snd e)) entries -> P (Dir entries)) ->
  forall n, P n.
Proof.
  intros HF HD.
  refine (fix IH (n : node) : P n :=
            match n with
            | File data => HF data
            | Dir entries =>
              HD entries
                 ((fix all (es : list (string * node)) : Forall (fun e => P (snd e)) es :=
                     match es with
                     | [] => @List.Forall_nil _ (fun e => P (snd e))
                     | (k, sub) :: r =>
                       @List.Forall_cons _ (fun e => P (snd e)) (k, sub) r (IH sub) (all r)
                     end) entries)
            end).
Qed.

(** Every regular file below a node is walked once, and nothing else. *)
Lemma walk_length (n : node) : forall prefix, length (walk prefix n) = count_files n.
Proof.
  induction n as [data|entries IH] using node_induction; intros prefix; [reflexivity|].
  cbn [walk count_files]. rewrite List.length_app.
  induction IH as [|[name sub] r Hsub Hr IHr]; [reflexivity|].
  destruct sub as [data|subentries]; cbn [snd] in *.
  - cbn [length]. rewrite <- IHr. lia.
  - rewrite List.length_app, (Hsub (rel_path prefix name)). rewrite <- IHr. lia.
Qed.

Lemma packaged_files_paths (folder : option node) :
  List.map path (packaged_files folder) = List.map fst (folder_files folder).
Proof.
  destruct folder as [n|]; [|reflexivity]. unfold packaged_files, folder_files.
  rewrite List.map_map. reflexivity.
Qed.

Lemma packaged_files_decode (folder : option node) :
  mapM (fun f => Base64.b64decode (content f)) (packaged_files folder)
  = Ok (List.map snd (folder_files folder)).
Proof.
  destruct folder as [n|]; [|reflexivity]. unfold packaged_files, folder_files.
  induction (walk EmptyString n) as [|f l IH]; [reflexivity|].
  cbn [List.map mapM content]. rewrite b64decode_b2a. cbn [bind]. now rewrite IH.
Qed.

(** Saving packaged files assigns the bytes of each file to its path,
    from left to right. *)
Lemma files_dict_packaged (acc : gmap string (list byte)) (l : list (string * list byte)) :
  files_dict acc
    (List.map (fun f => {| path := fst f; content := Base64.b2a_base64 (snd f) |}) l)
  = Ok (fold_left (fun m f => <[fst f := snd f]> m) l acc).
Proof.
  revert acc. induction l as [|f l IH]; intros acc; [reflexivity|].
  cbn [List.map files_dict content path fold_left]. rewrite b64decode_b2a. cbn [bind].
  apply IH.
Qed.

Lemma assoc_Some_In {V : Type} (key : string) (x : V) (d : list (string * V)) :
  assoc key d = Some x -> In (key, x) d.
Proof.
  induction d as [|[k v] d IH]; [discriminate|]. cbn.
  destruct (String.eqb_spec key k) as [->|Hne].
  - intros [= ->]. now left.
  - intros H. right. now apply IH.
Qed.

Lemma assoc_None_not_In {V : Type} (key : string) (d : list (string * V)) :
  ~ In key (List.map fst d) -> assoc key d = None.
Proof.
  induction d as [|[k v] d IH]; [reflexivity|]. cbn. intros H.
  destruct (String.eqb_spec key k) as [->|Hne]; [tauto|]. apply IH. tauto.
Qed.

Lemma assoc_NoDup_In {V : Type} (key : string) (x : V) (d : list (string * V)) :
  NoDup (List.map fst d) -> In (key, x) d -> assoc key d = Some x.
Proof.
  induction d as [|[k v] d IH]; [intros _ []|]. cbn.
  intros Hnd [[= -> ->]|Hin].
  - now rewrite String.eqb_refl.
  - apply NoDup_cons in Hnd as [Hk Hnd].
    destruct (String.eqb_spec key k) as [->|Hne]; [|now apply IH].
    exfalso. apply Hk. apply list_elem_of_In, List.in_map_iff. now exists (k, x).
Qed.

Lemma fold_insert_lookup (l : list (string * list byte)) (acc : gmap string (list byte))
      (p : string) :
  NoDup (List.map fst l) ->
  fold_left (fun m f => <[fst f := snd f]> m) l acc !! p =
  match assoc p l with
  | Some data => Some data
  | None => acc !! p
  end.
Proof.
  revert acc. induction l as [|[k v] l IH]; intros acc Hnd; [reflexivity|].
  cbn [fold_left List.map fst snd assoc] in *.
  apply NoDup_cons in Hnd as [Hk Hnd].
  rewrite (IH _ Hnd). destruct (String.eqb_spec p k) as [->|Hne].
  - rewrite assoc_None_not_In, lookup_insert_eq; [reflexivity|].
    intros H. apply Hk. now apply list_elem_of_In.
  - destruct (assoc p l); [reflexivity|]. now apply lookup_insert_ne.
Qed.

Lemma package_tool_files (json_load : list byte -> result json) (folder : option node)
      (payload : Payload) :
  package_tool json_load folder = Ok payload -> p_files payload = packaged_files folder.
Proof.
  unfold package_tool. rewrite get_tool_files_ok. cbn [bind].
  repeat match goal with
         | |- (let* _ := ?r in _) = _ -> _ => destruct r; cbn [bind]; [|discriminate]
         end.
  now intros [= <-].
Qed.

End PackagingFacts.

(** X15.  The entries that [_get_tool_files] returns for a folder are as
    many as the regular files below the folder: every file gives one
    entry, and directories give no entry of their own. *)
Theorem packaged_files_count (folder : node) (entries : list FileEntry) :
  _get_tool_files (Some folder) = Ok entries ->
  length entries = count_files folder.
Proof.
  rewrite get_tool_files_ok. intros [= <-].
  unfold packaged_files. rewrite List.length_map. apply walk_length.
Qed.

Lemma packaged_files_count_witness :
  length (packaged_files (Some good_folder)) = count_files good_folder.
Proof.
  apply (packaged_files_count good_folder (packaged_files (Some good_folder))).
  reflexivity.
Defined.

(** X16.  Packaging loses nothing: the entries that [_get_tool_files]
    returns carry, in the order of the walk, the relative paths of the
    folder's files, and decoding their contents the way
    [_save_tool_to_cache] does gives the bytes of these files. *)
Theorem packaged_files_decode_to_folder (folder : option node) :
  exists entries,
    _get_tool_files folder = Ok entries
    /\ List.map path entries = List.map fst (folder_files folder)
    /\ mapM (fun f => Base64.b64decode (content f)) entries
       = Ok (List.map snd (folder_files folder)).
Proof.
  exists (packaged_files folder). split; [apply get_tool_files_ok|]. split.
  - apply packaged_files_paths.
  - apply packaged_files_decode.
Qed.

(** X17.  Saving what [package_tool] returned keeps the folder: when the
    relative paths of the folder's files are pairwise distinct, the
    saved package maps a path to some bytes exactly when the folder has
    a file of this path with these bytes, and its metadata are the six
    fields of the payload. *)
Theorem save_after_package_keeps_folder
  (json_load : list byte -> result json) (folder : option node) (payload : Payload)
  (cache_path : string) (store : gmap string ToolPackage) :
  package_tool json_load folder = Ok payload ->
  NoDup (List.map fst (folder_files folder)) ->
  exists pkg : ToolPackage,
    _save_tool_to_cache payload cache_path store = Ok (<[cache_path := pkg]> store)
    /\ metadata pkg = stored_metadata payload
    /\ forall p data, files pkg !! p = Some data <-> In (p, data) (folder_files folder).
Proof.
  intros Hpack Hnd. unfold _save_tool_to_cache.
  rewrite (package_tool_files json_load folder payload Hpack).
  assert (Hdict : files_dict ∅ (packaged_files folder)
                  = Ok (fold_left (fun m f => <[fst f := snd f]> m) (folder_files folder) ∅)).
  { destruct folder as [n|]; [|reflexivity]. apply files_dict_packaged. }
  rewrite Hdict. cbn [bind]. eexists. split; [reflexivity|]. split; [reflexivity|].
  intros p data. cbn [files]. rewrite (fold_insert_lookup _ _ _ Hnd), lookup_empty.
  split.
  - destruct (assoc p (folder_files folder)) as [d|] eqn:E; [|discriminate].
    intros [= <-]. now apply assoc_Some_In.
  - intros Hin. now rewrite (assoc_NoDup_In p data _ Hnd Hin).
Qed.

Lemma good_folder_paths_distinct : NoDup (List.map fst (folder_files (Some good_folder))).
Proof.
  refine (bool_decide_unpack _ _). vm_compute. exact I.
Qed.

Lemma save_after_package_keeps_folder_witness :
  exists payload pkg,
    package_tool sample_json_load (Some good_folder) = Ok payload
    /\ _save_tool_to_cache payload "alice/calc/1-0-0.tool" ∅
       = Ok (<["alice/calc/1-0-0.tool" := pkg]> ∅)
    /\ files pkg !! "main.py" = Some (list_byte_of_string "class Tool: pass").
Proof.
  destruct (package_tool sample_json_load (Some good_folder)) as [payload|e] eqn:H;
    [|discriminate H].
  destruct (save_after_package_keeps_folder sample_json_load (Some good_folder) payload
              "alice/calc/1-0-0.tool" ∅ H good_folder_paths_distinct)
    as (pkg & Hsave & _ & Hfiles).
  exists payload, pkg. split; [reflexivity|]. split; [exact Hsave|].
  apply Hfiles. right. left. reflexivity.
Defined.

(** ** Manifests of ASCII text *)

Section AsciiManifests.

Lemma is_ascii_string_of_bytes (data : list byte) :
  Base64.is_ascii (string_of_list_byte data) = bytes_is_ascii data.
Proof.
  rewrite <- bytes_is_ascii_of_string. now rewrite list_byte_of_string_of_list_byte.
Qed.

(** On ASCII text the lines that declare a name are the same in both
    readings. *)
Lemma requirement_lines_of_string (s : string) :
  Base64.is_ascii s = true ->
  List.filter is_requirement_line (PyText.splitlines (PyText.of_string s))
  = List.map PyText.of_string (List.filter declares_name (PyStr.splitlines s)).
Proof.
  intros H. rewrite (splitlines_of_string s H).
  pose proof (splitlines_from_forallb _ s EmptyString false eq_refl H) as Hlines.
  fold (PyStr.splitlines s) in Hlines.
  induction Hlines as [|line lines Hline _ IH]; [reflexivity|].
  cbn [List.map List.filter]. rewrite (is_requirement_line_of_string line Hline), IH.
  now destruct (declares_name line).
Qed.

End AsciiManifests.

(** X18.  A requirement is met by any installed version of a package
    whose name differs at most in the case of its letters: whatever
    version the manifest line and the listing line carry, or whether
    they carry one at all, the check holds when the two names agree up
    to case, and fails when they do not. *)
Theorem requirement_met_up_to_case_and_version
  (unicode_lower : list N -> list N)
  (pkg : ToolPackage) (dep inst : string) (wanted installed : option string) :
  is_plain_name dep = true ->
  is_plain_name inst = true ->
  match wanted with Some v => is_plain_version v = true | None => True end ->
  match installed with Some v => is_plain_version v = true | None => True end ->
  files pkg !! "requirements.txt" = Some (list_byte_of_string (requirement_line dep wanted)) ->
  check_reqs_installed unicode_lower pkg
    (Ok (list_byte_of_string (requirement_line inst installed)))
  = String.eqb (PyStr.lower dep) (PyStr.lower inst).
Proof.
  intros Hdep Hinst Hwanted Hinstalled Hfile.
  destruct (requirement_line_text dep wanted Hdep Hwanted) as (Hascii & _).
  destruct (requirement_line_text inst installed Hinst Hinstalled) as (Hascii' & _).
  rewrite (check_on_lines unicode_lower pkg _ _ [] (Some (Requirement [] dep wanted []))
             [] (Some (inst, installed)) Hfile).
  - cbn. now rewrite orb_false_r, andb_true_r, equal_up_to_case_lower.
  - unfold manifest_text, file_text. cbn [List.map lines_text line_text List.app].
    rewrite List.app_nil_r. now apply decode_ascii_string.
  - now apply decode_ascii_string.
  - unfold all_lines. cbn [List.map List.app List.forallb is_manifest_line].
    rewrite Hdep. now destruct wanted as [v|]; [rewrite Hwanted|].
  - reflexivity.
  - unfold all_lines, is_package_line. cbn [List.map List.app List.forallb fst snd].
    rewrite Hinst. now destruct installed as [v|]; [rewrite Hinstalled|].
Qed.

Lemma requirement_met_up_to_case_and_version_witness :
  check_reqs_installed (fun s => s)
    (package_with [("requirements.txt", requirement_line "Requests" (Some "2.31.0"))])
    (Ok (list_byte_of_string (requirement_line "requests" (Some "1.0"))))
  = String.eqb (PyStr.lower "Requests") (PyStr.lower "requests").
Proof.
  apply (requirement_met_up_to_case_and_version (fun s => s) _ "Requests" "requests"
           (Some "2.31.0") (Some "1.0")); reflexivity.
Defined.

(** X19.  A manifest that declares nothing, say one that holds only
    comments, is satisfied by every listing of installed packages; but
    when the listing cannot be obtained the same package is reported as
    not satisfied. *)
Theorem empty_manifest_needs_a_listing
  (unicode_lower : list N -> list N) (pkg : ToolPackage) (reqs : list byte) :
  files pkg !! "requirements.txt" = Some reqs ->
  reqs <> [] ->
  bytes_is_ascii reqs = true ->
  declared_names (string_of_list_byte reqs) = [] ->
  (forall stdout, bytes_is_ascii stdout = true ->
                  check_reqs_installed unicode_lower pkg (Ok stdout) = true)
  /\ (forall e, check_reqs_installed unicode_lower pkg (Raise e) = false).
Proof.
  intros Hfile Hne Hascii Hnone. unfold check_reqs_installed. rewrite Hfile.
  destruct reqs as [|b reqs]; [congruence|]. cbn [reqs_missing]. split.
  - intros stdout Hout. cbn [bind]. rewrite (decode_ascii _ Hout).
    cbn [bind default from_option]. unfold id. rewrite (decode_ascii _ Hascii).
    cbn [bind]. unfold required_packages.
    rewrite requirement_lines_of_string by now rewrite is_ascii_string_of_bytes.
    unfold declared_names in Hnone. apply List.map_eq_nil in Hnone. now rewrite Hnone.
  - reflexivity.
Qed.

Lemma empty_manifest_needs_a_listing_witness :
  check_reqs_installed (fun s => s) (package_with [("requirements.txt", "# nothing yet")])
                       (Ok (list_byte_of_string sample_pip_list)) = true
  /\ check_reqs_installed (fun s => s) (package_with [("requirements.txt", "# nothing yet")])
                          (Raise FileNotFoundError) = false.
Proof.
  destruct (empty_manifest_needs_a_listing (fun s => s)
              (package_with [("requirements.txt", "# nothing yet")])
              (list_byte_of_string "# nothing yet")) as [Hok Hfail].
  - reflexivity.
  - discriminate.
  - reflexivity.
  - reflexivity.
  - split; [apply Hok; reflexivity | apply Hfail].
Defined.

(** ** The installer's traces in the cache directory *)

Section InstallerFacts.

Lemma dir_remove_absent (name : string) (entries : list (string * node)) :
  dir_lookup name entries = None -> dir_remove name entries = entries.
Proof.
  unfold dir_lookup. induction entries as [|[k n] r IH]; [reflexivity|]. cbn.
  destruct (String.eqb name k); [discriminate|]. intros H. now rewrite IH.
Qed.

Lemma dir_remove_twice (name : string) (entries : list (string * node)) :
  dir_remove name (dir_remove name entries) = dir_remove name entries.
Proof. apply dir_remove_absent, dir_lookup_remove. Qed.

Lemma unlink_written (name : string) (data : list byte) (entries : list (string * node)) :
  unlink_missing_ok name (dir_write name data entries) = (dir_remove name entries, Ok tt).
Proof.
  unfold unlink_missing_ok. rewrite dir_lookup_write. unfold dir_write. cbn.
  now rewrite String.eqb_refl, dir_remove_twice.
Qed.

Lemma install_with_quiet_installer
      (pkg : ToolPackage) (pip_install : installer) (cache_dir : list (string * node)) :
  reqs_missing (files pkg !! "requirements.txt") = false ->
  scratch_unlinkable cache_dir ->
  (forall entries, fst (pip_install entries) = entries) ->
  install_tool_reqs pkg pip_install cache_dir =
  (dir_remove temp_reqs_name cache_dir,
   match snd (pip_install
                (dir_write temp_reqs_name (default [] (files pkg !! "requirements.txt"))
                           cache_dir)) with
   | Exit _ => Ok tt
   | Fault (CalledProcessError _) => Ok tt
   | Fault e => Raise e
   end).
Proof.
  intros Hreqs Hscratch Hquiet. unfold install_tool_reqs. rewrite Hreqs.
  set (written := dir_write temp_reqs_name _ cache_dir).
  assert (Hrun : pip_install written = (written, snd (pip_install written))).
  { rewrite <- (Hquiet written) at 2. now destruct (pip_install written). }
  destruct (dir_lookup temp_reqs_name cache_dir) as [[d|sub]|] eqn:E.
  - rewrite Hrun. unfold written. rewrite unlink_written.
    destruct (snd (pip_install _)) as [code|e]; [now destruct (code =? 0)%Z|].
    now destruct e.
  - now destruct (Hscratch sub).
  - rewrite Hrun. unfold written. rewrite unlink_written.
    destruct (snd (pip_install _)) as [code|e]; [now destruct (code =? 0)%Z|].
    now destruct e.
Qed.

End InstallerFacts.

(** X20.  When the installer itself does not write to the cache
    directory, installing leaves the directory without the scratch
    file and otherwise as it was: a cache that had no file of that name
    is unchanged, and a file of that name that was there before the
    call is gone after it. *)
Theorem install_leaves_no_trace
  (pkg : ToolPackage) (pip_install : installer) (cache_dir : list (string * node)) :
  reqs_missing (files pkg !! "requirements.txt") = false ->
  scratch_unlinkable cache_dir ->
  (forall entries, fst (pip_install entries) = entries) ->
  fst (install_tool_reqs pkg pip_install cache_dir) = dir_remove temp_reqs_name cache_dir
  /\ (dir_lookup temp_reqs_name cache_dir = None ->
      fst (install_tool_reqs pkg pip_install cache_dir) = cache_dir)
  /\ dir_lookup temp_reqs_name (fst (install_tool_reqs pkg pip_install cache_dir)) = None.
Proof.
  intros Hreqs Hscratch Hquiet.
  rewrite (install_with_quiet_installer pkg pip_install cache_dir Hreqs Hscratch Hquiet).
  cbn [fst]. split; [reflexivity|]. split.
  - intros H. now apply dir_remove_absent.
  - apply dir_lookup_remove.
Qed.

Lemma install_leaves_no_trace_witness :
  fst (install_tool_reqs (package_with [("requirements.txt", "flask==3.0")]) (quiet_pip 1)
         [("temp_requirements.txt", File []); ("alice", Dir [])])
  = [("alice", Dir [])].
Proof.
  apply (install_leaves_no_trace (package_with [("requirements.txt", "flask==3.0")])
           (quiet_pip 1) [("temp_requirements.txt", File []); ("alice", Dir [])]).
  - reflexivity.
  - intros sub. discriminate.
  - reflexivity.
Defined.

(** X21.  Only a failed installer run is swallowed: the call returns
    normally when the installer ends with any exit status, and an
    exception other than [CalledProcessError], such as the one raised
    when the interpreter cannot be started, reaches the caller. *)
Theorem install_swallows_only_process_failures
  (pkg : ToolPackage) (pip_install : installer) (cache_dir : list (string * node)) :
  reqs_missing (files pkg !! "requirements.txt") = false ->
  scratch_unlinkable cache_dir ->
  (forall entries, fst (pip_install entries) = entries) ->
  let written := dir_write temp_reqs_name (default [] (files pkg !! "requirements.txt"))
                           cache_dir in
  (forall code, snd (pip_install written) = Exit code ->
                snd (install_tool_reqs pkg pip_install cache_dir) = Ok tt)
  /\ (forall e, snd (pip_install written) = Fault e ->
                (forall code, e <> CalledProcessError code) ->
                snd (install_tool_reqs pkg pip_install cache_dir) = Raise e).
Proof.
  intros Hreqs Hscratch Hquiet written.
  rewrite (install_with_quiet_installer pkg pip_install cache_dir Hreqs Hscratch Hquiet).
  fold written. cbn [snd]. split.
  - now intros code ->.
  - intros e -> He. destruct e; try reflexivity. now destruct (He code).
Qed.

Lemma install_swallows_only_process_failures_witness :
  snd (install_tool_reqs (package_with [("requirements.txt", "flask==3.0")]) (quiet_pip 1) [])
  = Ok tt
  /\ snd (install_tool_reqs (package_with [("requirements.txt", "flask==3.0")]) absent_pip [])
     = Raise (OSError "no interpreter").
Proof.
  split.
  - apply (proj1 (install_swallows_only_process_failures
                    (package_with [("requirements.txt", "flask==3.0")]) (quiet_pip 1) []
                    eq_refl (fun sub => ltac:(discriminate)) (fun _ => eq_refl)) 1%Z).
    reflexivity.
  - apply (proj2 (install_swallows_only_process_failures
                    (package_with [("requirements.txt", "flask==3.0")]) absent_pip []
                    eq_refl (fun sub => ltac:(discriminate)) (fun _ => eq_refl))
                 (OSError "no interpreter")).
    + reflexivity.
    + intros code. discriminate.
Defined.

(** ** The listing of available tools *)

Section ListingFacts.

Variable str_of_other : json -> string.

Lemma char_code_eqb (ch c : ascii) : (N_of_ascii c =? N_of_ascii ch)%N = Ascii.eqb ch c.
Proof.
  destruct (Ascii.eqb_spec ch c) as [<-|Hne]; [apply N.eqb_refl|].
  apply N.eqb_neq. intros H. apply Hne.
  now rewrite <- (ascii_N_embedding ch), <- (ascii_N_embedding c), H.
Qed.

Lemma split_char_cons (ch c : ascii) (s : string) :
  PyStr.split (String c s) (String ch EmptyString) =
  if Ascii.eqb ch c then EmptyString :: PyStr.split s (String ch EmptyString)
  else match PyStr.split s (String ch EmptyString) with
       | p :: ps => String c p :: ps
       | [] => [String c EmptyString]
       end.
Proof.
  unfold PyStr.split. cbn [PyStr.split_from PyStr.startswith String.length Nat.sub].
  unfold PyStr.char_eqb. rewrite andb_true_r.
  destruct (Ascii.eqb ch c); now destruct (PyStr.split_from (String ch EmptyString) 0 s).
Qed.

Lemma split_without_separator (ch : ascii) (a : string) :
  PyStr.forallb (fun c => negb (Ascii.eqb ch c)) a = true ->
  PyStr.split a (String ch EmptyString) = [a].
Proof.
  induction a as [|c a IH]; [reflexivity|]. cbn. intros [Hc Ha]%andb_prop.
  rewrite split_char_cons. apply negb_true_iff in Hc. now rewrite Hc, (IH Ha).
Qed.

Lemma split_at_separator (ch : ascii) (a rest : string) :
  PyStr.forallb (fun c => negb (Ascii.eqb ch c)) a = true ->
  PyStr.split (a +:+ String ch rest) (String ch EmptyString)
  = a :: PyStr.split rest (String ch EmptyString).
Proof.
  induction a as [|c a IH].
  - intros _. rewrite app_nil, split_char_cons. now rewrite Ascii.eqb_refl.
  - cbn. intros [Hc Ha]%andb_prop. rewrite app_cons, split_char_cons.
    apply negb_true_iff in Hc. now rewrite Hc, (IH Ha).
Qed.

Lemma no_slash_chars (s : string) :
  has_no_slash s = true -> PyStr.forallb (fun c => negb (Ascii.eqb "/" c)) s = true.
Proof.
  apply forallb_impl. intros c. unfold is_slash.
  now rewrite <- (char_code_eqb "/" c).
Qed.

(** The identifier of a listed tool splits into its three parts. *)
Lemma identifier_splits (a n v : string) :
  has_no_slash a = true -> has_no_slash n = true -> has_no_slash v = true ->
  PyStr.split (a +:+ "/" +:+ n +:+ "/" +:+ v) "/" = [a; n; v].
Proof.
  intros Ha Hn Hv.
  change (a +:+ "/" +:+ n +:+ "/" +:+ v) with (a +:+ String "/" (n +:+ String "/" v)).
  rewrite (split_at_separator "/" a _ (no_slash_chars a Ha)).
  rewrite (split_at_separator "/" n _ (no_slash_chars n Hn)).
  now rewrite (split_without_separator "/" v (no_slash_chars v Hv)).
Qed.

Lemma subscript_member (item : json) (key : string) (v : json) :
  subscript item key = Ok v <-> member item key = Some v.
Proof.
  unfold subscript, member. destruct item; try (split; discriminate).
  destruct (assoc key fields); split; congruence.
Qed.

Lemma listing_of_ok (item : json) (l : ToolListing) :
  listing_of str_of_other item = Ok l ->
  exists author name version,
    member item "author" = Some author
    /\ member item "name" = Some name
    /\ member item "version" = Some version
    /\ tool l = format_value str_of_other author +:+ "/"
                +:+ format_value str_of_other name +:+ "/"
                +:+ format_value str_of_other version
    /\ type l = top_or item "tool_type" (JStr "generic")
    /\ description l = top_or item "description" (JStr EmptyString).
Proof.
  unfold listing_of.
  destruct (subscript item "author") as [author|e] eqn:Ea; [|discriminate].
  destruct (subscript item "name") as [name|e] eqn:En; [|discriminate].
  destruct (subscript item "version") as [version|e] eqn:Ev; [|discriminate].
  cbn [bind]. apply subscript_member in Ea, En, Ev.
  assert (Hobj : is_object item = true) by (destruct item; try discriminate; reflexivity).
  rewrite !(dict_get_member _ _ _ Hobj). cbn [bind]. intros [= <-].
  exists author, name, version. cbn. tauto.
Qed.

Lemma listing_of_missing (item : json) :
  member item "author" = None \/ member item "name" = None
  \/ member item "version" = None ->
  is_ok (listing_of str_of_other item) = false.
Proof.
  intros H. destruct (listing_of str_of_other item) as [l|e] eqn:E; [|reflexivity].
  apply listing_of_ok in E as (a & n & v & Ha & Hn & Hv & _).
  destruct H as [H|[H|H]]; congruence.
Qed.

Lemma mapM_fails {A B : Type} (f : A -> result B) (l : list A) (x : A) :
  In x l -> is_ok (f x) = false -> is_ok (mapM f l) = false.
Proof.
  induction l as [|a l IH]; [intros []|]. intros Hx Hfx. cbn.
  destruct (f a) as [b|e] eqn:Ea; [|reflexivity].
  destruct Hx as [->|Hx]; [rewrite Ea in Hfx; discriminate|].
  cbn. specialize (IH Hx Hfx). now destruct (mapM f l).
Qed.

End ListingFacts.

(** X22.  The listing has one element for every tool of the answer, and
    each element comes from a tool of the answer: its type and
    description are those of the tool, or "generic" and the empty text
    when the tool has none, and when author, name and version are texts
    without a slash, splitting the identifier at the slashes gives them
    back. *)
Theorem listing_identifier_splits
  (str_of_other : json -> string) (items : list json) (listing : list ToolListing) :
  list_available_tools str_of_other (Ok (JArr items)) = Ok listing ->
  length listing = length items
  /\ forall l, In l listing ->
       exists item,
         In item items
         /\ type l = top_or item "tool_type" (JStr "generic")
         /\ description l = top_or item "description" (JStr EmptyString)
         /\ forall a n v,
             member item "author" = Some (JStr a) ->
             member item "name" = Some (JStr n) ->
             member item "version" = Some (JStr v) ->
             has_no_slash a = true -> has_no_slash n = true -> has_no_slash v = true ->
             PyStr.split (tool l) "/" = [a; n; v].
Proof.
  cbn [list_available_tools bind]. intros H. split; [exact (mapM_ok_length _ _ _ H)|].
  intros l Hl. destruct (mapM_ok_backward _ _ _ H l Hl) as (item & Hitem & Hof).
  apply listing_of_ok in Hof as (author & name & version & Ha & Hn & Hv & Htool & Hty & Hd).
  exists item. repeat split; try assumption.
  intros a n v Ha' Hn' Hv' Hsa Hsn Hsv.
  rewrite Ha in Ha'. rewrite Hn in Hn'. rewrite Hv in Hv'.
  injection Ha' as ->. injection Hn' as ->. injection Hv' as ->.
  rewrite Htool. cbn [format_value]. now apply identifier_splits.
Qed.

Lemma listing_identifier_splits_witness :
  exists listing,
    list_available_tools (fun _ => "?")
      (Ok (JArr [JObj [("author", JStr "alice"); ("name", JStr "calc");
                       ("version", JStr "1.0.0")]])) = Ok listing
    /\ length listing = 1%nat.
Proof.
  eexists. split; [vm_compute; reflexivity|].
  apply (listing_identifier_splits (fun _ => "?")
           [JObj [("author", JStr "alice"); ("name", JStr "calc"); ("version", JStr "1.0.0")]]).
  vm_compute. reflexivity.
Defined.

(** X23.  The listing is all or nothing: one tool of the answer that is
    not an object, or that lacks its author, name or version, makes the
    whole call raise, whatever the other tools are. *)
Theorem listing_fails_on_one_incomplete_tool
  (str_of_other : json -> string) (items : list json) (item : json) :
  In item items ->
  member item "author" = None \/ member item "name" = None
  \/ member item "version" = None ->
  is_ok (list_available_tools str_of_other (Ok (JArr items))) = false.
Proof.
  intros Hin Hmissing. cbn [list_available_tools bind].
  apply (mapM_fails _ items item Hin). now apply listing_of_missing.
Qed.

Lemma listing_fails_on_one_incomplete_tool_witness :
  is_ok (list_available_tools (fun _ => "?")
           (Ok (JArr [JObj [("author", JStr "alice"); ("name", JStr "calc");
                            ("version", JStr "1.0.0")];
                      JObj [("author", JStr "bob"); ("name", JStr "plot")]]))) = false.
Proof.
  apply (listing_fails_on_one_incomplete_tool (fun _ => "?") _
           (JObj [("author", JStr "bob"); ("name", JStr "plot")])).
  - right. left. reflexivity.
  - right. right. reflexivity.
Defined.

(** ** The search path after a local load, in general *)

(** X24.  When the tool's code does not change [sys.path], a local load
    leaves the search path exactly as it was, on success and on every
    failure, unless the working directory is the first entry of the
    path and the load reaches the [try] statement; in that case the
    first entry is lost and the rest is kept. *)
Theorem local_load_search_path
  (json_load : list byte -> result json) (w : world) (name : string) (st : interp) :
  path_stable w ->
  (hd_error (sys_path st) <> Some (cwd w) ->
   sys_path (fst (load_tool_local json_load w name st)) = sys_path st)
  /\ (forall tool built others,
        dir_lookup name (local_tools_dir w) = Some tool ->
        read_build json_load tool = Ok built ->
        sys_path st = cwd w :: others ->
        sys_path (fst (load_tool_local json_load w name st)) = others)
  /\ (forall tool e,
        dir_lookup name (local_tools_dir w) = Some tool ->
        read_build json_load tool = Raise e ->
        load_tool_local json_load w name st = (st, Raise e)).
Proof.
  intros Hstable. split; [|split].
  - now apply load_tool_restores_path.
  - intros tool built others. now apply load_tool_drops_head.
  - intros tool e Htool Hbuilt. unfold load_tool_local. now rewrite Htool, Hbuilt.
Qed.

Lemma local_load_search_path_witness :
  sys_path (fst (load_tool_local sample_json_load sample_world "calc"
                   {| sys_path := ["/usr/lib/python3"; "/work"]; sys_modules := ∅ |}))
  = ["/usr/lib/python3"; "/work"].
Proof.
  apply (proj1 (local_load_search_path sample_json_load sample_world "calc"
                  {| sys_path := ["/usr/lib/python3"; "/work"]; sys_modules := ∅ |}
                  sample_world_path_stable)).
  discriminate.
Defined.
